(** * BottleSaml: a SAML2 service provider for Bottle

    A shallow embedding of the three modules of the package

      - [reqID.py]    request identifiers (class [ReqID]),
      - [SamlSP.py]   the service provider (class [SamlSP]),
      - [SamlAuth.py] the route middleware (class [SamlAuth]),

    followed by the properties established about them.

    Python values are embedded as the inductive type [pyval]; a Python
    computation that may raise is a value of [result]; a [str] is the
    sequence of the bytes of its UTF-8 encoding, a [string] like a
    [bytes] value, so that [str.encode] and [bytes.decode] are the
    identity; integers are [Z]; the clock [int(time.time())] is an
    explicit argument [now].  [str.lower] acts on the characters of
    Unicode, which are not written out here: it is an argument of
    [SamlSP.init], and [Str.lower] is what it does on ASCII text. *)

From Stdlib Require Import ZArith List Bool Lia.
From Stdlib Require Import Strings.String Strings.Ascii.
Import ListNotations.

Set Warnings "-register-all".

Open Scope string_scope.
Open Scope Z_scope.

(** ** Python strings *)

Module Str.

(** [len(s)] *)
Definition len (s : string) : Z := Z.of_nat (String.length s).

(** [s.startswith(p)] *)
Fixpoint startswith (s p : string) {struct p} : bool :=
  match p, s with
  | EmptyString, _ => true
  | String a p', String b s' => Ascii.eqb a b && startswith s' p'
  | String _ _, EmptyString => false
  end.

(** [s.find(sub)]: the lowest index where [sub] starts, or [-1]. *)
Fixpoint find_from (s sub : string) : option nat :=
  if startswith s sub then Some O
  else match s with
       | EmptyString => None
       | String _ s' => option_map S (find_from s' sub)
       end.

Definition find (s sub : string) : Z :=
  match find_from s sub with
  | Some n => Z.of_nat n
  | None => -1
  end.

(** [s[:k]]: a negative bound counts from the end, and bounds are
    clipped to the string. *)
Definition slice_to (s : string) (k : Z) : string :=
  let n := len s in
  let k' := if k <? 0 then Z.max 0 (k + n) else Z.min k n in
  String.substring 0 (Z.to_nat k') s.

(** [s[k:]] for [0 <= k]. *)
Fixpoint drop (k : nat) (s : string) : string :=
  match k, s with
  | O, _ => s
  | S k', String _ s' => drop k' s'
  | S _, EmptyString => EmptyString
  end.

Definition slice_from (s : string) (k : Z) : string := drop (Z.to_nat k) s.

(** [n * c]: the empty string when [n <= 0]. *)
Fixpoint replicate (n : nat) (c : ascii) : string :=
  match n with
  | O => EmptyString
  | S n' => String c (replicate n' c)
  end.

Definition repeat (n : Z) (c : ascii) : string := replicate (Z.to_nat n) c.

(** [sub in s] *)
Fixpoint occurs (s sub : string) : bool :=
  startswith s sub
  || match s with
     | EmptyString => false
     | String _ s' => occurs s' sub
     end.

(** [c in s] for one character. *)
Fixpoint mem (c : ascii) (s : string) : bool :=
  match s with
  | EmptyString => false
  | String c' s' => Ascii.eqb c' c || mem c s'
  end.

(** A text of ASCII characters only. *)
Fixpoint is_ascii (s : string) : bool :=
  match s with
  | EmptyString => true
  | String c s' => Nat.ltb (nat_of_ascii c) 128 && is_ascii s'
  end.

(** [s.lower()] for a text [s] of ASCII characters: the letters [A]
    to [Z] become [a] to [z].  The bytes above 127, the parts of the
    other characters of Unicode, are left as they are: which is what
    [str.lower()] does with a character that has no lower-case form,
    and not what it does with the others. *)
Definition is_upper (c : ascii) : bool :=
  let n := nat_of_ascii c in (Nat.leb 65 n && Nat.leb n 90)%bool.

Definition lower_char (c : ascii) : ascii :=
  if is_upper c then ascii_of_nat (nat_of_ascii c + 32) else c.

Fixpoint lower (s : string) : string :=
  match s with
  | EmptyString => EmptyString
  | String c s' => String (lower_char c) (lower s')
  end.

(** What is used of [str.lower()] on any text: on ASCII text it is
    the function above, and a lower-cased text is not changed by
    lower-casing it again. *)
Definition lower_contract (f : string -> string) : Prop :=
  (forall s, is_ascii s = true -> f s = lower s) /\
  (forall s, f (f s) = f s).

End Str.

(** ** Python values and exceptions *)

Module Py.

(** The exceptions the modelled code can meet. [HookError] stands for
    whatever a user supplied login hook raises. *)
Inductive exc : Type :=
| KeyError (key : string)
| TypeError
| AttributeError
| IndexError
| ValueError
| InvalidToken
| Exception (msg : string)
| HookError (msg : string).

Inductive result (A : Type) : Type :=
| Ok (a : A)
| Raise (e : exc).
Arguments Ok {A} a.
Arguments Raise {A} e.

Definition bind {A B} (m : result A) (k : A -> result B) : result B :=
  match m with
  | Ok a => k a
  | Raise e => Raise e
  end.

(** [try: m  except Exception as e: h e] *)
Definition try_except {A} (m : result A) (h : exc -> result A) : result A :=
  match m with
  | Ok a => Ok a
  | Raise e => h e
  end.

(** [str(e)] for the log and error messages built from an exception. *)
Definition str_exc (e : exc) : string :=
  match e with
  | KeyError k => "'" ++ k ++ "'"
  | TypeError => "TypeError"
  | AttributeError => "AttributeError"
  | IndexError => "IndexError"
  | ValueError => "ValueError"
  | InvalidToken => ""
  | Exception m => m
  | HookError m => m
  end.

(** Values: [None], booleans, integers, strings, lists and
    dictionaries with string keys.  A dictionary is the list of its
    items in insertion order; a key is looked up at its first
    occurrence and the operations below never introduce a second. *)
Inductive pyval : Type :=
| PNone
| PBool (b : bool)
| PInt (z : Z)
| PStr (s : string)
| PList (l : list pyval)
| PDict (d : list (string * pyval)).

Definition dict : Type := list (string * pyval).

(** Truth value testing, [bool(v)]. *)
Definition truthy (v : pyval) : bool :=
  match v with
  | PNone => false
  | PBool b => b
  | PInt z => negb (z =? 0)
  | PStr s => negb (s =? "")%string
  | PList l => match l with [] => false | _ => true end
  | PDict d => match d with [] => false | _ => true end
  end.

(** *** Dictionaries *)

Fixpoint dict_get (d : dict) (k : string) : option pyval :=
  match d with
  | [] => None
  | (k', v) :: d' => if (k' =? k)%string then Some v else dict_get d' k
  end.

(** [k in d] *)
Definition dict_mem (d : dict) (k : string) : bool :=
  match dict_get d k with Some _ => true | None => false end.

(** [d[k] = v]: replaces the value of an existing key in place,
    appends a new key. *)
Fixpoint dict_set (d : dict) (k : string) (v : pyval) : dict :=
  match d with
  | [] => [(k, v)]
  | (k', v') :: d' =>
      if (k' =? k)%string then (k', v) :: d' else (k', v') :: dict_set d' k v
  end.

(** [d.update(e)] *)
Definition dict_update (d e : dict) : dict :=
  fold_left (fun acc kv => dict_set acc (fst kv) (snd kv)) e d.

Definition dict_keys (d : dict) : list string := map fst d.

(** *** Subscription and comparison *)

(** [v[k]] for a string key [k]: a dictionary answers or raises
    [KeyError]; lists and strings want integer indices, the other
    values are not subscriptable. *)
Definition getitem (v : pyval) (k : string) : result pyval :=
  match v with
  | PDict d =>
      match dict_get d k with
      | Some x => Ok x
      | None => Raise (KeyError k)
      end
  | _ => Raise TypeError
  end.

(** [v >= n] for an integer [n]; [bool] is a subclass of [int]. *)
Definition ge_int (v : pyval) (n : Z) : result bool :=
  match v with
  | PInt z => Ok (n <=? z)
  | PBool b => Ok (n <=? (if b then 1 else 0))
  | _ => Raise TypeError
  end.

(** [a == b].  Booleans compare as the integers 0 and 1, lists
    element by element, dictionaries by their key sets and the values
    under each key. *)
Fixpoint eqb (a b : pyval) {struct a} : bool :=
  match a, b with
  | PNone, PNone => true
  | PBool x, PBool y => Bool.eqb x y
  | PBool x, PInt y => (if x then 1 else 0) =? y
  | PInt x, PBool y => x =? (if y then 1 else 0)
  | PInt x, PInt y => x =? y
  | PStr x, PStr y => (x =? y)%string
  | PList xs, PList ys =>
      (fix list_eqb (l : list pyval) (r : list pyval) {struct l} : bool :=
         match l, r with
         | [], [] => true
         | x :: l', y :: r' => eqb x y && list_eqb l' r'
         | _, _ => false
         end) xs ys
  | PDict d, PDict e =>
      (Nat.eqb (List.length d) (List.length e)) &&
      (fix items_in (l : list (string * pyval)) {struct l} : bool :=
         match l with
         | [] => true
         | (k, v) :: l' =>
             match dict_get e k with
             | Some w => eqb v w && items_in l'
             | None => false
             end
         end) d
  | _, _ => false
  end.

(** [x in l] for a list [l]. *)
Definition list_contains (l : list pyval) (x : pyval) : bool :=
  existsb (fun y => eqb x y) l.

(** [k in v] for a string [k]: a key of a dictionary, an element of
    a list, a part of a string; the other values are not containers. *)
Definition contains (v : pyval) (k : string) : result bool :=
  match v with
  | PDict d => Ok (dict_mem d k)
  | PList l => Ok (list_contains l (PStr k))
  | PStr s => Ok (Str.occurs s k)
  | _ => Raise TypeError
  end.

End Py.

Import Py.

Notation "x <- m ;; k" := (Py.bind m (fun x => k))
  (at level 61, m at next level, right associativity).

(** ** The libraries behind [reqID.py] *)

(** [base64.urlsafe_b64encode], the text encoding of a Fernet token:
    three bytes become four characters of the URL-safe alphabet, and a
    last group of one or two bytes is filled up with [=]. *)
Module Base64.

Definition alphabet : string :=
  "ABCDEFGHIJKLMNOPQRSTUVWXYZabcdefghijklmnopqrstuvwxyz0123456789-_".

Definition sextet (n : nat) : ascii :=
  match String.get (n mod 64)%nat alphabet with
  | Some c => c
  | None => "A"%char
  end.

Definition pad : ascii := "="%char.

Fixpoint urlsafe_b64encode (s : string) : string :=
  match s with
  | EmptyString => EmptyString
  | String a EmptyString =>
      let x := nat_of_ascii a in
      String (sextet (x / 4))
        (String (sextet ((x mod 4) * 16))
           (String pad (String pad EmptyString)))
  | String a (String b EmptyString) =>
      let x := nat_of_ascii a in
      let y := nat_of_ascii b in
      String (sextet (x / 4))
        (String (sextet ((x mod 4) * 16 + y / 16))
           (String (sextet ((y mod 16) * 4))
              (String pad EmptyString)))
  | String a (String b (String c rest)) =>
      let x := nat_of_ascii a in
      let y := nat_of_ascii b in
      let z := nat_of_ascii c in
      String (sextet (x / 4))
        (String (sextet ((x mod 4) * 16 + y / 16))
           (String (sextet ((y mod 16) * 4 + z / 64))
              (String (sextet (z mod 64))
                 (urlsafe_b64encode rest))))
  end.

(** The number of [=] that end the encoding of [n] bytes. *)
Definition padding (n : nat) : nat := ((3 - n mod 3) mod 3)%nat.

End Base64.

(** [cryptography.fernet.Fernet]: an object built from a key, with the
    two methods the module calls.  [encrypt] reads the clock and draws
    an initialisation vector, which are explicit arguments here;
    [decrypt] reads the clock and raises [InvalidToken] on every token
    it does not accept (not base64, wrong version, bad signature, bad
    padding, older than [ttl]). *)
Record Fernet : Type := {
  encrypt : Z -> string -> string -> string;       (* clock, iv, data *)
  decrypt : Z -> string -> Z -> result string      (* clock, token, ttl *)
}.

(** A Fernet token is the URL-safe base64 text of
    version (1) + timestamp (8) + iv (16) + ciphertext + hmac (32)
    bytes, the ciphertext being the data padded to the next multiple of
    the 16 byte block. *)
Definition fernet_payload_len (data : string) : nat :=
  (57 + 16 * (String.length data / 16 + 1))%nat.

(** What the module relies on, for the one text [data] it encrypts
    with the time to live [ttl]: a token is the base64 text of a
    payload of that length, and [decrypt] gives the data back as long
    as the token is not older than [ttl] seconds. *)
Definition fernet_contract (f : Fernet) (data : string) (ttl : Z) : Prop :=
  forall (t : Z) (iv : string),
    (exists payload,
        String.length payload = fernet_payload_len data /\
        encrypt f t iv data = Base64.urlsafe_b64encode payload) /\
    (forall now, t <= now <= t + ttl ->
                 decrypt f now (encrypt f t iv data) ttl = Ok data).

(** ** reqID.py *)

Module ReqID.

(** [ReqID.__init__] binds the two methods according to [idpok]; the
    strict object keeps the Fernet object, the encoded id and the
    time to live. *)
Inductive t : Type :=
| IdpOk
| NoIdp (f : Fernet) (id : string) (ttl : Z).

(** [ReqID(idpok, id, ttl)], with [f] the object
    [Fernet(Fernet.generate_key())]. *)
Definition init (idpok : bool) (f : Fernet) (id : string) (ttl : Z) : t :=
  if negb idpok then NoIdp f id ttl else IdpOk.

Definition default_id : string := "ReqID".
Definition default_ttl : Z := 30.

(** [__idpok_new_requestID]; [rnd] is [token_urlsafe(8)]. *)
Definition idpok_new_requestID (rnd : string) : string := "ID" ++ rnd.

(** [__idpok_validate_requestID] *)
Definition idpok_validate_requestID (reqid : pyval) : result bool := Ok true.

(** [__noidp_new_requestID] *)
Definition noidp_new_requestID (f : Fernet) (id : string)
           (now : Z) (iv : string) : string :=
  let reqid := encrypt f now iv id in
  "Id" ++ Str.slice_to reqid (Str.find reqid "=").

(** [reqid.startswith('Id')]: only a string has the method. *)
Definition startswith (reqid : pyval) (p : string) : result bool :=
  match reqid with
  | PStr s => Ok (Str.startswith s p)
  | _ => Raise AttributeError
  end.

Definition as_str (reqid : pyval) : string :=
  match reqid with PStr s => s | _ => EmptyString end.

(** The [try] block of [__noidp_validate_requestID]: [Some b] when a
    [return b] is executed, [None] when the block is left at its end. *)
Definition noidp_validate_body (f : Fernet) (id : string) (ttl : Z)
           (now : Z) (reqid : pyval) : result (option bool) :=
  ok <- startswith reqid "Id" ;;
  if negb ok then Raise (Exception "Invalid Request ID")
  else
    (* remove 'Id' prefix *)
    let reqid := Str.slice_from (as_str reqid) 2 in
    (* replace base64 padding *)
    let reqid := reqid ++ Str.repeat (4 - Str.len reqid mod 4) Base64.pad in
    mess <- decrypt f now reqid ttl ;;
    if truthy (PStr mess) then
      if (mess =? id)%string then Ok (Some true) else Ok None
    else Ok None.

(** [__noidp_validate_requestID]; [DEBUG] is the module constant
    [os.getenv('DEBUG', False)]. *)
Definition noidp_validate_requestID (DEBUG : pyval) (f : Fernet)
           (id : string) (ttl : Z) (now : Z) (reqid : pyval) : result bool :=
  r <- try_except (noidp_validate_body f id ttl now reqid)
         (fun e => if truthy DEBUG then Raise e else Ok None) ;;
  match r with
  | Some b => Ok b
  | None => Ok false
  end.

(** The bound methods. *)
Definition new_requestID (r : t) (now : Z) (rnd : string) : string :=
  match r with
  | IdpOk => idpok_new_requestID rnd
  | NoIdp f id _ => noidp_new_requestID f id now rnd
  end.

Definition validate_requestID (DEBUG : pyval) (r : t) (now : Z)
           (reqid : pyval) : result bool :=
  match r with
  | IdpOk => idpok_validate_requestID reqid
  | NoIdp f id ttl => noidp_validate_requestID DEBUG f id ttl now reqid
  end.

End ReqID.

(** ** Bottle's response object *)

Module Response.

Record t : Type := {
  status : Z;
  headers : list (string * string);
  body : string
}.

(** The response of a request before any handler touched it. *)
Definition default : t := {| status := 200; headers := []; body := "" |}.

Definition set_status (r : t) (s : Z) : t :=
  {| status := s; headers := headers r; body := body r |}.

Definition set_body (r : t) (b : string) : t :=
  {| status := status r; headers := headers r; body := b |}.

(** [_hval(v)], which [add_header], [set_header] and
    [headers.update] apply to the value they are given: Bottle raises
    [ValueError] for a value that holds a line feed, a carriage return
    or a NUL character, and stores nothing. *)
Definition hval_ok (v : string) : bool :=
  negb (Str.mem (ascii_of_nat 10) v
        || Str.mem (ascii_of_nat 13) v
        || Str.mem (ascii_of_nat 0) v).

Definition hval (v : string) : result string :=
  if hval_ok v then Ok v else Raise ValueError.

(** [response.add_header(k, v)], for a value that [hval] lets
    through, keeps the earlier values of [k]. *)
Definition add_header (r : t) (k v : string) : t :=
  {| status := status r; headers := headers r ++ [(k, v)]; body := body r |}.

(** [response.set_header(k, v)], for a value that [hval] lets
    through, replaces them. *)
Definition set_header (r : t) (k v : string) : t :=
  {| status := status r;
     headers := filter (fun kv => negb (fst kv =? k)%string) (headers r)
                  ++ [(k, v)];
     body := body r |}.

(** [response.headers.update(d)] *)
Definition update_headers (r : t) (d : list (string * string)) : t :=
  fold_left (fun acc kv => set_header acc (fst kv) (snd kv)) d r.

(** All the values sent for a header. *)
Definition get_all (r : t) (k : string) : list string :=
  map snd (filter (fun kv => (fst kv =? k)%string) (headers r)).

End Response.

(** ** SamlSP.py *)

Module SamlSP.

(** *** What the module gets from outside *)

(** minisaml's validated response. *)
Record Attribute : Type := {
  name : string;
  values : list string
}.

Record SamlResponse : Type := {
  name_id : string;
  in_response_to : option string;
  issuer : string;
  audience : string;
  attributes : list Attribute
}.

(** The functions of [urllib.parse] and [minisaml] that are called.
    [get_request_redirect_url] takes the endpoint, the expected
    audience, the ACS url, the force flag, the request id and the
    relay state; [validate_response] takes the data, the certificate
    and the expected audience. *)
Record Lib : Type := {
  urlencode : list (string * string) -> string;
  parse_qs : string -> list (string * list string);
  get_request_redirect_url :
    string -> string -> option string -> bool -> string -> option string -> string;
  validate_response : string -> string -> string -> result SamlResponse
}.

(** Bottle's request, as far as it is read. *)
Record Request : Type := {
  url : string;
  forms : list (string * string);
  session : pyval
}.

(** The configuration dictionary; an optional key is [None] when the
    dictionary does not have it. *)
Record Config : Type := {
  cfg_saml_endpoint : string;
  cfg_spid : string;
  cfg_issuer : string;
  cfg_certificate : string;
  cfg_force_reauth : option bool;
  cfg_user_attr : option string;
  cfg_assertions : option (list string);
  cfg_acs_url : option string;
  cfg_authn_all_routes : option bool;
  cfg_auth_duration : option Z;
  cfg_idp_ok : option bool;
  cfg_reqid_life : option Z
}.

(** [config.get(key, default)] *)
Definition get {A} (o : option A) (default : A) : A :=
  match o with Some a => a | None => default end.

(** A login hook appended with [add_login_hook]: from the username
    and the attributes to the new ones, or an exception. *)
Definition hook : Type := pyval -> pyval -> result (pyval * pyval).

(** The object.  [login_hooks] holds the hooks that follow
    [__build_attrs_list], which [__init__] puts first in the list and
    which is therefore not stored. *)
Record t : Type := {
  saml_endpoint : string;
  saml_audience : string;
  saml_issuer : string;
  force_reauth : bool;
  attr_uid : string;
  saml_attrs : list string;
  acs_url : option string;
  saml_certificate : string;
  authn_all_routes : bool;
  auth_duration : Z;
  login_hooks : list hook;
  idp_ok : bool;
  reqid : ReqID.t
}.

(** [SamlSP.__init__]; [lower] is [str.lower], [env_acs] is
    [os.environ.get('ACS_ENDPOINT')] and [f] the Fernet object the
    request id generator creates. *)
Definition init (lower : string -> string) (config : Config)
           (env_acs : option string) (f : Fernet) : t :=
  let temp_attrs := get (cfg_assertions config) [] in
  let idp_ok := get (cfg_idp_ok config) true in
  {| saml_endpoint := cfg_saml_endpoint config;
     saml_audience := cfg_spid config;
     saml_issuer := cfg_issuer config;
     force_reauth := get (cfg_force_reauth config) false;
     attr_uid := get (cfg_user_attr config) "name_id";
     saml_attrs := map lower temp_attrs;
     acs_url := match env_acs with
                | Some u => Some u
                | None => cfg_acs_url config
                end;
     saml_certificate := cfg_certificate config;
     authn_all_routes := get (cfg_authn_all_routes config) true;
     auth_duration := get (cfg_auth_duration config) 3600;
     login_hooks := [];
     idp_ok := idp_ok;
     reqid := ReqID.init idp_ok f ReqID.default_id
                (get (cfg_reqid_life config) 60) |}.

(** [add_login_hook] *)
Definition add_login_hook (self : t) (h : hook) : t :=
  {| saml_endpoint := saml_endpoint self;
     saml_audience := saml_audience self;
     saml_issuer := saml_issuer self;
     force_reauth := force_reauth self;
     attr_uid := attr_uid self;
     saml_attrs := saml_attrs self;
     acs_url := acs_url self;
     saml_certificate := saml_certificate self;
     authn_all_routes := authn_all_routes self;
     auth_duration := auth_duration self;
     login_hooks := login_hooks self ++ [h];
     idp_ok := idp_ok self;
     reqid := reqid self |}.

(** *** The session predicate *)

(** The [try] block of [is_authenticated]: [Some true] when it
    returns, [None] when it is left at its end. *)
Definition is_authenticated_body (sess : pyval) (now : Z) : result (option bool) :=
  username <- getitem sess "username" ;;
  if truthy username then
    attrs <- getitem sess "attributes" ;;
    saml <- getitem attrs "_saml" ;;
    expires <- getitem saml "expires" ;;
    alive <- ge_int expires now ;;
    if alive then Ok (Some true) else Ok None
  else Ok None.

(** [is_authenticated], for [sess = request.session] and
    [now = int(time.time())]. *)
Definition is_authenticated (sess : pyval) (now : Z) : result bool :=
  r <- try_except (is_authenticated_body sess now) (fun _ => Ok None) ;;
  match r with
  | Some b => Ok b
  | None => Ok false
  end.

Definition unauthenticated_attrs : pyval :=
  PDict [("status", PStr "unauthenticated")].

(** [my_attrs] *)
Definition my_attrs (sess : pyval) (now : Z) : result pyval :=
  auth <- is_authenticated sess now ;;
  if auth then getitem sess "attributes" else Ok unauthenticated_attrs.

(** *** Responses *)

Definition expired_date : string := "Sun, 25 Jul 2021 15:42:14 GMT".

(** [set_no_cache_headers] *)
Definition set_no_cache_headers (r : Response.t) : Response.t :=
  let r := Response.add_header r "Cache-Control" "no-cache" in
  let r := Response.add_header r "Cache-Control" "must-revalidate" in
  let r := Response.add_header r "Pragma" "no-cache" in
  Response.add_header r "Expires" expired_date.

(** [response_error]; the body it returns is the body sent. *)
Definition response_error (status : Z) (body : string) : Response.t :=
  let r := Response.set_status Response.default status in
  let r := Response.update_headers r
             [("Cache-Control", "no-cache");
              ("Pragma", "no-cache");
              ("Expires", expired_date)] in
  Response.set_body r body.

Definition UnauthorizedError (body : string) := response_error 401 body.
Definition BadRequestError (body : string) := response_error 400 body.
Definition AppError (body : string) := response_error 400 body.
Definition ConflictError (body : string) := response_error 400 body.
Definition ForbiddenError (body : string) := response_error 403 body.

(** *** Starting a login *)

Section WithLib.

Variable lib : Lib.

(** [initiate_login(force_reauth, userhint, **kwargs)].  [now] and
    [rnd] are the clock and the random bytes the request id is
    minted from.  The response is the one of a url that Bottle takes
    as a header value ([Response.hval_ok]), as the url-encoded text of
    minisaml is. *)
Definition initiate_login (self : t) (now : Z) (rnd : string)
           (force_reauth_arg : bool) (userhint : option string)
           (kwargs : list (string * string)) : Response.t :=
  (* Create a request id *)
  let request_id := ReqID.new_requestID (reqid self) now rnd in
  (* encode relay state *)
  let relay_state :=
    match kwargs with
    | [] => None
    | _ => Some (urlencode lib kwargs)
    end in
  (* Build the URL with SAMLRequest *)
  let url := get_request_redirect_url lib
               (saml_endpoint self) (saml_audience self) (acs_url self)
               (force_reauth self || force_reauth_arg)
               request_id relay_state in
  let url :=
    match userhint with
    | Some hint =>
        if truthy (PStr hint) then
          let sep := if Str.mem "?"%char url then "&" else "?" in
          url ++ sep ++ "login_hint=" ++ hint
        else url
    | None => url
    end in
  (* Redirect user to IdP *)
  let r := Response.set_status Response.default 302 in
  let r := Response.set_header r "Location" url in
  Response.set_body (set_no_cache_headers r) "".

(** *** Building the attributes *)

(** What is stored for a claim: its value, the list of its values,
    or [None] when it has none. *)
Definition claim_value (vs : list string) : pyval :=
  match vs with
  | [v] => PStr v
  | [] => PNone
  | _ => PList (map PStr vs)
  end.

(** [attr.name in self.saml_attrs] *)
Definition allowed (self : t) (n : string) : bool :=
  existsb (fun a => (n =? a)%string) (saml_attrs self).

(** One turn of the loop of [__build_attrs_list]. *)
Definition collect_step (self : t) (attrs : dict) (attr : Attribute) : dict :=
  if allowed self (name attr)
  then dict_set attrs (name attr) (claim_value (values attr))
  else attrs.

(** The loop of [__build_attrs_list]. *)
Definition collect (self : t) (claims : list Attribute) : dict :=
  fold_left (collect_step self) claims [].

Definition opt_str (o : option string) : pyval :=
  match o with Some s => PStr s | None => PNone end.

(** [__build_attrs_list(username, saml_resp)] *)
Definition build_attrs_list (self : t) (now : Z)
           (username : pyval) (saml_resp : SamlResponse) : pyval * dict :=
  let attrs := collect self (attributes saml_resp) in
  (* prefered username or use the name_id *)
  let username :=
    match dict_get attrs (attr_uid self) with
    | Some v => v
    | None => username
    end in
  let attrs :=
    if negb (dict_mem attrs "username")
    then dict_set attrs "username" username
    else attrs in
  let attrs :=
    dict_set attrs "_saml"
      (PDict [("name_id", PStr (name_id saml_resp));
              ("request_id", opt_str (in_response_to saml_resp));
              ("issuer", PStr (issuer saml_resp));
              ("audience", PStr (audience saml_resp));
              ("expires", PInt (now + auth_duration self))]) in
  (username, attrs).

(** *** The assertion consumer *)

(** The steps of the callback that are carried out, in order. *)
Inductive step : Type :=
| ValidateResponse
| ValidateRequestID
| CheckIssuer
| LoginHooks
| SessionWrite
| SessionClear.

(** What the callback leaves: the response, the session and the
    steps it went through. *)
Record Acs : Type := {
  acs_response : Response.t;
  acs_session : dict;
  acs_steps : list step
}.

Fixpoint run_hooks (hs : list hook) (username attrs : pyval)
  : result (pyval * pyval) :=
  match hs with
  | [] => Ok (username, attrs)
  | login_hook :: hs' =>
      r <- login_hook username attrs ;;
      run_hooks hs' (fst r) (snd r)
  end.

(** [request.forms.get(k, default)] and [request.forms[k]] *)
Fixpoint forms_get (fs : list (string * string)) (k : string) : option string :=
  match fs with
  | [] => None
  | (k', v) :: fs' => if (k' =? k)%string then Some v else forms_get fs' k
  end.

Definition forms_item (fs : list (string * string)) (k : string) : result string :=
  match forms_get fs k with
  | Some v => Ok v
  | None => Raise (KeyError k)
  end.

Fixpoint relay_get (rs : list (string * list string)) (k : string)
  : option (list string) :=
  match rs with
  | [] => None
  | (k', v) :: rs' => if (k' =? k)%string then Some v else relay_get rs' k
  end.

Definition dquote : string := String (ascii_of_nat 34) EmptyString.

(** [finish_saml_login_work(session)].  [request.session] is read
    by [is_authenticated]; [session] is the handle the callback
    writes to. *)
Definition finish_saml_login_work (DEBUG : pyval) (self : t)
           (request : Request) (session : dict) (now : Z) : result Acs :=
  auth <- is_authenticated (SamlSP.session request) now ;;
  if auth then
    Ok {| acs_response := AppError "ACS invoked for authenticated user";
          acs_session := session;
          acs_steps := [] |}
  else
    let relay_state := parse_qs lib (get (forms_get (forms request) "RelayState") "") in
    match forms_item (forms request) "SAMLResponse" with
    | Raise e =>
        Ok {| acs_response :=
                BadRequestError ("SAML: response_validation failed: " ++ str_exc e);
              acs_session := session;
              acs_steps := [] |}
    | Ok raw_saml_resp =>
    match validate_response lib raw_saml_resp
            (saml_certificate self) (saml_audience self) with
    | Raise e =>
        Ok {| acs_response :=
                BadRequestError ("SAML: response_validation failed: " ++ str_exc e);
              acs_session := session;
              acs_steps := [ValidateResponse] |}
    | Ok saml_resp =>
        valid <- ReqID.validate_requestID DEBUG (reqid self) now
                   (opt_str (in_response_to saml_resp)) ;;
        if negb valid then
          Ok {| acs_response :=
                  BadRequestError
                    ("SAML: Invalid Request: " ++ dquote
                       ++ get (in_response_to saml_resp) "None" ++ dquote);
                acs_session := session;
                acs_steps := [ValidateResponse; ValidateRequestID] |}
        else if negb (issuer saml_resp =? saml_issuer self)%string then
          Ok {| acs_response :=
                  ConflictError
                    ("SAML: Issuer mismatch: rcvd " ++ dquote ++ issuer saml_resp
                       ++ dquote ++ " expected " ++ dquote ++ saml_issuer self
                       ++ dquote);
                acs_session := session;
                acs_steps := [ValidateResponse; ValidateRequestID; CheckIssuer] |}
        else
          (* First login hook will convert saml_resp to dict *)
          let username := PStr (name_id saml_resp) in
          let first := build_attrs_list self now username saml_resp in
          match run_hooks (login_hooks self) (fst first) (PDict (snd first)) with
          | Raise e =>
              (* failed hooks also fail the login *)
              Ok {| acs_response :=
                      ForbiddenError ("SAML: login_hooks failed: " ++ str_exc e);
                    acs_session := [];
                    acs_steps := [ValidateResponse; ValidateRequestID; CheckIssuer;
                                  LoginHooks; SessionClear] |}
          | Ok (username, attrs) =>
              (* set the actual session values *)
              let session := dict_set session "attributes" attrs in
              let session := dict_set session "username" username in
              (* Quo vidas? *)
              target <- match relay_get relay_state "next" with
                        | Some (u :: _) => Ok u
                        | Some [] => Raise IndexError
                        | None => Ok "/"
                        end ;;
              (* Redirect back to the url that initiated the login *)
              let r := Response.set_status Response.default 302 in
              value <- Response.hval target ;;
              let r := Response.add_header r "Location" value in
              Ok {| acs_response := Response.set_body (set_no_cache_headers r) "";
                    acs_session := session;
                    acs_steps := [ValidateResponse; ValidateRequestID; CheckIssuer;
                                  LoginHooks; SessionWrite] |}
          end
    end
    end.

End WithLib.

End SamlSP.

(** ** SamlAuth.py *)

Module SamlAuth.

(** A route of the application: its rule and the two entries of its
    configuration the plugin reads, [None] when the entry is not
    given.  The [authz] entry is a dictionary from claim names to a
    value or a list of values. *)
Record Route : Type := {
  rule : string;
  config_authn : option pyval;
  config_authz : option dict
}.

Record t : Type := {
  saml : SamlSP.t;
  authn_all_routes : bool;
  authz_by_prefix : list (string * dict)
}.

(** What a handler sees of the running request: Bottle's request,
    the clock and the random source. *)
Record Ctx : Type := {
  request : SamlSP.Request;
  now : Z;
  rnd : string
}.

(** A route callback, and every decorated callback. *)
Definition handler : Type := Ctx -> result Response.t.

(** *** Helper routines *)

Definition as_list (v : pyval) : list pyval :=
  match v with
  | PList l => l
  | _ => [v]
  end.

Fixpoint test_attrs_loop (chal_list stand_list : list pyval) : bool :=
  match chal_list with
  | [] => false
  | chal :: rest =>
      if list_contains stand_list chal then true
      else test_attrs_loop rest stand_list
  end.

(** [test_attrs(challenge, standard)] *)
Definition test_attrs (challenge standard : pyval) : bool :=
  let stand_list := as_list standard in
  let chal_list := as_list challenge in
  test_attrs_loop chal_list stand_list.

(** [UnauthorizedError(body)] of this module: the response object
    itself is returned. *)
Definition UnauthorizedError (body : string) : Response.t :=
  let r := Response.set_status Response.default 401 in
  let r := Response.set_body r body in
  Response.update_headers r
    [("Cache-Control", "no-cache");
     ("Pragma", "no-cache");
     ("Expires", SamlSP.expired_date)].

(** *** The decorators *)

(** The loop shared by [authz_required] and [authz_required_path]:
    [Some r] when the loop returns the response [r], [None] when all
    the tests have passed. *)
Fixpoint check_attrs (req_attrs : dict) (keys : list string)
         (session my_attrs : pyval) : result (option Response.t) :=
  match keys with
  | [] => Ok None
  | attr :: rest =>
      value <- getitem (PDict req_attrs) attr ;;
      has <- contains my_attrs attr ;;
      if negb has then Ok (Some (UnauthorizedError "Permission not granted"))
      else
        attributes <- getitem session "attributes" ;;
        mine <- getitem attributes attr ;;
        if negb (test_attrs mine value)
        then Ok (Some (UnauthorizedError "Permission not granted"))
        else check_attrs req_attrs rest session my_attrs
  end.

(** The closure [authz_required] (and [authz_required_path]) for the
    requirements [req_attrs] around the callback [f]. *)
Definition authz_required (req_attrs : dict) (f : handler) : handler :=
  fun ctx =>
    let session := SamlSP.session (request ctx) in
    my_attrs <- SamlSP.my_attrs session (now ctx) ;;
    denied <- check_attrs req_attrs (dict_keys req_attrs) session my_attrs ;;
    match denied with
    | Some r => Ok r
    | None => f ctx
    end.

(** [__apply_require_attrs] *)
Definition apply_require_attrs (self : t) (f : handler) (route : Route) : handler :=
  match config_authz route with
  | Some req_attrs =>
      if truthy (PDict req_attrs) then authz_required req_attrs f else f
  | None => f
  end.

(** The requirements of the prefixes that match a rule, the later
    prefix replacing what an earlier one asked of the same claim. *)
Definition prefix_requirements (self : t) (route : Route) : dict :=
  if authn_all_routes self then
    fold_left
      (fun req_attrs entry =>
         if Str.startswith (rule route) (fst entry)
         then dict_update req_attrs (snd entry)
         else req_attrs)
      (authz_by_prefix self) []
  else [].

(** [__apply_prefix_attrs] *)
Definition apply_prefix_attrs (self : t) (f : handler) (route : Route) : handler :=
  let req_attrs := prefix_requirements self route in
  if negb (truthy (PDict req_attrs)) then f
  else authz_required req_attrs f.

Section WithLib.

Variable lib : SamlSP.Lib.

(** The closure [auth_required]. *)
Definition auth_required (self : t) (f : handler) : handler :=
  fun ctx =>
    auth <- SamlSP.is_authenticated (SamlSP.session (request ctx)) (now ctx) ;;
    if auth then f ctx
    else Ok (SamlSP.initiate_login lib (saml self) (now ctx) (rnd ctx)
               false None [("next", SamlSP.url (request ctx))]).

(** [route.config.get('authn') is False] *)
Definition authn_is_False (route : Route) : bool :=
  match config_authn route with
  | Some (PBool false) => true
  | _ => false
  end.

(** [__apply_require_authn] *)
Definition apply_require_authn (self : t) (f : handler) (route : Route) : handler :=
  if authn_is_False route then f
  else if authn_all_routes self
          || truthy (SamlSP.get (config_authn route) (PBool false))
          || truthy (match config_authz route with
                     | Some d => PDict d
                     | None => PBool false
                     end)
  then auth_required self f
  else f.

(** [self.apply_checks]; the last shall be first in request path. *)
Definition apply_checks (self : t) : list (handler -> Route -> handler) :=
  [apply_require_attrs self; apply_prefix_attrs self; apply_require_authn self].

(** [apply(f, route)] *)
Definition apply (self : t) (f : handler) (route : Route) : handler :=
  fold_left (fun nextf apply_check => apply_check nextf route)
    (apply_checks self) f.

End WithLib.

End SamlAuth.

(** ** The specification's vocabulary

    The predicates the properties below are stated with, written after
    the words of the specification and compared with the code. *)

Module Spec.

(** The integer a value stands for when it is compared with the clock. *)
Definition int_of (v : pyval) : option Z :=
  match v with
  | PInt z => Some z
  | PBool b => Some (if b then 1 else 0)
  | _ => None
  end.

(** The session has a username that is set. *)
Definition username_set (sess : pyval) : Prop :=
  exists u, getitem sess "username" = Ok u /\ truthy u = true.

(** The expiry timestamp kept in the session's authentication
    metadata, when the session has one. *)
Definition expiry (sess : pyval) : option Z :=
  match getitem sess "attributes" with
  | Ok attrs =>
      match getitem attrs "_saml" with
      | Ok saml =>
          match getitem saml "expires" with
          | Ok e => int_of e
          | Raise _ => None
          end
      | Raise _ => None
      end
  | Raise _ => None
  end.

(** The expiry is in the future. *)
Definition expiry_in_future (sess : pyval) (now : Z) : Prop :=
  exists e, expiry sess = Some e /\ now < e.

(** The expiry has not passed: the second it names is the current one
    or a later one. *)
Definition expiry_not_passed (sess : pyval) (now : Z) : Prop :=
  exists e, expiry sess = Some e /\ now <= e.

(** A requirement is satisfied by an attribute map: every required
    claim is present, and one of its values (a scalar counting as a
    list of one) is among the acceptable values (a scalar counting as
    a set of one). *)
Definition satisfied (requirement attrs : dict) : Prop :=
  forall claim acceptable,
    dict_get requirement claim = Some acceptable ->
    exists mine,
      dict_get attrs claim = Some mine /\
      exists v, In v (SamlAuth.as_list mine) /\
                list_contains (SamlAuth.as_list acceptable) v = true.

(** The test one turn of the loop of [authz_required] makes of a
    required claim, on the attributes of an authenticated session. *)
Definition claim_met (req_attrs attrs : dict) (attr : string) : bool :=
  match dict_get req_attrs attr, dict_get attrs attr with
  | Some value, Some mine => SamlAuth.test_attrs mine value
  | _, _ => false
  end.

(** The last claim of an assertion that carries a given name. *)
Fixpoint last_claim (k : string) (claims : list SamlSP.Attribute)
  : option SamlSP.Attribute :=
  match claims with
  | [] => None
  | a :: rest =>
      match last_claim k rest with
      | Some x => Some x
      | None => if (SamlSP.name a =? k)%string then Some a else None
      end
  end.

(** An assertion without the claims the allow-list does not name. *)
Definition only_allowed (self : SamlSP.t) (r : SamlSP.SamlResponse)
  : SamlSP.SamlResponse :=
  {| SamlSP.name_id := SamlSP.name_id r;
     SamlSP.in_response_to := SamlSP.in_response_to r;
     SamlSP.issuer := SamlSP.issuer r;
     SamlSP.audience := SamlSP.audience r;
     SamlSP.attributes :=
       filter (fun a => SamlSP.allowed self (SamlSP.name a)) (SamlSP.attributes r) |}.

(** The text [__noidp_validate_requestID] hands to [decrypt] for the
    request id [s]: without the prefix, with the padding put back. *)
Definition repadded (s : string) : string :=
  let reqid := Str.slice_from s 2 in
  reqid ++ Str.repeat (4 - Str.len reqid mod 4) Base64.pad.

End Spec.

(** ** Sample objects

    Concrete values on which the definitions are run. *)

Module Sample.

(** A Fernet object for the examples: every token is the encoding of
    a payload of zero bytes of the right length, and the token made
    for [data] decrypts to it. *)
Definition fernet_for (data : string) : Fernet :=
  {| encrypt := fun _ _ d =>
       Base64.urlsafe_b64encode
         (Str.replicate (fernet_payload_len d) (ascii_of_nat 0));
     decrypt := fun _ token _ =>
       if (token =? Base64.urlsafe_b64encode
                      (Str.replicate (fernet_payload_len data) (ascii_of_nat 0)))%string
       then Ok data else Raise InvalidToken |}.

Definition fernet : Fernet := fernet_for ReqID.default_id.

(** An id of 32 characters. *)
Definition long_id : string := "0123456789abcdef0123456789abcdef".

(** The assertion the sample identity provider sends. *)
Definition assertion : SamlSP.SamlResponse :=
  {| SamlSP.name_id := "alice@example.org";
     SamlSP.in_response_to := None;
     SamlSP.issuer := "https://idp.example.org";
     SamlSP.audience := "urn:sp";
     SamlSP.attributes :=
       [ {| SamlSP.name := "givenname"; SamlSP.values := ["Alice"] |};
         {| SamlSP.name := "Role"; SamlSP.values := ["admin"] |};
         {| SamlSP.name := "role"; SamlSP.values := ["user"; "staff"] |};
         {| SamlSP.name := "mail"; SamlSP.values := ["alice@example.org"] |} ] |}.

(** Stand-ins for urllib and minisaml: every response validates to
    the sample assertion, and the only relay state understood is the
    one that sends back to the admin page. *)
Definition lib : SamlSP.Lib :=
  {| SamlSP.urlencode := fun kv =>
       match kv with
       | (k, v) :: _ => k ++ "=" ++ v
       | [] => ""
       end;
     SamlSP.parse_qs := fun q =>
       if (q =? "next=%2Fadmin")%string then [("next", ["/admin"])] else [];
     SamlSP.get_request_redirect_url := fun endpoint _ _ _ request_id relay =>
       endpoint ++ "?SAMLRequest=" ++ request_id
         ++ match relay with Some r => "&RelayState=" ++ r | None => "" end;
     SamlSP.validate_response := fun data _ _ => Ok assertion |}.

Definition config : SamlSP.Config :=
  {| SamlSP.cfg_saml_endpoint := "https://idp.example.org/sso";
     SamlSP.cfg_spid := "urn:sp";
     SamlSP.cfg_issuer := "https://idp.example.org";
     SamlSP.cfg_certificate := "PEM";
     SamlSP.cfg_force_reauth := None;
     SamlSP.cfg_user_attr := Some "givenname";
     SamlSP.cfg_assertions := Some ["GivenName"; "role"];
     SamlSP.cfg_acs_url := Some "https://sp.example.org/saml/acs";
     SamlSP.cfg_authn_all_routes := None;
     SamlSP.cfg_auth_duration := None;
     SamlSP.cfg_idp_ok := None;
     SamlSP.cfg_reqid_life := None |}.

(** [SamlSP(app, sess, config)] *)
Definition sp : SamlSP.t := SamlSP.init Str.lower config None fernet.

(** [SamlAuth(sp)], in opt-out mode. *)
Definition auth : SamlAuth.t :=
  {| SamlAuth.saml := sp;
     SamlAuth.authn_all_routes := true;
     SamlAuth.authz_by_prefix := [] |}.

(** A session whose authentication expires at second [e]. *)
Definition session_until (e : Z) (claims : dict) : pyval :=
  PDict [("username", PStr "alice");
         ("attributes", PDict (claims ++ [("_saml", PDict [("expires", PInt e)])]))].

(** A route callback that answers 200. *)
Definition hello : SamlAuth.handler :=
  fun _ => Ok (Response.set_body Response.default "hello").

Definition ctx (sess : pyval) (now : Z) : SamlAuth.Ctx :=
  {| SamlAuth.request :=
       {| SamlSP.url := "https://sp.example.org/admin";
          SamlSP.forms := [];
          SamlSP.session := sess |};
     SamlAuth.now := now;
     SamlAuth.rnd := "0123456789abcdef" |}.

Definition admin_only : dict := [("role", PStr "admin")].

Definition admin_route : SamlAuth.Route :=
  {| SamlAuth.rule := "/admin";
     SamlAuth.config_authn := None;
     SamlAuth.config_authz := Some admin_only |}.

(** The same route with [authn=False]: the attribute check without
    the authentication requirement. *)
Definition admin_route_no_authn : SamlAuth.Route :=
  {| SamlAuth.rule := "/admin";
     SamlAuth.config_authn := Some (PBool false);
     SamlAuth.config_authz := Some admin_only |}.

(** A route without a configuration of its own, and a plugin that asks
    for the admin role under the prefix [/admin]. *)
Definition dashboard : SamlAuth.Route :=
  {| SamlAuth.rule := "/admin/dashboard";
     SamlAuth.config_authn := None;
     SamlAuth.config_authz := None |}.

Definition auth_by_prefix : SamlAuth.t :=
  {| SamlAuth.saml := sp;
     SamlAuth.authn_all_routes := true;
     SamlAuth.authz_by_prefix := [("/admin", admin_only)] |}.

(** The POST the browser brings back from the identity provider. *)
Definition acs_request (sess : pyval) : SamlSP.Request :=
  {| SamlSP.url := "https://sp.example.org/saml/acs";
     SamlSP.forms := [("SAMLResponse", "PHNhbWxwOlJlc3BvbnNlPg");
                      ("RelayState", "next=%2Fadmin")];
     SamlSP.session := sess |}.

(** The letter U+03D2, GREEK UPSILON WITH HOOK SYMBOL, in UTF-8 (the
    bytes CF 92): an upper-case letter (category Lu, [isupper()] is
    true) without a lower-case form, which [lower()] returns as it
    is. *)
Definition upsilon_hook : string :=
  String (ascii_of_nat 207) (String (ascii_of_nat 146) EmptyString).

(** A configuration that asks for the claim of that name, and its
    service provider. *)
Definition upsilon_config : SamlSP.Config :=
  {| SamlSP.cfg_saml_endpoint := "https://idp.example.org/sso";
     SamlSP.cfg_spid := "urn:sp";
     SamlSP.cfg_issuer := "https://idp.example.org";
     SamlSP.cfg_certificate := "PEM";
     SamlSP.cfg_force_reauth := None;
     SamlSP.cfg_user_attr := None;
     SamlSP.cfg_assertions := Some [upsilon_hook];
     SamlSP.cfg_acs_url := None;
     SamlSP.cfg_authn_all_routes := None;
     SamlSP.cfg_auth_duration := None;
     SamlSP.cfg_idp_ok := None;
     SamlSP.cfg_reqid_life := None |}.

Definition upsilon_sp : SamlSP.t := SamlSP.init Str.lower upsilon_config None fernet.

(** A login hook that refuses every user. *)
Definition deny : SamlSP.hook := fun _ _ => Raise (HookError "denied").

(** A login hook that keeps what it is given. *)
Definition keep : SamlSP.hook := fun username attrs => Ok (username, attrs).

End Sample.

(** ** The rest of SamlSP.py and SamlAuth.py *)

(** [SamlSP.require_login], the decorator for a single callback. *)
Module Decorator.

Section WithLib.

Variable lib : SamlSP.Lib.

(** The closure [wrapper] of [require_login(f)]. *)
Definition require_login (self : SamlSP.t) (f : SamlAuth.handler)
  : SamlAuth.handler :=
  fun ctx =>
    auth <- SamlSP.is_authenticated
              (SamlSP.session (SamlAuth.request ctx)) (SamlAuth.now ctx) ;;
    if auth then f ctx
    else Ok (SamlSP.initiate_login lib self (SamlAuth.now ctx) (SamlAuth.rnd ctx)
               false None [("next", SamlSP.url (SamlAuth.request ctx))]).

End WithLib.

End Decorator.

(** [SamlAuth.setup], run by Bottle when the plugin is installed. *)
Module Plugin.

(** An installed plugin, as far as [setup] looks at it: whether it is
    an instance of [SamlAuth], and which object it is.  Objects are
    compared by identity, the equality of a class without [__eq__]. *)
Inductive plugin : Type :=
| SamlAuthPlugin (oid : nat)
| OtherPlugin (oid : nat).

(** How [setup] ends: at its end, after the line for the log; by the
    [return] for the plugin itself; by raising [PluginError]. *)
Inductive outcome : Type :=
| Installed (log : string)
| Ignored
| PluginError (emsg : string).

Definition nl : string := String (ascii_of_nat 10) EmptyString.

Definition emsg : string :=
  nl ++ nl ++ "Error: Can not install a second instance of SamlAuth" ++ nl.

(** The loop over [app.plugins]: [Some o] when it is left by [return]
    or [raise], [None] when it runs to its end. *)
Fixpoint setup_loop (self : nat) (plugins : list plugin) : option outcome :=
  match plugins with
  | [] => None
  | SamlAuthPlugin oid :: rest =>
      if Nat.eqb oid self then Some Ignored else Some (PluginError emsg)
  | OtherPlugin oid :: rest =>
      if Nat.eqb oid self then Some Ignored else setup_loop self rest
  end.

(** [setup(app)] for the plugin [self], the object [oid]. *)
Definition setup (self : SamlAuth.t) (oid : nat) (plugins : list plugin) : outcome :=
  match setup_loop oid plugins with
  | Some o => o
  | None =>
      Installed ("SAMLAuth: Authenticating in OPT-"
                   ++ (if SamlAuth.authn_all_routes self then "OUT" else "IN")
                   ++ " mode")
  end.

Definition is_SamlAuth (p : plugin) : bool :=
  match p with SamlAuthPlugin _ => true | OtherPlugin _ => false end.

Definition oid_of (p : plugin) : nat :=
  match p with SamlAuthPlugin o => o | OtherPlugin o => o end.

End Plugin.

(** Vocabulary and sample objects of the further properties. *)
Module More.

(** The requirement maps of the prefixes that match a rule, one after
    the other in the order of the configuration. *)
Definition matching_items (self : SamlAuth.t) (route : SamlAuth.Route) : dict :=
  flat_map snd
    (filter (fun entry => Str.startswith (SamlAuth.rule route) (fst entry))
       (SamlAuth.authz_by_prefix self)).

(** The last value given to a key in a list of items. *)
Definition last_value (items : dict) (k : string) : option pyval :=
  dict_get (rev items) k.

(** The test of a whole requirement map on the attributes of an
    authenticated session. *)
Definition met (req_attrs attrs : dict) : bool :=
  forallb (Spec.claim_met req_attrs attrs) (dict_keys req_attrs).

(** The target of the redirect that ends a login. *)
Definition target (relay_state : list (string * list string)) : string :=
  match SamlSP.relay_get relay_state "next" with
  | Some (u :: _) => u
  | _ => "/"
  end.

(** A configuration that refuses logons started by the identity
    provider, and its service provider. *)
Definition strict_config : SamlSP.Config :=
  {| SamlSP.cfg_saml_endpoint := "https://idp.example.org/sso";
     SamlSP.cfg_spid := "urn:sp";
     SamlSP.cfg_issuer := "https://idp.example.org";
     SamlSP.cfg_certificate := "PEM";
     SamlSP.cfg_force_reauth := Some true;
     SamlSP.cfg_user_attr := Some "mail";
     SamlSP.cfg_assertions := Some ["mail"; "username"; "_saml"];
     SamlSP.cfg_acs_url := Some "https://sp.example.org/saml/acs";
     SamlSP.cfg_authn_all_routes := None;
     SamlSP.cfg_auth_duration := Some 600;
     SamlSP.cfg_idp_ok := Some false;
     SamlSP.cfg_reqid_life := None |}.

Definition strict_sp : SamlSP.t :=
  SamlSP.init Str.lower strict_config (Some "https://proxy.example.org/acs")
    Sample.fernet.

(** The same configuration with logons started by the identity
    provider accepted. *)
Definition mail_config : SamlSP.Config :=
  {| SamlSP.cfg_saml_endpoint := "https://idp.example.org/sso";
     SamlSP.cfg_spid := "urn:sp";
     SamlSP.cfg_issuer := "https://idp.example.org";
     SamlSP.cfg_certificate := "PEM";
     SamlSP.cfg_force_reauth := Some true;
     SamlSP.cfg_user_attr := Some "mail";
     SamlSP.cfg_assertions := Some ["mail"; "username"; "_saml"];
     SamlSP.cfg_acs_url := Some "https://sp.example.org/saml/acs";
     SamlSP.cfg_authn_all_routes := None;
     SamlSP.cfg_auth_duration := Some 600;
     SamlSP.cfg_idp_ok := None;
     SamlSP.cfg_reqid_life := None |}.

Definition mail_sp : SamlSP.t :=
  SamlSP.init Str.lower mail_config None Sample.fernet.

(** A plugin in opt-in mode with a prefix table. *)
Definition opt_in : SamlAuth.t :=
  {| SamlAuth.saml := Sample.sp;
     SamlAuth.authn_all_routes := false;
     SamlAuth.authz_by_prefix := [("/admin", Sample.admin_only)] |}.

(** A plugin in opt-out mode with two prefixes that match the
    dashboard and disagree on the role. *)
Definition two_prefixes : SamlAuth.t :=
  {| SamlAuth.saml := Sample.sp;
     SamlAuth.authn_all_routes := true;
     SamlAuth.authz_by_prefix :=
       [("/", [("role", PStr "user"); ("dept", PStr "it")]);
        ("/shop", [("role", PStr "buyer")]);
        ("/admin", [("role", PStr "admin")])] |}.

(** The dashboard with [authn=False]. *)
Definition open_dashboard : SamlAuth.Route :=
  {| SamlAuth.rule := "/admin/dashboard";
     SamlAuth.config_authn := Some (PBool false);
     SamlAuth.config_authz := None |}.

(** A route without configuration and outside every prefix. *)
Definition home : SamlAuth.Route :=
  {| SamlAuth.rule := "/home";
     SamlAuth.config_authn := None;
     SamlAuth.config_authz := None |}.

(** An assertion whose identity claim comes without a value. *)
Definition no_mail : SamlSP.SamlResponse :=
  {| SamlSP.name_id := "bob@example.org";
     SamlSP.in_response_to := None;
     SamlSP.issuer := "https://idp.example.org";
     SamlSP.audience := "urn:sp";
     SamlSP.attributes :=
       [ {| SamlSP.name := "mail"; SamlSP.values := [] |};
         {| SamlSP.name := "username"; SamlSP.values := ["bobby"] |};
         {| SamlSP.name := "_saml"; SamlSP.values := ["forged"] |} ] |}.

(** Library stand-ins that differ from the sample ones in what
    [validate_response] answers. *)
Definition lib_with (answer : result SamlSP.SamlResponse) : SamlSP.Lib :=
  {| SamlSP.urlencode := SamlSP.urlencode Sample.lib;
     SamlSP.parse_qs := SamlSP.parse_qs Sample.lib;
     SamlSP.get_request_redirect_url := SamlSP.get_request_redirect_url Sample.lib;
     SamlSP.validate_response := fun _ _ _ => answer |}.

(** Library stand-ins whose [parse_qs] decodes a target with a line
    feed in it, as [urllib] does with [%0A]. *)
Definition lib_line_feed : SamlSP.Lib :=
  {| SamlSP.urlencode := SamlSP.urlencode Sample.lib;
     SamlSP.parse_qs := fun _ =>
       [("next", [("/a" ++ String (ascii_of_nat 10) EmptyString ++ "b")%string])];
     SamlSP.get_request_redirect_url := SamlSP.get_request_redirect_url Sample.lib;
     SamlSP.validate_response := SamlSP.validate_response Sample.lib |}.

End More.

(** * Properties *)

(** ** Dictionaries *)

Lemma dict_get_set_same (d : dict) (k : string) (v : pyval) :
  dict_get (dict_set d k v) k = Some v.
Proof.
  induction d as [|[k' v'] d IH]; simpl.
  - now rewrite String.eqb_refl.
  - destruct (k' =? k)%string eqn:E; simpl; rewrite E; auto.
Qed.

Lemma dict_get_set_other (d : dict) (k k' : string) (v : pyval) :
  k <> k' -> dict_get (dict_set d k v) k' = dict_get d k'.
Proof.
  intros Hne. induction d as [|[k0 v0] d IH]; simpl.
  - destruct (k =? k')%string eqn:E; auto.
    apply String.eqb_eq in E. contradiction.
  - destruct (k0 =? k)%string eqn:E; simpl.
    + apply String.eqb_eq in E. subst k0.
      destruct (k =? k')%string eqn:E'; auto.
      apply String.eqb_eq in E'. contradiction.
    + destruct (k0 =? k')%string; auto.
Qed.

Lemma dict_mem_set (d : dict) (k k' : string) (v : pyval) :
  dict_mem (dict_set d k v) k' = ((k =? k')%string || dict_mem d k').
Proof.
  unfold dict_mem. destruct (k =? k')%string eqn:E.
  - apply String.eqb_eq in E. subst. now rewrite dict_get_set_same.
  - apply String.eqb_neq in E. now rewrite dict_get_set_other.
Qed.

(** ** The session predicate *)

Lemma is_authenticated_total (sess : pyval) (now : Z) :
  exists b, SamlSP.is_authenticated sess now = Ok b.
Proof.
  unfold SamlSP.is_authenticated.
  destruct (SamlSP.is_authenticated_body sess now) as [[b|]|e]; simpl; eauto.
Qed.

Lemma ge_int_spec (v : pyval) (now : Z) :
  ge_int v now = Ok true <-> exists e, Spec.int_of v = Some e /\ now <= e.
Proof.
  destruct v as [|b|z|s|l|d]; simpl; split;
    try discriminate;
    try (intros (e & He & _); discriminate).
  - intros H. inversion H as [H']. exists (if b then 1 else 0). split; auto.
    now apply Z.leb_le.
  - intros (e & He & Hle). inversion He; subst. f_equal. now apply Z.leb_le.
  - intros H. inversion H as [H']. exists z. split; auto. now apply Z.leb_le.
  - intros (e & He & Hle). inversion He; subst. f_equal. now apply Z.leb_le.
Qed.

Lemma is_authenticated_true (sess : pyval) (now : Z) :
  SamlSP.is_authenticated sess now = Ok true <->
  Spec.username_set sess /\ Spec.expiry_not_passed sess now.
Proof.
  unfold SamlSP.is_authenticated, SamlSP.is_authenticated_body,
    Spec.username_set, Spec.expiry_not_passed, Spec.expiry.
  destruct (getitem sess "username") as [u|e0]; simpl.
  2: { split; [discriminate | intros [(u & Hu & _) _]; discriminate]. }
  destruct (truthy u) eqn:Tu; simpl.
  2: { split; [discriminate |].
       intros [(u' & Hu & Ht) _]. inversion Hu; subst. congruence. }
  destruct (getitem sess "attributes") as [attrs|e1]; simpl.
  2: { split; [discriminate | intros [_ (e & He & _)]; discriminate]. }
  destruct (getitem attrs "_saml") as [saml|e2]; simpl.
  2: { split; [discriminate | intros [_ (e & He & _)]; discriminate]. }
  destruct (getitem saml "expires") as [expires|e3]; simpl.
  2: { split; [discriminate | intros [_ (e & He & _)]; discriminate]. }
  pose proof (ge_int_spec expires now) as G.
  destruct (ge_int expires now) as [[|]|e4]; simpl.
  - split; [intros _ | reflexivity].
    split; [exists u; auto | now apply G].
  - split; [discriminate |].
    intros [_ H]. apply G in H. discriminate.
  - split; [discriminate |].
    intros [_ H]. apply G in H. discriminate.
Qed.

(** C2, as amended.  [is_authenticated] never raises, and it returns
    [True] exactly when the session has a truthy username and the
    expiry second of its authentication metadata is the current second
    or a later one ([expires >= int(time.time())]); every other session
    (a missing key, a value of the wrong type, an expiry already
    passed) gives [False]. *)
Theorem is_authenticated_spec (sess : pyval) (now : Z) :
  (exists b, SamlSP.is_authenticated sess now = Ok b) /\
  (SamlSP.is_authenticated sess now = Ok true <->
     Spec.username_set sess /\ Spec.expiry_not_passed sess now) /\
  (~ (Spec.username_set sess /\ Spec.expiry_not_passed sess now) ->
     SamlSP.is_authenticated sess now = Ok false).
Proof.
  split; [apply is_authenticated_total |].
  split; [apply is_authenticated_true |].
  intros Hn. destruct (is_authenticated_total sess now) as [[|] Hb]; auto.
  exfalso. apply Hn. now apply is_authenticated_true.
Qed.

(** C2 as it was stated fails in the second the session expires: with
    [expires = 1000] and the clock at [1000] the expiry is not in the
    future, and [is_authenticated] is [True]. *)
Lemma is_authenticated_at_expiry :
  SamlSP.is_authenticated (Sample.session_until 1000 []) 1000 = Ok true /\
  Spec.expiry (Sample.session_until 1000 []) = Some 1000 /\
  ~ Spec.expiry_in_future (Sample.session_until 1000 []) 1000.
Proof.
  split; [reflexivity |]. split; [reflexivity |].
  intros (e & He & Hlt). vm_compute in He. inversion He; subst. lia.
Qed.

(** ** Attribute requirements *)

Lemma test_attrs_loop_spec (chal_list stand_list : list pyval) :
  SamlAuth.test_attrs_loop chal_list stand_list = true <->
  exists v, In v chal_list /\ list_contains stand_list v = true.
Proof.
  induction chal_list as [|c rest IH]; simpl.
  - split; [discriminate | intros (v & [] & _)].
  - destruct (list_contains stand_list c) eqn:E.
    + split; [intros _; exists c; auto | reflexivity].
    + rewrite IH. split.
      * intros (v & Hin & Hv). exists v. auto.
      * intros (v & [Heq | Hin] & Hv); [subst; congruence | exists v; auto].
Qed.

Lemma dict_get_keys (d : dict) (k : string) :
  In k (dict_keys d) <-> exists v, dict_get d k = Some v.
Proof.
  unfold dict_keys. induction d as [|[k' v'] d IH]; simpl.
  - split; [intros [] | intros (v & H); discriminate].
  - destruct (k' =? k)%string eqn:E.
    + apply String.eqb_eq in E. split; [intros _; eauto | auto].
    + apply String.eqb_neq in E. rewrite <- IH. split; [intros [H | H] | ]; tauto.
Qed.

(** An authenticated session keeps its attributes in a dictionary. *)
Lemma authenticated_attributes (sess : pyval) (now : Z) :
  SamlSP.is_authenticated sess now = Ok true ->
  exists attrs, getitem sess "attributes" = Ok (PDict attrs).
Proof.
  intros H. apply is_authenticated_true in H. destruct H as [_ (e & He & _)].
  unfold Spec.expiry in He.
  destruct (getitem sess "attributes") as [attrs|]; [|discriminate].
  destruct attrs as [| | | | |d]; simpl in He; try discriminate. eauto.
Qed.

Lemma check_attrs_authenticated (req_attrs attrs : dict) (sess : pyval)
      (keys : list string) :
  getitem sess "attributes" = Ok (PDict attrs) ->
  (forall k, In k keys -> In k (dict_keys req_attrs)) ->
  SamlAuth.check_attrs req_attrs keys sess (PDict attrs) =
  Ok (if forallb (Spec.claim_met req_attrs attrs) keys then None
      else Some (SamlAuth.UnauthorizedError "Permission not granted")).
Proof.
  intros Hs. induction keys as [|k keys IH]; intros Hk; [reflexivity |].
  cbn [SamlAuth.check_attrs forallb].
  destruct (proj1 (dict_get_keys req_attrs k) (Hk k (or_introl eq_refl)))
    as [value Hv].
  unfold Spec.claim_met at 1. cbn [getitem]. rewrite Hv. cbn [bind contains].
  unfold dict_mem. rewrite Hs. cbn [bind getitem].
  destruct (dict_get attrs k) as [mine|]; cbn [negb bind]; [|reflexivity].
  destruct (SamlAuth.test_attrs mine value); cbn [negb andb]; [|reflexivity].
  apply IH. intros k' Hin. apply Hk. now right.
Qed.

Lemma claims_met_satisfied (req_attrs attrs : dict) :
  forallb (Spec.claim_met req_attrs attrs) (dict_keys req_attrs) = true <->
  Spec.satisfied req_attrs attrs.
Proof.
  rewrite forallb_forall. unfold Spec.satisfied, Spec.claim_met, SamlAuth.test_attrs.
  split.
  - intros H claim acceptable Hc.
    assert (Hin : In claim (dict_keys req_attrs))
      by (apply dict_get_keys; eauto).
    specialize (H claim Hin). rewrite Hc in H.
    destruct (dict_get attrs claim) as [mine|]; [|discriminate].
    exists mine. split; auto. now apply test_attrs_loop_spec.
  - intros H k Hin. apply dict_get_keys in Hin. destruct Hin as [value Hv].
    rewrite Hv. destruct (H k value Hv) as (mine & Hm & Hex).
    rewrite Hm. now apply test_attrs_loop_spec.
Qed.

Lemma authz_required_authenticated (req_attrs attrs : dict)
      (f : SamlAuth.handler) (ctx : SamlAuth.Ctx) :
  SamlSP.is_authenticated (SamlSP.session (SamlAuth.request ctx))
    (SamlAuth.now ctx) = Ok true ->
  getitem (SamlSP.session (SamlAuth.request ctx)) "attributes" = Ok (PDict attrs) ->
  SamlAuth.authz_required req_attrs f ctx =
  if forallb (Spec.claim_met req_attrs attrs) (dict_keys req_attrs) then f ctx
  else Ok (SamlAuth.UnauthorizedError "Permission not granted").
Proof.
  intros Ha Hs. unfold SamlAuth.authz_required, SamlSP.my_attrs.
  rewrite Ha. cbn [bind]. rewrite Hs. cbn [bind].
  rewrite (check_attrs_authenticated req_attrs attrs _ _ Hs) by auto.
  cbn [bind]. now destruct (forallb _ _).
Qed.

(** C1, as amended.  For a route whose configuration asks for the
    claims [req_attrs], and a request whose session is authenticated,
    the decorated callback runs the route's callback exactly when every
    required claim is among the session's attributes with one of its
    values (a scalar counting as a list of one) among the acceptable
    values (a scalar counting as a set of one); otherwise the answer is
    401 with the body 'Permission not granted'. *)
Theorem apply_require_attrs_authenticated
        (self : SamlAuth.t) (route : SamlAuth.Route) (req_attrs : dict)
        (ctx : SamlAuth.Ctx) :
  SamlAuth.config_authz route = Some req_attrs ->
  SamlSP.is_authenticated (SamlSP.session (SamlAuth.request ctx))
    (SamlAuth.now ctx) = Ok true ->
  exists attrs,
    getitem (SamlSP.session (SamlAuth.request ctx)) "attributes" = Ok (PDict attrs) /\
    ((forall f, SamlAuth.apply_require_attrs self f route ctx = f ctx) <->
       Spec.satisfied req_attrs attrs) /\
    (~ Spec.satisfied req_attrs attrs ->
       forall f, SamlAuth.apply_require_attrs self f route ctx =
                 Ok (SamlAuth.UnauthorizedError "Permission not granted")) /\
    Response.status (SamlAuth.UnauthorizedError "Permission not granted") = 401 /\
    Response.body (SamlAuth.UnauthorizedError "Permission not granted") =
      "Permission not granted".
Proof.
  intros Hroute Hauth.
  destruct (authenticated_attributes _ _ Hauth) as [attrs Hattrs].
  exists attrs. split; [exact Hattrs |].
  assert (Hrun : forall f,
             SamlAuth.apply_require_attrs self f route ctx =
             if forallb (Spec.claim_met req_attrs attrs) (dict_keys req_attrs)
             then f ctx
             else Ok (SamlAuth.UnauthorizedError "Permission not granted")).
  { intros f. unfold SamlAuth.apply_require_attrs. rewrite Hroute.
    destruct req_attrs as [|kv req']; [reflexivity |].
    cbn [truthy]. now apply authz_required_authenticated. }
  pose proof (claims_met_satisfied req_attrs attrs) as Hsat.
  destruct (forallb (Spec.claim_met req_attrs attrs) (dict_keys req_attrs)).
  - split; [|split; [|split; reflexivity]].
    + split; [intros _; now apply Hsat | intros _ f; apply Hrun].
    + intros Hn. exfalso. apply Hn. now apply Hsat.
  - split; [|split; [|split; reflexivity]].
    + split; [|intros H; apply Hsat in H; discriminate].
      intros H. specialize (H (fun _ => Raise TypeError)).
      rewrite Hrun in H. discriminate.
    + intros _ f. apply Hrun.
Qed.

(** A session that holds the roles user and admin until second 2000
    meets the requirement of the admin route at second 1000. *)
Lemma apply_require_attrs_authenticated_witness :
  exists attrs,
    getitem (SamlSP.session (SamlAuth.request
               (Sample.ctx (Sample.session_until 2000
                              [("role", PList [PStr "user"; PStr "admin"])]) 1000)))
      "attributes" = Ok (PDict attrs) /\
    ((forall f, SamlAuth.apply_require_attrs Sample.auth f Sample.admin_route
                  (Sample.ctx (Sample.session_until 2000
                                 [("role", PList [PStr "user"; PStr "admin"])]) 1000)
                = f (Sample.ctx (Sample.session_until 2000
                                   [("role", PList [PStr "user"; PStr "admin"])]) 1000)) <->
       Spec.satisfied Sample.admin_only attrs) /\
    (~ Spec.satisfied Sample.admin_only attrs ->
       forall f, SamlAuth.apply_require_attrs Sample.auth f Sample.admin_route
                   (Sample.ctx (Sample.session_until 2000
                                  [("role", PList [PStr "user"; PStr "admin"])]) 1000) =
                 Ok (SamlAuth.UnauthorizedError "Permission not granted")) /\
    Response.status (SamlAuth.UnauthorizedError "Permission not granted") = 401 /\
    Response.body (SamlAuth.UnauthorizedError "Permission not granted") =
      "Permission not granted".
Proof.
  apply (apply_require_attrs_authenticated Sample.auth Sample.admin_route
           Sample.admin_only); reflexivity.
Defined.

(** C1 as it was stated fails for a session that is not authenticated:
    the attributes of a session that expired at second 500 hold the
    required role, and at second 1000 the check answers 401, also as
    the whole plugin applies it to a route with [authn=False]. *)
Lemma apply_require_attrs_expired :
  getitem (Sample.session_until 500 [("role", PStr "admin")]) "attributes"
    = Ok (PDict [("role", PStr "admin"); ("_saml", PDict [("expires", PInt 500)])]) /\
  Spec.satisfied Sample.admin_only
    [("role", PStr "admin"); ("_saml", PDict [("expires", PInt 500)])] /\
  SamlAuth.apply_require_attrs Sample.auth Sample.hello Sample.admin_route
    (Sample.ctx (Sample.session_until 500 [("role", PStr "admin")]) 1000)
    = Ok (SamlAuth.UnauthorizedError "Permission not granted") /\
  SamlAuth.apply Sample.lib Sample.auth Sample.hello Sample.admin_route_no_authn
    (Sample.ctx (Sample.session_until 500 [("role", PStr "admin")]) 1000)
    = Ok (SamlAuth.UnauthorizedError "Permission not granted") /\
  Sample.hello (Sample.ctx (Sample.session_until 500 [("role", PStr "admin")]) 1000)
    <> Ok (SamlAuth.UnauthorizedError "Permission not granted").
Proof.
  split; [reflexivity |].
  split; [|split; [reflexivity | split; [reflexivity | discriminate]]].
  apply claims_met_satisfied. reflexivity.
Qed.

(** A session that is not authenticated is refused whatever its
    attributes hold, as soon as the requirement names a claim and does
    not name the one of the placeholder [my_attrs] returns. *)
Lemma authz_required_unauthenticated (req_attrs : dict)
      (f : SamlAuth.handler) (ctx : SamlAuth.Ctx) :
  SamlSP.is_authenticated (SamlSP.session (SamlAuth.request ctx))
    (SamlAuth.now ctx) = Ok false ->
  req_attrs <> [] ->
  ~ In "status" (dict_keys req_attrs) ->
  SamlAuth.authz_required req_attrs f ctx
  = Ok (SamlAuth.UnauthorizedError "Permission not granted").
Proof.
  intros Ha Hne Hst. unfold SamlAuth.authz_required, SamlSP.my_attrs.
  rewrite Ha. cbn [bind].
  destruct req_attrs as [|[k v] rest]; [congruence |].
  cbn [dict_keys map fst SamlAuth.check_attrs getitem dict_get].
  rewrite String.eqb_refl. cbn [bind].
  assert (Hk : ("status" =? k)%string = false).
  { apply String.eqb_neq. intros <-. apply Hst. now left. }
  unfold SamlSP.unauthenticated_attrs. cbn [contains].
  unfold dict_mem. cbn [dict_get]. rewrite Hk. reflexivity.
Qed.

(** Outside an authenticated session the loop can also leave by an
    exception: a session without attributes, asked for the claim of
    the placeholder [my_attrs] returns, raises [KeyError]. *)
Lemma authz_required_anonymous_raises :
  SamlAuth.authz_required [("status", PStr "unauthenticated")] Sample.hello
    (Sample.ctx (PDict []) 1000) = Raise (KeyError "attributes").
Proof. reflexivity. Qed.

(** ** Attribute extraction *)

Section Extraction.

Variable self : SamlSP.t.

Lemma collect_get_from (claims : list SamlSP.Attribute) (acc : dict) (k : string) :
  dict_get (fold_left (SamlSP.collect_step self) claims acc) k =
  if SamlSP.allowed self k then
    match Spec.last_claim k claims with
    | Some a => Some (SamlSP.claim_value (SamlSP.values a))
    | None => dict_get acc k
    end
  else dict_get acc k.
Proof.
  revert acc. induction claims as [|a rest IH]; intros acc; simpl.
  - now destruct (SamlSP.allowed self k).
  - rewrite IH. unfold SamlSP.collect_step.
    destruct (SamlSP.name a =? k)%string eqn:E.
    + apply String.eqb_eq in E. subst k.
      destruct (SamlSP.allowed self (SamlSP.name a)); [|reflexivity].
      destruct (Spec.last_claim (SamlSP.name a) rest); [reflexivity |].
      apply dict_get_set_same.
    + apply String.eqb_neq in E.
      assert (Hget : dict_get
                (if SamlSP.allowed self (SamlSP.name a)
                 then dict_set acc (SamlSP.name a)
                        (SamlSP.claim_value (SamlSP.values a))
                 else acc) k = dict_get acc k).
      { destruct (SamlSP.allowed self (SamlSP.name a)); auto.
        now apply dict_get_set_other. }
      rewrite Hget. now destruct (Spec.last_claim k rest).
Qed.

(** What the loop of [__build_attrs_list] collects under a name: the
    value of the last claim of that name when the allow-list has the
    name, nothing otherwise. *)
Lemma collect_get (claims : list SamlSP.Attribute) (k : string) :
  dict_get (SamlSP.collect self claims) k =
  if SamlSP.allowed self k then
    option_map (fun a => SamlSP.claim_value (SamlSP.values a))
      (Spec.last_claim k claims)
  else None.
Proof.
  unfold SamlSP.collect. rewrite collect_get_from. simpl.
  destruct (SamlSP.allowed self k); [|reflexivity].
  now destruct (Spec.last_claim k claims).
Qed.

Lemma collect_filter (claims : list SamlSP.Attribute) :
  SamlSP.collect self
    (filter (fun a => SamlSP.allowed self (SamlSP.name a)) claims)
  = SamlSP.collect self claims.
Proof.
  unfold SamlSP.collect. generalize (@nil (string * pyval)).
  induction claims as [|a rest IH]; intros acc; simpl; [reflexivity |].
  destruct (SamlSP.allowed self (SamlSP.name a)) eqn:E; simpl.
  - apply IH.
  - rewrite IH. f_equal. unfold SamlSP.collect_step. now rewrite E.
Qed.

Lemma allowed_In (k : string) :
  SamlSP.allowed self k = true <-> In k (SamlSP.saml_attrs self).
Proof.
  unfold SamlSP.allowed. rewrite existsb_exists. split.
  - intros (a & Hin & Heq). apply String.eqb_eq in Heq. now subst.
  - intros Hin. exists k. split; auto. apply String.eqb_refl.
Qed.

(** The keys of the extracted map, one by one. *)
Lemma build_attrs_list_get (now : Z) (username : pyval)
      (saml_resp : SamlSP.SamlResponse) (k : string) :
  k <> "username" -> k <> "_saml" ->
  dict_get (snd (SamlSP.build_attrs_list self now username saml_resp)) k =
  dict_get (SamlSP.collect self (SamlSP.attributes saml_resp)) k.
Proof.
  intros Hu Hs. unfold SamlSP.build_attrs_list. cbn [snd].
  rewrite dict_get_set_other by congruence.
  destruct (negb (dict_mem _ "username")); [|reflexivity].
  apply dict_get_set_other. congruence.
Qed.

End Extraction.

(** C5.  Extraction, run on a validated assertion with the subject
    identifier as the username to start from, returns the value
    collected for the configured identity claim when that claim is in
    the collected set (the value of the last claim of that name in the
    assertion), and the subject identifier otherwise; the returned map
    has a 'username' entry; and the expiry of its authentication
    metadata is the current time plus the configured duration, later
    than the time of extraction when the duration is positive. *)
Theorem build_attrs_list_username_expiry
        (self : SamlSP.t) (now : Z) (saml_resp : SamlSP.SamlResponse) :
  (forall v,
      dict_get (SamlSP.collect self (SamlSP.attributes saml_resp))
        (SamlSP.attr_uid self) = Some v ->
      fst (SamlSP.build_attrs_list self now
             (PStr (SamlSP.name_id saml_resp)) saml_resp) = v) /\
  (forall a,
      SamlSP.allowed self (SamlSP.attr_uid self) = true ->
      Spec.last_claim (SamlSP.attr_uid self) (SamlSP.attributes saml_resp) = Some a ->
      fst (SamlSP.build_attrs_list self now
             (PStr (SamlSP.name_id saml_resp)) saml_resp)
      = SamlSP.claim_value (SamlSP.values a)) /\
  (dict_get (SamlSP.collect self (SamlSP.attributes saml_resp))
     (SamlSP.attr_uid self) = None ->
   fst (SamlSP.build_attrs_list self now
          (PStr (SamlSP.name_id saml_resp)) saml_resp)
   = PStr (SamlSP.name_id saml_resp)) /\
  (exists u,
      dict_get (snd (SamlSP.build_attrs_list self now
                       (PStr (SamlSP.name_id saml_resp)) saml_resp))
        "username" = Some u) /\
  (exists meta,
      dict_get (snd (SamlSP.build_attrs_list self now
                       (PStr (SamlSP.name_id saml_resp)) saml_resp))
        "_saml" = Some (PDict meta) /\
      dict_get meta "expires" = Some (PInt (now + SamlSP.auth_duration self)) /\
      (0 < SamlSP.auth_duration self -> now < now + SamlSP.auth_duration self)).
Proof.
  unfold SamlSP.build_attrs_list. cbn [fst snd].
  split; [intros v Hv; now rewrite Hv |].
  split; [intros a Ha Hl; now rewrite collect_get, Ha, Hl |].
  split; [intros Hn; now rewrite Hn |].
  split.
  - rewrite dict_get_set_other by discriminate.
    unfold dict_mem.
    destruct (dict_get (SamlSP.collect self (SamlSP.attributes saml_resp))
                "username") as [u|] eqn:E; cbn [negb].
    + eauto.
    + rewrite dict_get_set_same. eauto.
  - eexists. rewrite dict_get_set_same. split; [reflexivity |].
    split; [reflexivity | lia].
Qed.

Lemma build_attrs_list_only_collected
      (self : SamlSP.t) (now : Z) (username : pyval)
      (saml_resp : SamlSP.SamlResponse) (k : string) :
  k <> "username" -> k <> "_saml" -> ~ In k (SamlSP.saml_attrs self) ->
  dict_get (snd (SamlSP.build_attrs_list self now username saml_resp)) k = None.
Proof.
  intros Hu Hs Hn. rewrite build_attrs_list_get by assumption.
  rewrite collect_get.
  destruct (SamlSP.allowed self k) eqn:E; [|reflexivity].
  apply allowed_In in E. contradiction.
Qed.

(** C6.  Every key of the extracted map other than 'username' and the
    metadata key is a name of the allow-list; a claim whose name is
    not in the list leaves no entry and no trace (extraction gives the
    same result on the assertion without such claims); and the
    allow-list is the configured one, lower-cased when the
    configuration is loaded. *)
Theorem build_attrs_list_allow_list
        (self : SamlSP.t) (now : Z) (username : pyval)
        (saml_resp : SamlSP.SamlResponse) :
  (forall k,
      In k (dict_keys (snd (SamlSP.build_attrs_list self now username saml_resp))) ->
      k = "username" \/ k = "_saml" \/ In k (SamlSP.saml_attrs self)) /\
  (forall k,
      ~ In k (SamlSP.saml_attrs self) -> k <> "username" -> k <> "_saml" ->
      ~ In k (dict_keys (snd (SamlSP.build_attrs_list self now username saml_resp)))) /\
  SamlSP.build_attrs_list self now username (Spec.only_allowed self saml_resp)
    = SamlSP.build_attrs_list self now username saml_resp /\
  (forall lower config env_acs f,
      SamlSP.saml_attrs (SamlSP.init lower config env_acs f)
      = map lower (SamlSP.get (SamlSP.cfg_assertions config) [])).
Proof.
  assert (Hdrop : forall k,
             ~ In k (SamlSP.saml_attrs self) -> k <> "username" -> k <> "_saml" ->
             ~ In k (dict_keys (snd (SamlSP.build_attrs_list self now username
                                       saml_resp)))).
  { intros k Hn Hu Hs Hin. apply dict_get_keys in Hin. destruct Hin as [v Hv].
    rewrite build_attrs_list_only_collected in Hv by assumption. discriminate. }
  split; [|split; [exact Hdrop | split; [|reflexivity]]].
  - intros k Hin.
    destruct (string_dec k "username") as [|Hu]; [now left |].
    destruct (string_dec k "_saml") as [|Hs]; [now right; left |].
    right; right.
    destruct (in_dec string_dec k (SamlSP.saml_attrs self)) as [|Hn]; [assumption |].
    exfalso. exact (Hdrop k Hn Hu Hs Hin).
  - unfold SamlSP.build_attrs_list, Spec.only_allowed. cbn [SamlSP.attributes
      SamlSP.name_id SamlSP.in_response_to SamlSP.issuer SamlSP.audience].
    now rewrite collect_filter.
Qed.

(** ** Lower case *)

Lemma lower_char_twice (c : ascii) :
  Str.lower_char (Str.lower_char c) = Str.lower_char c.
Proof. destruct c as [[] [] [] [] [] [] [] []]; reflexivity. Qed.

Lemma lower_twice (s : string) : Str.lower (Str.lower s) = Str.lower s.
Proof.
  induction s as [|c s IH]; simpl; [reflexivity |].
  now rewrite lower_char_twice, IH.
Qed.

(** The function on ASCII text keeps the contract. *)
Lemma lower_contract_ascii : Str.lower_contract Str.lower.
Proof. split; [reflexivity | exact lower_twice]. Qed.

(** A name that lower-casing changes is not a lower-cased name. *)
Lemma changed_not_lowered (lower : string -> string) (n : string)
      (raw : list string) :
  (forall s, lower (lower s) = lower s) ->
  lower n <> n -> ~ In n (map lower raw).
Proof.
  intros Hidem Hch Hin. apply in_map_iff in Hin. destruct Hin as (r & Hr & _).
  apply Hch. rewrite <- Hr. apply Hidem.
Qed.

(** C10, as amended.  The allow-list is lower-cased when the
    configuration is loaded and claim names are compared as they come:
    a claim whose name [lower()] changes (a name with an upper-case
    letter that has a lower-case form) is not allowed and leaves no
    key in the extracted map, whatever the configured list holds, its
    lower-cased form included.  [lower] is any function that keeps the
    contract of [str.lower()]. *)
Theorem uppercase_claim_dropped
        (lower : string -> string)
        (config : SamlSP.Config) (env_acs : option string) (f : Fernet)
        (now : Z) (username : pyval) (saml_resp : SamlSP.SamlResponse)
        (n : string) :
  Str.lower_contract lower ->
  lower n <> n ->
  SamlSP.allowed (SamlSP.init lower config env_acs f) n = false /\
  dict_get (snd (SamlSP.build_attrs_list (SamlSP.init lower config env_acs f)
                   now username saml_resp)) n = None /\
  ~ In n (dict_keys (snd (SamlSP.build_attrs_list (SamlSP.init lower config env_acs f)
                            now username saml_resp))).
Proof.
  intros [Hascii Hidem] Hch.
  assert (Hn : ~ In n (SamlSP.saml_attrs (SamlSP.init lower config env_acs f)))
    by (apply changed_not_lowered; assumption).
  assert (Hu : n <> "username").
  { intros ->. apply Hch. now rewrite Hascii. }
  assert (Hs : n <> "_saml").
  { intros ->. apply Hch. now rewrite Hascii. }
  split; [|split].
  - destruct (SamlSP.allowed _ n) eqn:E; [|reflexivity].
    apply allowed_In in E. contradiction.
  - now apply build_attrs_list_only_collected.
  - intros Hin. apply dict_get_keys in Hin. destruct Hin as [v Hv].
    rewrite build_attrs_list_only_collected in Hv by assumption. discriminate.
Qed.

(** The claim "Role" of the sample assertion is dropped although the
    sample configuration asks for "role". *)
Lemma uppercase_claim_dropped_witness :
  SamlSP.allowed (SamlSP.init Str.lower Sample.config None Sample.fernet) "Role" = false /\
  dict_get (snd (SamlSP.build_attrs_list
                   (SamlSP.init Str.lower Sample.config None Sample.fernet)
                   1000 (PStr "alice@example.org")
                   {| SamlSP.name_id := "alice@example.org";
                      SamlSP.in_response_to := None;
                      SamlSP.issuer := "https://idp.example.org";
                      SamlSP.audience := "urn:sp";
                      SamlSP.attributes :=
                        [ {| SamlSP.name := "Role"; SamlSP.values := ["admin"] |} ] |}))
    "Role" = None /\
  ~ In "Role"
      (dict_keys (snd (SamlSP.build_attrs_list
                         (SamlSP.init Str.lower Sample.config None Sample.fernet)
                         1000 (PStr "alice@example.org")
                         {| SamlSP.name_id := "alice@example.org";
                            SamlSP.in_response_to := None;
                            SamlSP.issuer := "https://idp.example.org";
                            SamlSP.audience := "urn:sp";
                            SamlSP.attributes :=
                              [ {| SamlSP.name := "Role";
                                   SamlSP.values := ["admin"] |} ] |}))).
Proof.
  apply (uppercase_claim_dropped Str.lower Sample.config None Sample.fernet).
  - exact lower_contract_ascii.
  - discriminate.
Defined.

(** C10 as it was stated fails for an upper-case letter that has no
    lower-case form: the name made of the letter U+03D2 is its own
    lower-cased form, so that a provider configured with it allows the
    claim of that name and keeps its value. *)
Lemma uppercase_claim_kept :
  Str.lower Sample.upsilon_hook = Sample.upsilon_hook /\
  SamlSP.saml_attrs Sample.upsilon_sp = [Sample.upsilon_hook] /\
  SamlSP.allowed Sample.upsilon_sp Sample.upsilon_hook = true /\
  dict_get (snd (SamlSP.build_attrs_list Sample.upsilon_sp
                   1000 (PStr "alice@example.org")
                   {| SamlSP.name_id := "alice@example.org";
                      SamlSP.in_response_to := None;
                      SamlSP.issuer := "https://idp.example.org";
                      SamlSP.audience := "urn:sp";
                      SamlSP.attributes :=
                        [ {| SamlSP.name := Sample.upsilon_hook;
                             SamlSP.values := ["admin"] |} ] |}))
    Sample.upsilon_hook = Some (PStr "admin").
Proof. repeat split. Qed.

(** ** Python strings *)

Lemma string_ind3 (P : string -> Prop) :
  P EmptyString ->
  (forall a, P (String a EmptyString)) ->
  (forall a b, P (String a (String b EmptyString))) ->
  (forall a b c s, P s -> P (String a (String b (String c s)))) ->
  forall s, P s.
Proof.
  intros H0 H1 H2 H3 s.
  assert (H : P s /\ (forall a, P (String a s)) /\ (forall a b, P (String a (String b s)))).
  { induction s as [|c s (IHa & IHb & IHc)]; auto. }
  apply H.
Qed.

Lemma length_append (s t : string) :
  String.length (s ++ t) = (String.length s + String.length t)%nat.
Proof. induction s as [|c s IH]; simpl; auto. Qed.

Lemma length_replicate (n : nat) (c : ascii) : String.length (Str.replicate n c) = n.
Proof. induction n as [|n IH]; simpl; auto. Qed.

Lemma append_empty_r (s : string) : (s ++ "")%string = s.
Proof. induction s as [|c s IH]; simpl; [reflexivity | now rewrite IH]. Qed.

Lemma append_assoc (s t u : string) : ((s ++ t) ++ u)%string = (s ++ (t ++ u))%string.
Proof. induction s as [|c s IH]; simpl; [reflexivity | now rewrite IH]. Qed.

(** [find] stops at the first [=] behind a text that has none. *)
Lemma find_from_pad (body rest : string) :
  Str.mem Base64.pad body = false ->
  Str.find_from (body ++ String Base64.pad rest) "=" = Some (String.length body).
Proof.
  induction body as [|c body IH]; intros Hm.
  - reflexivity.
  - simpl in Hm. apply Bool.orb_false_iff in Hm. destruct Hm as [Hc Hm].
    cbn [append Str.find_from Str.startswith String.length].
    unfold Base64.pad in Hc. rewrite Ascii.eqb_sym, Hc.
    cbn [andb]. now rewrite (IH Hm).
Qed.

(** [find] answers nothing on a text without [=]. *)
Lemma find_from_none (body : string) :
  Str.mem Base64.pad body = false -> Str.find_from body "=" = None.
Proof.
  induction body as [|c body IH]; intros Hm.
  - reflexivity.
  - simpl in Hm. apply Bool.orb_false_iff in Hm. destruct Hm as [Hc Hm].
    cbn [Str.find_from Str.startswith].
    unfold Base64.pad in Hc. rewrite Ascii.eqb_sym, Hc.
    cbn [andb]. now rewrite (IH Hm).
Qed.

Lemma substring_prefix (body rest : string) :
  String.substring 0 (String.length body) (body ++ rest) = body.
Proof.
  induction body as [|c body IH]; simpl.
  - now destruct rest.
  - now rewrite IH.
Qed.

Lemma slice_to_prefix (body rest : string) :
  Str.slice_to (body ++ rest) (Z.of_nat (String.length body)) = body.
Proof.
  unfold Str.slice_to, Str.len.
  destruct (Z.of_nat (String.length body) <? 0) eqn:E; [apply Z.ltb_lt in E; lia |].
  rewrite length_append, Z.min_l by lia.
  rewrite Nat2Z.id. apply substring_prefix.
Qed.

(** ** Base64 *)

Lemma sextet_not_pad (n : nat) : Ascii.eqb (Base64.sextet n) Base64.pad = false.
Proof.
  unfold Base64.sextet.
  assert (Hlt : (n mod 64 < 64)%nat) by (apply Nat.mod_upper_bound; discriminate).
  assert (Hall : forallb
            (fun m => negb (Ascii.eqb
                              match String.get m Base64.alphabet with
                              | Some c => c
                              | None => "A"%char
                              end Base64.pad))
            (seq 0 64) = true) by reflexivity.
  rewrite forallb_forall in Hall.
  specialize (Hall (n mod 64)%nat). rewrite in_seq in Hall.
  apply Bool.negb_true_iff. apply Hall. split; [apply Nat.le_0_l | exact Hlt].
Qed.

Lemma padding_step (n : nat) : Base64.padding (S (S (S n))) = Base64.padding n.
Proof.
  unfold Base64.padding.
  replace (S (S (S n))) with (n + 1 * 3)%nat by lia.
  now rewrite Nat.Div0.mod_add.
Qed.

(** The encoding is a text without [=], followed by the padding, and
    its length is a multiple of four. *)
Lemma urlsafe_b64encode_shape (s : string) :
  exists body,
    Base64.urlsafe_b64encode s
    = (body ++ Str.replicate (Base64.padding (String.length s)) Base64.pad)%string /\
    Str.mem Base64.pad body = false /\
    ((String.length body + Base64.padding (String.length s)) mod 4 = 0)%nat.
Proof.
  induction s as [|a|a b|a b c s IH] using string_ind3.
  - exists EmptyString. repeat split.
  - eexists (String _ (String _ EmptyString)). split; [reflexivity |].
    split; [|reflexivity].
    cbn [Str.mem]. now rewrite !sextet_not_pad.
  - eexists (String _ (String _ (String _ EmptyString))). split; [reflexivity |].
    split; [|reflexivity].
    cbn [Str.mem]. now rewrite !sextet_not_pad.
  - destruct IH as (body & Henc & Hmem & Hlen).
    eexists (String _ (String _ (String _ (String _ body)))).
    cbn [Base64.urlsafe_b64encode String.length]. rewrite padding_step, Henc.
    split; [reflexivity |]. split.
    + cbn [Str.mem]. now rewrite !sextet_not_pad, Hmem.
    + replace (S (S (S (S (String.length body))))
               + Base64.padding (String.length s))%nat
        with ((String.length body + Base64.padding (String.length s)) + 1 * 4)%nat
        by lia.
      now rewrite Nat.Div0.mod_add.
Qed.

Lemma padding_lt (n : nat) : (Base64.padding n < 3)%nat.
Proof. unfold Base64.padding. apply Nat.mod_upper_bound. discriminate. Qed.

(** ** Request identifiers *)

(** Stripping the padding of a padded token and putting it back. *)
Lemma strip_repad (token : string) (n : nat) :
  (exists payload, String.length payload = n /\
                   token = Base64.urlsafe_b64encode payload) ->
  Base64.padding n <> O ->
  Spec.repadded ("Id" ++ Str.slice_to token (Str.find token "=")) = token.
Proof.
  intros (payload & Hn & Htok) Hpad. subst n.
  destruct (urlsafe_b64encode_shape payload) as (body & Henc & Hmem & Hlen).
  pose proof (padding_lt (String.length payload)) as Hlt.
  rewrite <- Htok in Henc.
  destruct (Base64.padding (String.length payload)) as [|k] eqn:Ek; [congruence |].
  assert (Hfind : Str.find token "=" = Z.of_nat (String.length body)).
  { unfold Str.find. rewrite Henc. cbn [Str.replicate].
    now rewrite find_from_pad. }
  rewrite Hfind. rewrite Henc at 1. rewrite slice_to_prefix.
  unfold Spec.repadded. change (Str.slice_from ("Id" ++ body) 2) with body.
  rewrite Henc. f_equal. unfold Str.repeat, Str.len. f_equal.
  assert (Hmod : (Z.of_nat (String.length body) + Z.of_nat (S k)) mod 4 = 0).
  { rewrite <- Nat2Z.inj_add.
    change 4 with (Z.of_nat 4). rewrite <- Nat2Z.inj_mod, Hlen. reflexivity. }
  assert (Hx : Z.of_nat (String.length body) mod 4 = 4 - Z.of_nat (S k)).
  { assert (Hk : 1 <= Z.of_nat (S k) <= 2) by lia.
    assert (Hb : 0 <= Z.of_nat (String.length body)) by lia.
    revert Hmod Hk Hb.
    generalize (Z.of_nat (String.length body)) (Z.of_nat (S k)).
    intros x y Hmod Hk Hb.
    pose proof (Z.mod_pos_bound x 4 eq_refl) as Hbound.
    pose proof (Z.div_mod x 4) as Hdx. pose proof (Z.div_mod (x + y) 4) as Hdxy.
    rewrite Hmod in Hdxy. lia. }
  rewrite Hx. replace (4 - (4 - Z.of_nat (S k))) with (Z.of_nat (S k)) by lia.
  apply Nat2Z.id.
Qed.

Lemma validate_body_str (f : Fernet) (id : string) (ttl now : Z) (s : string) :
  Str.startswith s "Id" = true ->
  ReqID.noidp_validate_body f id ttl now (PStr s) =
  (mess <- decrypt f now (Spec.repadded s) ttl ;;
   if truthy (PStr mess) then
     if (mess =? id)%string then Ok (Some true) else Ok None
   else Ok None).
Proof.
  intros Hp. unfold ReqID.noidp_validate_body. cbn [ReqID.startswith bind].
  rewrite Hp. reflexivity.
Qed.

(** The round trip for any id that is not empty and whose token ends
    in padding. *)
Lemma noidp_roundtrip (DEBUG : pyval) (f : Fernet) (id : string)
      (ttl t now : Z) (iv : string) :
  fernet_contract f id ttl ->
  id <> EmptyString ->
  Base64.padding (fernet_payload_len id) <> O ->
  t <= now <= t + ttl ->
  ReqID.noidp_validate_requestID DEBUG f id ttl now
    (PStr (ReqID.noidp_new_requestID f id t iv)) = Ok true.
Proof.
  intros Hf Hid Hpad Hnow. destruct (Hf t iv) as [Hfmt Hdec].
  unfold ReqID.noidp_validate_requestID, ReqID.noidp_new_requestID.
  rewrite validate_body_str by reflexivity.
  rewrite (strip_repad _ _ Hfmt Hpad), (Hdec now Hnow). cbn [bind].
  assert (Ht : truthy (PStr id) = true) by (destruct id; [congruence | reflexivity]).
  rewrite Ht, String.eqb_refl. reflexivity.
Qed.

(** C3.  The strict object as the service provider builds it (with
    the id 'ReqID'), on a Fernet object that keeps the contract of the
    library: a request id it minted at second [t] is validated at every
    second [now] of the time to live.  The proof goes through the text
    itself: the prefix and the removal of the padding at minting, the
    removal of the prefix and the return of the padding at
    validation. *)
Theorem new_validate_roundtrip (DEBUG : pyval) (f : Fernet)
        (ttl t now : Z) (iv : string) :
  fernet_contract f ReqID.default_id ttl ->
  t <= now <= t + ttl ->
  ReqID.validate_requestID DEBUG (ReqID.init false f ReqID.default_id ttl) now
    (PStr (ReqID.new_requestID (ReqID.init false f ReqID.default_id ttl) t iv))
  = Ok true.
Proof.
  intros Hf Hnow. cbn [ReqID.init negb ReqID.validate_requestID ReqID.new_requestID].
  apply noidp_roundtrip; auto; discriminate.
Qed.

Lemma sample_fernet_contract (ttl : Z) :
  fernet_contract Sample.fernet ReqID.default_id ttl.
Proof.
  intros t iv. split.
  - eexists. split; [|reflexivity]. apply length_replicate.
  - intros now _. reflexivity.
Qed.

(** A request id minted at second 1000 is validated at second 1010. *)
Lemma new_validate_roundtrip_witness :
  ReqID.validate_requestID PNone
    (ReqID.init false Sample.fernet ReqID.default_id 30) 1010
    (PStr (ReqID.new_requestID
             (ReqID.init false Sample.fernet ReqID.default_id 30)
             1000 "0123456789abcdef"))
  = Ok true.
Proof.
  apply (new_validate_roundtrip PNone Sample.fernet 30 1000 1010 "0123456789abcdef").
  - apply sample_fernet_contract.
  - lia.
Defined.

(** The class takes other ids.  With one of 32 characters the token
    has no padding, [find] answers [-1], the slice drops the last
    character of the token, and the minted id is not validated. *)
Lemma long_id_not_validated :
  fernet_contract (Sample.fernet_for Sample.long_id) Sample.long_id 30 /\
  Str.find (encrypt (Sample.fernet_for Sample.long_id) 1000 "" Sample.long_id) "=" = -1 /\
  ReqID.validate_requestID PNone
    (ReqID.init false (Sample.fernet_for Sample.long_id) Sample.long_id 30) 1000
    (PStr (ReqID.new_requestID
             (ReqID.init false (Sample.fernet_for Sample.long_id) Sample.long_id 30)
             1000 ""))
  = Ok false.
Proof.
  split; [|split; vm_compute; reflexivity].
  intros t iv. split.
  - eexists. split; [|reflexivity]. apply length_replicate.
  - intros now _. vm_compute. reflexivity.
Qed.






(** ** The assertion consumer *)

(** C7.  When the session of the request is authenticated, the
    callback answers with the application error (status 400) without
    going through any step: no validation of the response, of the
    request id or of the issuer, no login hook; the result does not
    depend on what the library functions would answer, and the session
    handle is returned as it was given. *)
Theorem acs_rejects_authenticated
        (lib : SamlSP.Lib) (DEBUG : pyval) (self : SamlSP.t)
        (request : SamlSP.Request) (session : dict) (now : Z) :
  SamlSP.is_authenticated (SamlSP.session request) now = Ok true ->
  SamlSP.finish_saml_login_work lib DEBUG self request session now =
  Ok {| SamlSP.acs_response := SamlSP.AppError "ACS invoked for authenticated user";
        SamlSP.acs_session := session;
        SamlSP.acs_steps := [] |} /\
  Response.status (SamlSP.AppError "ACS invoked for authenticated user") = 400.
Proof.
  intros Hauth. unfold SamlSP.finish_saml_login_work. rewrite Hauth.
  split; reflexivity.
Qed.

Lemma run_hooks_app (before after : list SamlSP.hook) (username attrs : pyval) :
  SamlSP.run_hooks (before ++ after) username attrs =
  (r <- SamlSP.run_hooks before username attrs ;;
   SamlSP.run_hooks after (fst r) (snd r)).
Proof.
  revert username attrs. induction before as [|h before IH]; intros u a; simpl.
  - reflexivity.
  - destruct (h u a) as [[u' a']|e]; simpl; [apply IH | reflexivity].
Qed.

(** A hook that raises ends the run of the hooks. *)
Lemma run_hooks_raise (before after : list SamlSP.hook) (h : SamlSP.hook)
      (u0 a0 u a : pyval) (e : exc) :
  SamlSP.run_hooks before u0 a0 = Ok (u, a) ->
  h u a = Raise e ->
  SamlSP.run_hooks (before ++ h :: after) u0 a0 = Raise e.
Proof.
  intros Hb Hh. rewrite run_hooks_app, Hb. simpl. now rewrite Hh.
Qed.

(** An authenticated session posting to the callback: the answer is
    the application error and the session handle is untouched. *)
Lemma acs_rejects_authenticated_witness :
  SamlSP.finish_saml_login_work Sample.lib PNone Sample.sp
    (Sample.acs_request (Sample.session_until 2000 []))
    [("username", PStr "alice")] 1000 =
  Ok {| SamlSP.acs_response := SamlSP.AppError "ACS invoked for authenticated user";
        SamlSP.acs_session := [("username", PStr "alice")];
        SamlSP.acs_steps := [] |} /\
  Response.status (SamlSP.AppError "ACS invoked for authenticated user") = 400.
Proof.
  apply (acs_rejects_authenticated Sample.lib PNone Sample.sp
           (Sample.acs_request (Sample.session_until 2000 []))
           [("username", PStr "alice")] 1000).
  reflexivity.
Defined.

(** C8.  When the callback reaches the login hooks (the session is
    not authenticated, the response validates, the request id is
    accepted, the issuer is the expected one) and one of the hooks
    raises, the session is cleared and the answer is the forbidden
    error (status 403): the session that is left has no username and
    no attributes. *)
Theorem acs_hook_failure_clears_session
        (lib : SamlSP.Lib) (DEBUG : pyval) (self : SamlSP.t)
        (request : SamlSP.Request) (session : dict) (now : Z)
        (raw : string) (saml_resp : SamlSP.SamlResponse)
        (before after : list SamlSP.hook) (h : SamlSP.hook)
        (u a : pyval) (e : exc) :
  SamlSP.is_authenticated (SamlSP.session request) now = Ok false ->
  SamlSP.forms_item (SamlSP.forms request) "SAMLResponse" = Ok raw ->
  SamlSP.validate_response lib raw
    (SamlSP.saml_certificate self) (SamlSP.saml_audience self) = Ok saml_resp ->
  ReqID.validate_requestID DEBUG (SamlSP.reqid self) now
    (SamlSP.opt_str (SamlSP.in_response_to saml_resp)) = Ok true ->
  SamlSP.issuer saml_resp = SamlSP.saml_issuer self ->
  SamlSP.login_hooks self = (before ++ h :: after)%list ->
  SamlSP.run_hooks before
    (fst (SamlSP.build_attrs_list self now
            (PStr (SamlSP.name_id saml_resp)) saml_resp))
    (PDict (snd (SamlSP.build_attrs_list self now
                   (PStr (SamlSP.name_id saml_resp)) saml_resp))) = Ok (u, a) ->
  h u a = Raise e ->
  exists r,
    SamlSP.finish_saml_login_work lib DEBUG self request session now = Ok r /\
    SamlSP.acs_response r
    = SamlSP.ForbiddenError ("SAML: login_hooks failed: " ++ str_exc e) /\
    Response.status (SamlSP.acs_response r) = 403 /\
    SamlSP.acs_session r = [] /\
    dict_get (SamlSP.acs_session r) "username" = None /\
    dict_get (SamlSP.acs_session r) "attributes" = None /\
    SamlSP.acs_steps r =
    [SamlSP.ValidateResponse; SamlSP.ValidateRequestID; SamlSP.CheckIssuer;
     SamlSP.LoginHooks; SamlSP.SessionClear].
Proof.
  intros Hauth Hraw Hresp Hid Hiss Hhooks Hbefore Hh.
  unfold SamlSP.finish_saml_login_work.
  rewrite Hauth. cbn [bind]. rewrite Hraw, Hresp, Hid. cbn [bind negb].
  rewrite Hiss, String.eqb_refl. cbn [negb].
  rewrite Hhooks, (run_hooks_raise _ _ _ _ _ _ _ _ Hbefore Hh).
  eexists. split; [reflexivity |]. cbn [SamlSP.acs_response SamlSP.acs_session
                                        SamlSP.acs_steps].
  repeat split.
Qed.

(** The sample provider with a hook that refuses every user: the
    stale content of the session handle is gone after the callback. *)
Lemma acs_hook_failure_clears_session_witness :
  exists r,
    SamlSP.finish_saml_login_work Sample.lib PNone
      (SamlSP.add_login_hook (SamlSP.add_login_hook Sample.sp Sample.keep) Sample.deny)
      (Sample.acs_request (PDict []))
      [("username", PStr "mallory"); ("attributes", PDict [("role", PStr "admin")])]
      1000 = Ok r /\
    SamlSP.acs_response r
    = SamlSP.ForbiddenError ("SAML: login_hooks failed: " ++ str_exc (HookError "denied")) /\
    Response.status (SamlSP.acs_response r) = 403 /\
    SamlSP.acs_session r = [] /\
    dict_get (SamlSP.acs_session r) "username" = None /\
    dict_get (SamlSP.acs_session r) "attributes" = None /\
    SamlSP.acs_steps r =
    [SamlSP.ValidateResponse; SamlSP.ValidateRequestID; SamlSP.CheckIssuer;
     SamlSP.LoginHooks; SamlSP.SessionClear].
Proof.
  eapply (acs_hook_failure_clears_session Sample.lib PNone
            (SamlSP.add_login_hook (SamlSP.add_login_hook Sample.sp Sample.keep)
               Sample.deny)
            (Sample.acs_request (PDict []))
            [("username", PStr "mallory"); ("attributes", PDict [("role", PStr "admin")])]
            1000 _ _ [Sample.keep] [] Sample.deny);
    reflexivity.
Defined.

(** ** The authentication requirement *)

(** What [initiate_login(next=url)] answers. *)
Lemma initiate_login_next (lib : SamlSP.Lib) (self : SamlSP.t) (now : Z)
      (rnd url : string) :
  Response.status (SamlSP.initiate_login lib self now rnd false None [("next", url)])
  = 302 /\
  Response.get_all (SamlSP.initiate_login lib self now rnd false None [("next", url)])
    "Location"
  = [SamlSP.get_request_redirect_url lib
       (SamlSP.saml_endpoint self) (SamlSP.saml_audience self) (SamlSP.acs_url self)
       (SamlSP.force_reauth self)
       (ReqID.new_requestID (SamlSP.reqid self) now rnd)
       (Some (SamlSP.urlencode lib [("next", url)]))].
Proof.
  unfold SamlSP.initiate_login. rewrite Bool.orb_false_r. split; reflexivity.
Qed.

(** C9.  In opt-out mode, on a route that does not set [authn] to
    [False], a request whose session is not authenticated is answered
    by the redirect of [initiate_login]: status 302 (and so not 401),
    with one [Location], the url minisaml builds for the configured
    endpoint with the requested url as [next] in the relay state.  The
    route's callback and the attribute checks are not reached. *)
Theorem unauthenticated_request_redirected
        (lib : SamlSP.Lib) (self : SamlAuth.t) (f : SamlAuth.handler)
        (route : SamlAuth.Route) (ctx : SamlAuth.Ctx) :
  SamlAuth.authn_all_routes self = true ->
  SamlAuth.config_authn route <> Some (PBool false) ->
  SamlSP.is_authenticated (SamlSP.session (SamlAuth.request ctx))
    (SamlAuth.now ctx) = Ok false ->
  exists r,
    SamlAuth.apply lib self f route ctx = Ok r /\
    r = SamlSP.initiate_login lib (SamlAuth.saml self)
          (SamlAuth.now ctx) (SamlAuth.rnd ctx) false None
          [("next", SamlSP.url (SamlAuth.request ctx))] /\
    Response.status r = 302 /\
    Response.status r <> 401 /\
    Response.get_all r "Location"
    = [SamlSP.get_request_redirect_url lib
         (SamlSP.saml_endpoint (SamlAuth.saml self))
         (SamlSP.saml_audience (SamlAuth.saml self))
         (SamlSP.acs_url (SamlAuth.saml self))
         (SamlSP.force_reauth (SamlAuth.saml self))
         (ReqID.new_requestID (SamlSP.reqid (SamlAuth.saml self))
            (SamlAuth.now ctx) (SamlAuth.rnd ctx))
         (Some (SamlSP.urlencode lib
                  [("next", SamlSP.url (SamlAuth.request ctx))]))].
Proof.
  intros Hmode Hauthn Hsess.
  assert (Hskip : SamlAuth.authn_is_False route = false).
  { unfold SamlAuth.authn_is_False.
    destruct (SamlAuth.config_authn route) as [[|[|]| | | |]|]; congruence. }
  eexists. split.
  - unfold SamlAuth.apply, SamlAuth.apply_checks. cbn [fold_left].
    unfold SamlAuth.apply_require_authn. rewrite Hskip, Hmode. cbn [orb].
    unfold SamlAuth.auth_required. rewrite Hsess. reflexivity.
  - split; [reflexivity |].
    destruct (initiate_login_next lib (SamlAuth.saml self) (SamlAuth.now ctx)
                (SamlAuth.rnd ctx) (SamlSP.url (SamlAuth.request ctx)))
      as [Hst Hloc].
    rewrite Hst. split; [reflexivity |]. split; [discriminate | exact Hloc].
Qed.

(** An anonymous visitor of the admin route is sent to the identity
    provider. *)
Lemma unauthenticated_request_redirected_witness :
  exists r,
    SamlAuth.apply Sample.lib Sample.auth Sample.hello Sample.admin_route
      (Sample.ctx (PDict []) 1000) = Ok r /\
    r = SamlSP.initiate_login Sample.lib (SamlAuth.saml Sample.auth)
          (SamlAuth.now (Sample.ctx (PDict []) 1000))
          (SamlAuth.rnd (Sample.ctx (PDict []) 1000)) false None
          [("next", SamlSP.url (SamlAuth.request (Sample.ctx (PDict []) 1000)))] /\
    Response.status r = 302 /\
    Response.status r <> 401 /\
    Response.get_all r "Location"
    = [SamlSP.get_request_redirect_url Sample.lib
         (SamlSP.saml_endpoint (SamlAuth.saml Sample.auth))
         (SamlSP.saml_audience (SamlAuth.saml Sample.auth))
         (SamlSP.acs_url (SamlAuth.saml Sample.auth))
         (SamlSP.force_reauth (SamlAuth.saml Sample.auth))
         (ReqID.new_requestID (SamlSP.reqid (SamlAuth.saml Sample.auth))
            (SamlAuth.now (Sample.ctx (PDict []) 1000))
            (SamlAuth.rnd (Sample.ctx (PDict []) 1000)))
         (Some (SamlSP.urlencode Sample.lib
                  [("next", SamlSP.url (SamlAuth.request
                                          (Sample.ctx (PDict []) 1000)))]))].
Proof.
  apply (unauthenticated_request_redirected Sample.lib Sample.auth Sample.hello
           Sample.admin_route (Sample.ctx (PDict []) 1000)).
  - reflexivity.
  - discriminate.
  - reflexivity.
Defined.

(** The strict object of a provider configured with [idp_ok] false is
    the one of the round trip above. *)
Lemma init_reqid_strict (lower : string -> string) (config : SamlSP.Config)
      (env_acs : option string) (f : Fernet) :
  SamlSP.cfg_idp_ok config = Some false ->
  SamlSP.reqid (SamlSP.init lower config env_acs f)
  = ReqID.init false f ReqID.default_id
      (SamlSP.get (SamlSP.cfg_reqid_life config) 60).
Proof. intros H. unfold SamlSP.init. cbn [SamlSP.reqid]. now rewrite H. Qed.

(** In permissive mode every value is accepted. *)
Lemma idpok_validates_everything (DEBUG : pyval) (f : Fernet) (id : string)
      (ttl now : Z) (reqid : pyval) :
  ReqID.validate_requestID DEBUG (ReqID.init true f id ttl) now reqid = Ok true.
Proof. reflexivity. Qed.

(** ** Scenarios of the specification, run on the sample objects *)

(** The encoding agrees with [base64.urlsafe_b64encode] on texts with
    and without padding. *)
Example urlsafe_b64encode_samples :
  Base64.urlsafe_b64encode "Hello, World!?>" = "SGVsbG8sIFdvcmxkIT8-" /\
  Base64.urlsafe_b64encode "ab" = "YWI=" /\
  Base64.urlsafe_b64encode "a" = "YQ==".
Proof. repeat split. Qed.

(** A minted id: the prefix, then the 98 characters of the token
    before its padding. *)
Example minted_id_length :
  String.length (ReqID.new_requestID
                   (ReqID.init false Sample.fernet ReqID.default_id 30) 1000 "iv")
  = 100%nat /\
  Str.mem Base64.pad (ReqID.new_requestID
                        (ReqID.init false Sample.fernet ReqID.default_id 30) 1000 "iv")
  = false.
Proof. split; vm_compute; reflexivity. Qed.

(** Extraction on the sample assertion: the identity claim gives the
    username, the claims "Role" and "mail" are dropped, the claim of
    two values is kept as a list. *)
Example extract_sample :
  SamlSP.build_attrs_list Sample.sp 1000 (PStr "alice@example.org") Sample.assertion
  = (PStr "Alice",
     [("givenname", PStr "Alice");
      ("role", PList [PStr "user"; PStr "staff"]);
      ("username", PStr "Alice");
      ("_saml", PDict [("name_id", PStr "alice@example.org");
                       ("request_id", PNone);
                       ("issuer", PStr "https://idp.example.org");
                       ("audience", PStr "urn:sp");
                       ("expires", PInt 4600)])]).
Proof. reflexivity. Qed.

(** The callback on an anonymous session: the five steps, the session
    written, the redirect to the target of the relay state. *)
Example acs_sample_login :
  exists r,
    SamlSP.finish_saml_login_work Sample.lib PNone Sample.sp
      (Sample.acs_request (PDict [])) [] 1000 = Ok r /\
    Response.status (SamlSP.acs_response r) = 302 /\
    Response.get_all (SamlSP.acs_response r) "Location" = ["/admin"] /\
    dict_get (SamlSP.acs_session r) "username" = Some (PStr "Alice") /\
    SamlSP.is_authenticated (PDict (SamlSP.acs_session r)) 1000 = Ok true /\
    SamlSP.acs_steps r =
    [SamlSP.ValidateResponse; SamlSP.ValidateRequestID; SamlSP.CheckIssuer;
     SamlSP.LoginHooks; SamlSP.SessionWrite].
Proof. eexists. split; [reflexivity |]. repeat split. Qed.

(** The prefix [/admin] asks for the admin role: a session with the
    role user alone is refused on [/admin/dashboard], one with both
    roles reaches the callback. *)
Example prefix_scenario :
  SamlAuth.apply Sample.lib Sample.auth_by_prefix Sample.hello Sample.dashboard
    (Sample.ctx (Sample.session_until 2000 [("role", PList [PStr "user"])]) 1000)
  = Ok (SamlAuth.UnauthorizedError "Permission not granted") /\
  SamlAuth.apply Sample.lib Sample.auth_by_prefix Sample.hello Sample.dashboard
    (Sample.ctx (Sample.session_until 2000
                   [("role", PList [PStr "admin"; PStr "user"])]) 1000)
  = Sample.hello
      (Sample.ctx (Sample.session_until 2000
                     [("role", PList [PStr "admin"; PStr "user"])]) 1000).
Proof. split; reflexivity. Qed.

(** Sessions that are not authenticated: no username, an empty
    username, no metadata, an expiry that is a text, an expiry that has
    passed, a session that is not a dictionary. *)
Example unauthenticated_sessions :
  SamlSP.is_authenticated (PDict []) 1000 = Ok false /\
  SamlSP.is_authenticated
    (PDict [("username", PStr "");
            ("attributes", PDict [("_saml", PDict [("expires", PInt 2000)])])]) 1000
  = Ok false /\
  SamlSP.is_authenticated
    (PDict [("username", PStr "alice"); ("attributes", PDict [])]) 1000 = Ok false /\
  SamlSP.is_authenticated
    (PDict [("username", PStr "alice");
            ("attributes", PDict [("_saml", PDict [("expires", PStr "2000")])])]) 1000
  = Ok false /\
  SamlSP.is_authenticated (Sample.session_until 999 []) 1000 = Ok false /\
  SamlSP.is_authenticated PNone 1000 = Ok false.
Proof. repeat split. Qed.

(** * Further properties *)

(** ** Minting request ids *)

Lemma mem_substring (c : ascii) (s : string) (n : nat) :
  Str.mem c s = false -> Str.mem c (String.substring 0 n s) = false.
Proof.
  revert n. induction s as [|a s IH]; intros n Hm.
  - now destruct n.
  - destruct n as [|n]; [reflexivity |].
    simpl in Hm. apply Bool.orb_false_iff in Hm. destruct Hm as [Ha Hs].
    simpl. rewrite Ha. now apply IH.
Qed.

Lemma length_substring (s : string) (n : nat) :
  (n <= String.length s)%nat -> String.length (String.substring 0 n s) = n.
Proof.
  revert n. induction s as [|a s IH]; intros n Hn.
  - simpl in Hn. now destruct n; [|lia].
  - destruct n as [|n]; [reflexivity |]. simpl in *. f_equal. apply IH. lia.
Qed.

Lemma mem_append (c : ascii) (s t : string) :
  Str.mem c (s ++ t) = (Str.mem c s || Str.mem c t)%bool.
Proof.
  induction s as [|a s IH]; simpl; [reflexivity |].
  now rewrite IH, Bool.orb_assoc.
Qed.

(** A text passes the check of header values when its parts do. *)
Lemma hval_ok_append (s t : string) :
  Response.hval_ok (s ++ t) = (Response.hval_ok s && Response.hval_ok t)%bool.
Proof.
  unfold Response.hval_ok. rewrite !mem_append.
  destruct (Str.mem _ s), (Str.mem _ s), (Str.mem _ s),
           (Str.mem _ t), (Str.mem _ t), (Str.mem _ t); reflexivity.
Qed.

(** What [reqid[:reqid.find('=')]] is on a base64 text: the text
    before the padding when there is padding, the text without its
    last character when there is none. *)
Lemma slice_find_shape (payload : string) :
  exists body,
    Base64.urlsafe_b64encode payload
    = (body ++ Str.replicate (Base64.padding (String.length payload)) Base64.pad)%string /\
    Str.mem Base64.pad body = false /\
    ((String.length body + Base64.padding (String.length payload)) mod 4 = 0)%nat /\
    Str.slice_to (Base64.urlsafe_b64encode payload)
      (Str.find (Base64.urlsafe_b64encode payload) "=")
    = match Base64.padding (String.length payload) with
      | O => String.substring 0 (String.length body - 1) body
      | S _ => body
      end.
Proof.
  destruct (urlsafe_b64encode_shape payload) as (body & Henc & Hmem & Hlen).
  exists body. split; [exact Henc |]. split; [exact Hmem |]. split; [exact Hlen |].
  rewrite Henc.
  destruct (Base64.padding (String.length payload)) as [|k].
  - cbn [Str.replicate]. rewrite append_empty_r.
    unfold Str.find. rewrite (find_from_none body Hmem).
    unfold Str.slice_to, Str.len. cbn [Z.ltb Z.compare].
    f_equal. lia.
  - unfold Str.find. cbn [Str.replicate]. rewrite find_from_pad by exact Hmem.
    apply slice_to_prefix.
Qed.

(** A strict request id starts with the letters 'Id' and has no [=]
    in it, whatever the id, the clock and the random bytes: the two
    things the comment in the source asks for. *)
Theorem noidp_new_requestID_shape (f : Fernet) (id : string) (t : Z) (iv : string) :
  (exists payload, encrypt f t iv id = Base64.urlsafe_b64encode payload) ->
  Str.startswith (ReqID.noidp_new_requestID f id t iv) "Id" = true /\
  Str.mem Base64.pad (ReqID.noidp_new_requestID f id t iv) = false.
Proof.
  intros (payload & Htok). unfold ReqID.noidp_new_requestID. rewrite Htok.
  split; [reflexivity |].
  destruct (slice_find_shape payload) as (body & _ & Hmem & _ & Hslice).
  rewrite Hslice, mem_append.
  replace (Str.mem Base64.pad "Id") with false by reflexivity. cbn [orb].
  destruct (Base64.padding (String.length payload)).
  - now apply mem_substring.
  - exact Hmem.
Qed.

Lemma noidp_new_requestID_shape_witness :
  Str.startswith
    (ReqID.noidp_new_requestID (Sample.fernet_for Sample.long_id) Sample.long_id
       1000 "0123456789abcdef") "Id" = true /\
  Str.mem Base64.pad
    (ReqID.noidp_new_requestID (Sample.fernet_for Sample.long_id) Sample.long_id
       1000 "0123456789abcdef") = false.
Proof.
  apply (noidp_new_requestID_shape (Sample.fernet_for Sample.long_id) Sample.long_id
           1000 "0123456789abcdef").
  eexists. reflexivity.
Defined.

Lemma urlsafe_b64encode_nonempty (payload : string) :
  payload <> EmptyString -> Base64.urlsafe_b64encode payload <> EmptyString.
Proof.
  destruct payload as [|a [|b [|c rest]]]; intros H; [congruence | | |]; discriminate.
Qed.

(** When the id is such that the token has no padding (a payload of a
    multiple of three bytes: ids of 32 to 47 characters, of 80 to 95,
    ...), [find] answers [-1]: the minted id is the token without its
    last character, and the text validation hands to [decrypt] is the
    token with its last character replaced by [=], which is not the
    token. *)
Theorem noidp_unpadded_token (f : Fernet) (id : string) (t : Z) (iv : string) :
  (exists payload,
      String.length payload = fernet_payload_len id /\
      encrypt f t iv id = Base64.urlsafe_b64encode payload) ->
  Base64.padding (fernet_payload_len id) = O ->
  ReqID.noidp_new_requestID f id t iv
  = ("Id" ++ String.substring 0 (String.length (encrypt f t iv id) - 1)
               (encrypt f t iv id))%string /\
  Spec.repadded (ReqID.noidp_new_requestID f id t iv)
  = (String.substring 0 (String.length (encrypt f t iv id) - 1) (encrypt f t iv id)
       ++ "=")%string /\
  Spec.repadded (ReqID.noidp_new_requestID f id t iv) <> encrypt f t iv id.
Proof.
  intros (payload & Hn & Htok) Hpad.
  destruct (slice_find_shape payload) as (body & Henc & Hmem & Hlen & Hslice).
  rewrite Hn, Hpad in *. cbn [Str.replicate] in Henc. rewrite append_empty_r in Henc.
  rewrite Nat.add_0_r in Hlen.
  assert (Hbody : encrypt f t iv id = body) by congruence.
  assert (Hpos : (String.length body <> 0)%nat).
  { intros H0. destruct body; [|discriminate].
    apply (urlsafe_b64encode_nonempty payload); [|congruence].
    intros ->. discriminate. }
  assert (Hmint : ReqID.noidp_new_requestID f id t iv
                  = ("Id" ++ String.substring 0 (String.length body - 1) body)%string).
  { unfold ReqID.noidp_new_requestID. now rewrite Htok, Hslice. }
  assert (Hre : Spec.repadded (ReqID.noidp_new_requestID f id t iv)
                = (String.substring 0 (String.length body - 1) body ++ "=")%string).
  { rewrite Hmint. unfold Spec.repadded.
    change (Str.slice_from ("Id" ++ ?x) 2) with x. f_equal.
    unfold Str.len. rewrite length_substring by lia.
    apply Nat.Div0.mod_divides in Hlen. destruct Hlen as [q Hq].
    assert (Hz : Z.of_nat (String.length body - 1) = 3 + (Z.of_nat q - 1) * 4) by lia.
    rewrite Hz, Z_mod_plus_full. reflexivity. }
  rewrite Hbody. split; [exact Hmint |]. split; [exact Hre |].
  rewrite Hre. intros Heq.
  assert (Hm : Str.mem Base64.pad
                 (String.substring 0 (String.length body - 1) body ++ "=") = true).
  { rewrite mem_append. apply Bool.orb_true_iff. now right. }
  rewrite Heq, Hmem in Hm. discriminate.
Qed.

Lemma noidp_unpadded_token_witness :
  ReqID.noidp_new_requestID (Sample.fernet_for Sample.long_id) Sample.long_id 1000 ""
  = ("Id" ++ String.substring 0
               (String.length
                  (encrypt (Sample.fernet_for Sample.long_id) 1000 "" Sample.long_id) - 1)
               (encrypt (Sample.fernet_for Sample.long_id) 1000 "" Sample.long_id))%string /\
  Spec.repadded
    (ReqID.noidp_new_requestID (Sample.fernet_for Sample.long_id) Sample.long_id 1000 "")
  = (String.substring 0
       (String.length
          (encrypt (Sample.fernet_for Sample.long_id) 1000 "" Sample.long_id) - 1)
       (encrypt (Sample.fernet_for Sample.long_id) 1000 "" Sample.long_id)
       ++ "=")%string /\
  Spec.repadded
    (ReqID.noidp_new_requestID (Sample.fernet_for Sample.long_id) Sample.long_id 1000 "")
  <> encrypt (Sample.fernet_for Sample.long_id) 1000 "" Sample.long_id.
Proof.
  apply (noidp_unpadded_token (Sample.fernet_for Sample.long_id) Sample.long_id 1000 "").
  - eexists. split; [|reflexivity]. apply length_replicate.
  - reflexivity.
Defined.

(** ** The session accessors and the login redirect *)

(** [my_attrs] never raises and always answers a dictionary: the
    attributes of the session when it is authenticated, the
    placeholder otherwise, whatever else the session holds. *)
Theorem my_attrs_total (sess : pyval) (now : Z) :
  (exists d, SamlSP.my_attrs sess now = Ok (PDict d)) /\
  (SamlSP.is_authenticated sess now = Ok true ->
   SamlSP.my_attrs sess now = getitem sess "attributes") /\
  (SamlSP.is_authenticated sess now = Ok false ->
   SamlSP.my_attrs sess now = Ok (PDict [("status", PStr "unauthenticated")])).
Proof.
  unfold SamlSP.my_attrs.
  destruct (is_authenticated_total sess now) as [[|] Hb]; rewrite Hb; cbn [bind].
  - destruct (authenticated_attributes _ _ Hb) as [attrs Ha]. rewrite Ha.
    split; [eauto |]. split; [reflexivity | discriminate].
  - split; [eexists; reflexivity |]. split; [discriminate | reflexivity].
Qed.

(** Whatever its arguments, as long as the url it comes to is one
    that Bottle takes as a header value (no line feed, carriage
    return or NUL in it, which a login hint can bring),
    [initiate_login] answers 302 with an empty body, one [Location]
    and the headers against caching: two values of Cache-Control, one
    of Pragma, one of Expires. *)
Theorem initiate_login_response (lib : SamlSP.Lib) (self : SamlSP.t) (now : Z)
        (rnd : string) (force_reauth_arg : bool) (userhint : option string)
        (kwargs : list (string * string)) :
  (forall url,
      In url (Response.get_all
                (SamlSP.initiate_login lib self now rnd force_reauth_arg userhint kwargs)
                "Location") ->
      Response.hval_ok url = true) ->
  Response.status
    (SamlSP.initiate_login lib self now rnd force_reauth_arg userhint kwargs) = 302 /\
  Response.body
    (SamlSP.initiate_login lib self now rnd force_reauth_arg userhint kwargs) = "" /\
  (exists url,
      Response.get_all
        (SamlSP.initiate_login lib self now rnd force_reauth_arg userhint kwargs)
        "Location" = [url] /\
      Response.hval url = Ok url) /\
  Response.get_all
    (SamlSP.initiate_login lib self now rnd force_reauth_arg userhint kwargs)
    "Cache-Control" = ["no-cache"; "must-revalidate"] /\
  Response.get_all
    (SamlSP.initiate_login lib self now rnd force_reauth_arg userhint kwargs)
    "Pragma" = ["no-cache"] /\
  Response.get_all
    (SamlSP.initiate_login lib self now rnd force_reauth_arg userhint kwargs)
    "Expires" = ["Sun, 25 Jul 2021 15:42:14 GMT"].
Proof.
  intros Hval. unfold SamlSP.initiate_login in *.
  repeat split; try reflexivity. eexists. split; [reflexivity |].
  unfold Response.hval. rewrite Hval; [reflexivity |]. left. reflexivity.
Qed.

Lemma initiate_login_response_witness :
  Response.status
    (SamlSP.initiate_login Sample.lib Sample.sp 1000 "0123456789abcdef" true
       (Some "alice@example.org") [("next", "/admin")]) = 302 /\
  Response.body
    (SamlSP.initiate_login Sample.lib Sample.sp 1000 "0123456789abcdef" true
       (Some "alice@example.org") [("next", "/admin")]) = "" /\
  (exists url,
      Response.get_all
        (SamlSP.initiate_login Sample.lib Sample.sp 1000 "0123456789abcdef" true
           (Some "alice@example.org") [("next", "/admin")])
        "Location" = [url] /\
      Response.hval url = Ok url) /\
  Response.get_all
    (SamlSP.initiate_login Sample.lib Sample.sp 1000 "0123456789abcdef" true
       (Some "alice@example.org") [("next", "/admin")])
    "Cache-Control" = ["no-cache"; "must-revalidate"] /\
  Response.get_all
    (SamlSP.initiate_login Sample.lib Sample.sp 1000 "0123456789abcdef" true
       (Some "alice@example.org") [("next", "/admin")])
    "Pragma" = ["no-cache"] /\
  Response.get_all
    (SamlSP.initiate_login Sample.lib Sample.sp 1000 "0123456789abcdef" true
       (Some "alice@example.org") [("next", "/admin")])
    "Expires" = ["Sun, 25 Jul 2021 15:42:14 GMT"].
Proof.
  apply (initiate_login_response Sample.lib Sample.sp 1000 "0123456789abcdef" true
           (Some "alice@example.org") [("next", "/admin")]).
  intros url Hin. vm_compute in Hin. destruct Hin as [<- | []]. reflexivity.
Defined.

(** The login hint: a hint that is not empty, and with which the url
    is still one that Bottle takes as a header value, is put behind
    the url of minisaml, after [&] when that url has a [?] and after
    [?] when it has none; without a hint, or with the empty one, the
    url is left as it is. *)
Theorem initiate_login_hint (lib : SamlSP.Lib) (self : SamlSP.t) (now : Z)
        (rnd : string) (force_reauth_arg : bool)
        (kwargs : list (string * string)) (hint : string) :
  hint <> EmptyString ->
  (forall url,
      In url (Response.get_all
                (SamlSP.initiate_login lib self now rnd force_reauth_arg
                   (Some hint) kwargs)
                "Location") ->
      Response.hval_ok url = true) ->
  Response.hval_ok hint = true /\
  Response.get_all
    (SamlSP.initiate_login lib self now rnd force_reauth_arg (Some hint) kwargs)
    "Location"
  = map (fun url =>
           (url ++ (if Str.mem "?"%char url then "&" else "?")
              ++ "login_hint=" ++ hint)%string)
      (Response.get_all
         (SamlSP.initiate_login lib self now rnd force_reauth_arg None kwargs)
         "Location") /\
  Response.get_all
    (SamlSP.initiate_login lib self now rnd force_reauth_arg (Some "") kwargs)
    "Location"
  = Response.get_all
      (SamlSP.initiate_login lib self now rnd force_reauth_arg None kwargs)
      "Location".
Proof.
  intros Hne Hval. unfold SamlSP.initiate_login in *.
  assert (Ht : truthy (PStr hint) = true) by (destruct hint; [congruence | reflexivity]).
  rewrite Ht in *. split; [|split; reflexivity].
  specialize (Hval _ (or_introl eq_refl)).
  cbn [snd] in Hval. rewrite !hval_ok_append in Hval.
  repeat (apply Bool.andb_true_iff in Hval; destruct Hval as [? Hval]).
  exact Hval.
Qed.

Lemma initiate_login_hint_witness :
  Response.hval_ok "alice@example.org" = true /\
  Response.get_all
    (SamlSP.initiate_login Sample.lib Sample.sp 1000 "0123456789abcdef" false
       (Some "alice@example.org") [("next", "/admin")])
    "Location"
  = map (fun url =>
           (url ++ (if Str.mem "?"%char url then "&" else "?")
              ++ "login_hint=" ++ "alice@example.org")%string)
      (Response.get_all
         (SamlSP.initiate_login Sample.lib Sample.sp 1000 "0123456789abcdef" false
            None [("next", "/admin")])
         "Location") /\
  Response.get_all
    (SamlSP.initiate_login Sample.lib Sample.sp 1000 "0123456789abcdef" false
       (Some "") [("next", "/admin")])
    "Location"
  = Response.get_all
      (SamlSP.initiate_login Sample.lib Sample.sp 1000 "0123456789abcdef" false
         None [("next", "/admin")])
      "Location".
Proof.
  apply (initiate_login_hint Sample.lib Sample.sp 1000 "0123456789abcdef" false
           [("next", "/admin")] "alice@example.org").
  - discriminate.
  - intros url Hin. vm_compute in Hin. destruct Hin as [<- | []]. reflexivity.
Defined.

(** What minisaml is asked for: the force flag is set when either the
    configuration or the caller sets it, the relay state is absent
    when the caller names no target, and the ACS url is the one of the
    environment when the environment gives one. *)
Theorem initiate_login_request (lib : SamlSP.Lib) (lower : string -> string)
        (config : SamlSP.Config)
        (env_acs : option string) (f : Fernet) (now : Z) (rnd : string)
        (force_reauth_arg : bool) (kwargs : list (string * string)) :
  Response.get_all
    (SamlSP.initiate_login lib (SamlSP.init lower config env_acs f) now rnd
       force_reauth_arg None kwargs) "Location"
  = [SamlSP.get_request_redirect_url lib
       (SamlSP.cfg_saml_endpoint config) (SamlSP.cfg_spid config)
       (match env_acs with Some u => Some u | None => SamlSP.cfg_acs_url config end)
       (match SamlSP.cfg_force_reauth config with
        | Some true => true
        | _ => force_reauth_arg
        end)
       (ReqID.new_requestID
          (SamlSP.reqid (SamlSP.init lower config env_acs f)) now rnd)
       (match kwargs with
        | [] => None
        | _ :: _ => Some (SamlSP.urlencode lib kwargs)
        end)].
Proof.
  unfold SamlSP.initiate_login, SamlSP.init.
  cbn [SamlSP.saml_endpoint SamlSP.saml_audience SamlSP.acs_url SamlSP.force_reauth
       SamlSP.reqid].
  destruct (SamlSP.cfg_force_reauth config) as [[|]|]; destruct kwargs; reflexivity.
Qed.

(** The decorator [require_login]: the callback runs for a session
    with a username that is set and an expiry that has not passed;
    every other request is answered by the redirect to the identity
    provider with the requested url as the target, and the callback
    is not run.  It is the wrapper the plugin installs. *)
Theorem require_login_spec (lib : SamlSP.Lib) (self : SamlSP.t)
        (f : SamlAuth.handler) (ctx : SamlAuth.Ctx) :
  (Spec.username_set (SamlSP.session (SamlAuth.request ctx)) /\
   Spec.expiry_not_passed (SamlSP.session (SamlAuth.request ctx)) (SamlAuth.now ctx) ->
   Decorator.require_login lib self f ctx = f ctx) /\
  (~ (Spec.username_set (SamlSP.session (SamlAuth.request ctx)) /\
      Spec.expiry_not_passed (SamlSP.session (SamlAuth.request ctx)) (SamlAuth.now ctx)) ->
   exists r,
     Decorator.require_login lib self f ctx = Ok r /\
     Response.status r = 302 /\
     Response.get_all r "Location"
     = [SamlSP.get_request_redirect_url lib
          (SamlSP.saml_endpoint self) (SamlSP.saml_audience self) (SamlSP.acs_url self)
          (SamlSP.force_reauth self)
          (ReqID.new_requestID (SamlSP.reqid self) (SamlAuth.now ctx) (SamlAuth.rnd ctx))
          (Some (SamlSP.urlencode lib
                   [("next", SamlSP.url (SamlAuth.request ctx))]))]) /\
  (forall auth, SamlAuth.saml auth = self ->
                Decorator.require_login lib self f ctx
                = SamlAuth.auth_required lib auth f ctx).
Proof.
  unfold Decorator.require_login. split; [|split].
  - intros H. apply is_authenticated_true in H. now rewrite H.
  - intros Hn.
    destruct (is_authenticated_total (SamlSP.session (SamlAuth.request ctx))
                (SamlAuth.now ctx)) as [[|] Hb].
    + exfalso. apply Hn. now apply is_authenticated_true.
    + rewrite Hb. cbn [bind]. eexists. split; [reflexivity |].
      apply initiate_login_next.
  - intros auth <-. reflexivity.
Qed.

(** ** The assertion consumer, path by path *)

Lemma validate_requestID_total (DEBUG : pyval) (r : ReqID.t) (now : Z) (reqid : pyval) :
  truthy DEBUG = false ->
  exists b, ReqID.validate_requestID DEBUG r now reqid = Ok b.
Proof.
  intros Hd. destruct r as [|f id ttl]; [eexists; reflexivity |].
  cbn [ReqID.validate_requestID]. unfold ReqID.noidp_validate_requestID.
  destruct (ReqID.noidp_validate_body f id ttl now reqid) as [[b|]|e];
    cbn [try_except bind]; try rewrite Hd; eexists; reflexivity.
Qed.

Ltac acs_unchanged :=
  split; [reflexivity | split; [reflexivity |]];
  cbn; intros Hin;
  repeat match goal with
         | H : _ \/ _ |- _ => destruct H
         | H : False |- _ => destruct H
         | H : _ = SamlSP.LoginHooks |- _ => discriminate H
         end.

(** Every answer of the callback is of one of three kinds: a 400 that
    leaves the session as it was; the 403 of a failed hook, with the
    session emptied; the 302 of a login, with the attributes and the
    username written over the session.  The session is written by
    nothing but a login, and emptied by nothing but a failed hook. *)
Theorem acs_outcomes (lib : SamlSP.Lib) (DEBUG : pyval) (self : SamlSP.t)
        (request : SamlSP.Request) (session : dict) (now : Z) (r : SamlSP.Acs) :
  SamlSP.finish_saml_login_work lib DEBUG self request session now = Ok r ->
  (Response.status (SamlSP.acs_response r) = 400 /\
   SamlSP.acs_session r = session /\
   ~ In SamlSP.LoginHooks (SamlSP.acs_steps r)) \/
  (Response.status (SamlSP.acs_response r) = 403 /\
   SamlSP.acs_session r = [] /\
   In SamlSP.SessionClear (SamlSP.acs_steps r)) \/
  (Response.status (SamlSP.acs_response r) = 302 /\
   (exists username attrs,
       SamlSP.acs_session r
       = dict_set (dict_set session "attributes" attrs) "username" username) /\
   In SamlSP.SessionWrite (SamlSP.acs_steps r)).
Proof.
  unfold SamlSP.finish_saml_login_work.
  destruct (SamlSP.is_authenticated (SamlSP.session request) now) as [[|]|e0];
    cbn [bind]; [| |discriminate].
  { intros H. inversion H; subst r. left. acs_unchanged. }
  destruct (SamlSP.forms_item (SamlSP.forms request) "SAMLResponse") as [raw|e1].
  2: { intros H. inversion H; subst r. left. acs_unchanged. }
  destruct (SamlSP.validate_response lib raw _ _) as [saml_resp|e2].
  2: { intros H. inversion H; subst r. left. acs_unchanged. }
  destruct (ReqID.validate_requestID DEBUG _ now _) as [[|]|e3];
    cbn [bind negb]; [| |discriminate].
  2: { intros H. inversion H; subst r. left. acs_unchanged. }
  destruct (SamlSP.issuer saml_resp =? SamlSP.saml_issuer self)%string; cbn [negb].
  2: { intros H. inversion H; subst r. left. acs_unchanged. }
  destruct (SamlSP.run_hooks _ _ _) as [[username attrs]|e4].
  2: { intros H. inversion H; subst r. right; left.
       split; [reflexivity | split; [reflexivity |]]. cbn. auto 10. }
  unfold Response.hval.
  destruct (SamlSP.relay_get _ "next") as [[|u l]|]; cbn [bind];
    try discriminate;
    destruct (Response.hval_ok _); cbn [bind]; try discriminate;
    intros H; inversion H; subst r; right; right;
    (split; [reflexivity |]); (split; [do 2 eexists; reflexivity |]);
    cbn; auto 10.
Qed.

Lemma acs_outcomes_witness :
  (Response.status
     (SamlSP.acs_response
        {| SamlSP.acs_response := SamlSP.AppError "ACS invoked for authenticated user";
           SamlSP.acs_session := [("username", PStr "alice")];
           SamlSP.acs_steps := [] |}) = 400 /\
   SamlSP.acs_session
     {| SamlSP.acs_response := SamlSP.AppError "ACS invoked for authenticated user";
        SamlSP.acs_session := [("username", PStr "alice")];
        SamlSP.acs_steps := [] |} = [("username", PStr "alice")] /\
   ~ In SamlSP.LoginHooks
       (SamlSP.acs_steps
          {| SamlSP.acs_response := SamlSP.AppError "ACS invoked for authenticated user";
             SamlSP.acs_session := [("username", PStr "alice")];
             SamlSP.acs_steps := [] |})) \/
  (Response.status
     (SamlSP.acs_response
        {| SamlSP.acs_response := SamlSP.AppError "ACS invoked for authenticated user";
           SamlSP.acs_session := [("username", PStr "alice")];
           SamlSP.acs_steps := [] |}) = 403 /\
   SamlSP.acs_session
     {| SamlSP.acs_response := SamlSP.AppError "ACS invoked for authenticated user";
        SamlSP.acs_session := [("username", PStr "alice")];
        SamlSP.acs_steps := [] |} = [] /\
   In SamlSP.SessionClear
      (SamlSP.acs_steps
         {| SamlSP.acs_response := SamlSP.AppError "ACS invoked for authenticated user";
            SamlSP.acs_session := [("username", PStr "alice")];
            SamlSP.acs_steps := [] |})) \/
  (Response.status
     (SamlSP.acs_response
        {| SamlSP.acs_response := SamlSP.AppError "ACS invoked for authenticated user";
           SamlSP.acs_session := [("username", PStr "alice")];
           SamlSP.acs_steps := [] |}) = 302 /\
   (exists username attrs,
       SamlSP.acs_session
         {| SamlSP.acs_response := SamlSP.AppError "ACS invoked for authenticated user";
            SamlSP.acs_session := [("username", PStr "alice")];
            SamlSP.acs_steps := [] |}
       = dict_set (dict_set [("username", PStr "alice")] "attributes" attrs)
           "username" username) /\
   In SamlSP.SessionWrite
      (SamlSP.acs_steps
         {| SamlSP.acs_response := SamlSP.AppError "ACS invoked for authenticated user";
            SamlSP.acs_session := [("username", PStr "alice")];
            SamlSP.acs_steps := [] |})).
Proof.
  apply (acs_outcomes Sample.lib PNone Sample.sp
           (Sample.acs_request (Sample.session_until 2000 []))
           [("username", PStr "alice")] 1000).
  reflexivity.
Defined.

(** With [DEBUG] unset the callback always ends with a response, as
    long as the parsed relay state does not give 'next' an empty
    list (which [parse_qs] never does) and the target of the redirect
    is a text that Bottle takes as a header value: the two things
    that raise after the hooks, [IndexError] and the [ValueError] of
    [add_header], are not caught by the callback. *)
Theorem acs_never_raises (lib : SamlSP.Lib) (DEBUG : pyval) (self : SamlSP.t)
        (request : SamlSP.Request) (session : dict) (now : Z) :
  truthy DEBUG = false ->
  SamlSP.relay_get
    (SamlSP.parse_qs lib
       (SamlSP.get (SamlSP.forms_get (SamlSP.forms request) "RelayState") ""))
    "next" <> Some [] ->
  Response.hval_ok
    (More.target
       (SamlSP.parse_qs lib
          (SamlSP.get (SamlSP.forms_get (SamlSP.forms request) "RelayState") "")))
  = true ->
  exists r, SamlSP.finish_saml_login_work lib DEBUG self request session now = Ok r.
Proof.
  intros Hd Hrelay Hok. unfold SamlSP.finish_saml_login_work.
  destruct (is_authenticated_total (SamlSP.session request) now) as [[|] Hb];
    rewrite Hb; cbn [bind]; [eexists; reflexivity |].
  destruct (SamlSP.forms_item (SamlSP.forms request) "SAMLResponse") as [raw|e1];
    [|eexists; reflexivity].
  destruct (SamlSP.validate_response lib raw _ _) as [saml_resp|e2];
    [|eexists; reflexivity].
  destruct (validate_requestID_total DEBUG (SamlSP.reqid self) now
              (SamlSP.opt_str (SamlSP.in_response_to saml_resp)) Hd) as [[|] Hv];
    rewrite Hv; cbn [bind negb]; [|eexists; reflexivity].
  destruct (negb _); [eexists; reflexivity |].
  destruct (SamlSP.run_hooks _ _ _) as [[username attrs]|e4]; [|eexists; reflexivity].
  unfold More.target in Hok. unfold Response.hval.
  destruct (SamlSP.relay_get _ "next") as [[|u l]|]; cbn [bind];
    [congruence | |]; rewrite Hok; eexists; reflexivity.
Qed.

Lemma acs_never_raises_witness :
  exists r,
    SamlSP.finish_saml_login_work Sample.lib (PStr "") Sample.sp
      (Sample.acs_request (PDict [])) [] 1000 = Ok r.
Proof.
  apply (acs_never_raises Sample.lib (PStr "") Sample.sp
           (Sample.acs_request (PDict [])) [] 1000).
  - reflexivity.
  - discriminate.
  - reflexivity.
Defined.

(** A response that does not validate, or a POST without the field
    SAMLResponse, is answered 400 with the text of the exception; the
    session is left as it was (the source keeps its [session.clear()]
    commented out there), and a missing field is reported without
    calling the validator. *)
Theorem acs_validation_failure (lib : SamlSP.Lib) (DEBUG : pyval) (self : SamlSP.t)
        (request : SamlSP.Request) (session : dict) (now : Z) (e : exc) :
  SamlSP.is_authenticated (SamlSP.session request) now = Ok false ->
  (raw <- SamlSP.forms_item (SamlSP.forms request) "SAMLResponse" ;;
   SamlSP.validate_response lib raw
     (SamlSP.saml_certificate self) (SamlSP.saml_audience self)) = Raise e ->
  exists r,
    SamlSP.finish_saml_login_work lib DEBUG self request session now = Ok r /\
    SamlSP.acs_response r
    = SamlSP.BadRequestError ("SAML: response_validation failed: " ++ str_exc e) /\
    Response.status (SamlSP.acs_response r) = 400 /\
    SamlSP.acs_session r = session /\
    (SamlSP.forms_get (SamlSP.forms request) "SAMLResponse" = None ->
     SamlSP.acs_steps r = [] /\ str_exc e = "'SAMLResponse'").
Proof.
  intros Hauth Hfail. unfold SamlSP.finish_saml_login_work.
  rewrite Hauth. cbn [bind]. unfold SamlSP.forms_item in *.
  destruct (SamlSP.forms_get (SamlSP.forms request) "SAMLResponse") as [raw|];
    cbn [bind] in Hfail.
  - rewrite Hfail. eexists. split; [reflexivity |].
    repeat split; discriminate.
  - inversion Hfail; subst e. eexists. split; [reflexivity |]. repeat split.
Qed.

Lemma acs_validation_failure_witness :
  exists r,
    SamlSP.finish_saml_login_work (More.lib_with (Raise (Exception "Invalid signature")))
      PNone Sample.sp (Sample.acs_request (PDict []))
      [("cart", PList [PInt 3])] 1000 = Ok r /\
    SamlSP.acs_response r
    = SamlSP.BadRequestError
        ("SAML: response_validation failed: " ++ str_exc (Exception "Invalid signature")) /\
    Response.status (SamlSP.acs_response r) = 400 /\
    SamlSP.acs_session r = [("cart", PList [PInt 3])] /\
    (SamlSP.forms_get (SamlSP.forms (Sample.acs_request (PDict []))) "SAMLResponse" = None ->
     SamlSP.acs_steps r = [] /\ str_exc (Exception "Invalid signature") = "'SAMLResponse'").
Proof.
  apply (acs_validation_failure (More.lib_with (Raise (Exception "Invalid signature")))
           PNone Sample.sp (Sample.acs_request (PDict []))
           [("cart", PList [PInt 3])] 1000 (Exception "Invalid signature"));
    reflexivity.
Defined.

(** A strict provider refuses a logon started by the identity
    provider: an assertion without InResponseTo is answered 400 before
    the issuer is looked at and before any hook, the session left as
    it was; and when the environment sets [DEBUG] the callback raises
    [AttributeError] instead of answering. *)
Theorem acs_strict_rejects_idp_initiated
        (lib : SamlSP.Lib) (DEBUG : pyval) (self : SamlSP.t)
        (request : SamlSP.Request) (session : dict) (now : Z)
        (raw : string) (saml_resp : SamlSP.SamlResponse)
        (f : Fernet) (id : string) (ttl : Z) :
  SamlSP.is_authenticated (SamlSP.session request) now = Ok false ->
  SamlSP.forms_item (SamlSP.forms request) "SAMLResponse" = Ok raw ->
  SamlSP.validate_response lib raw
    (SamlSP.saml_certificate self) (SamlSP.saml_audience self) = Ok saml_resp ->
  SamlSP.in_response_to saml_resp = None ->
  SamlSP.reqid self = ReqID.init false f id ttl ->
  (truthy DEBUG = false ->
   SamlSP.finish_saml_login_work lib DEBUG self request session now
   = Ok {| SamlSP.acs_response :=
             SamlSP.BadRequestError
               ("SAML: Invalid Request: " ++ SamlSP.dquote ++ "None" ++ SamlSP.dquote);
           SamlSP.acs_session := session;
           SamlSP.acs_steps := [SamlSP.ValidateResponse; SamlSP.ValidateRequestID] |}) /\
  (truthy DEBUG = true ->
   SamlSP.finish_saml_login_work lib DEBUG self request session now
   = Raise AttributeError).
Proof.
  intros Hauth Hraw Hresp Hnone Hstrict. unfold SamlSP.finish_saml_login_work.
  rewrite Hauth. cbn [bind]. rewrite Hraw, Hresp, Hnone, Hstrict.
  cbn [SamlSP.opt_str ReqID.init negb ReqID.validate_requestID].
  unfold ReqID.noidp_validate_requestID, ReqID.noidp_validate_body.
  cbn [ReqID.startswith bind try_except].
  split; intros Hd; rewrite Hd; reflexivity.
Qed.

Lemma acs_strict_rejects_idp_initiated_witness :
  (truthy (PBool false) = false ->
   SamlSP.finish_saml_login_work Sample.lib (PBool false) More.strict_sp
     (Sample.acs_request (PDict [])) [("cart", PList [PInt 3])] 1000
   = Ok {| SamlSP.acs_response :=
             SamlSP.BadRequestError
               ("SAML: Invalid Request: " ++ SamlSP.dquote ++ "None" ++ SamlSP.dquote);
           SamlSP.acs_session := [("cart", PList [PInt 3])];
           SamlSP.acs_steps := [SamlSP.ValidateResponse; SamlSP.ValidateRequestID] |}) /\
  (truthy (PBool false) = true ->
   SamlSP.finish_saml_login_work Sample.lib (PBool false) More.strict_sp
     (Sample.acs_request (PDict [])) [("cart", PList [PInt 3])] 1000
   = Raise AttributeError).
Proof.
  apply (acs_strict_rejects_idp_initiated Sample.lib (PBool false) More.strict_sp
           (Sample.acs_request (PDict [])) [("cart", PList [PInt 3])] 1000
           "PHNhbWxwOlJlc3BvbnNlPg" Sample.assertion Sample.fernet ReqID.default_id 60);
    reflexivity.
Defined.

(** An assertion of another issuer than the configured one is
    answered 400 (the conflict error of the source has this status)
    with both names in the text; no hook is run and the session is
    left as it was. *)
Theorem acs_issuer_mismatch
        (lib : SamlSP.Lib) (DEBUG : pyval) (self : SamlSP.t)
        (request : SamlSP.Request) (session : dict) (now : Z)
        (raw : string) (saml_resp : SamlSP.SamlResponse) :
  SamlSP.is_authenticated (SamlSP.session request) now = Ok false ->
  SamlSP.forms_item (SamlSP.forms request) "SAMLResponse" = Ok raw ->
  SamlSP.validate_response lib raw
    (SamlSP.saml_certificate self) (SamlSP.saml_audience self) = Ok saml_resp ->
  ReqID.validate_requestID DEBUG (SamlSP.reqid self) now
    (SamlSP.opt_str (SamlSP.in_response_to saml_resp)) = Ok true ->
  SamlSP.issuer saml_resp <> SamlSP.saml_issuer self ->
  SamlSP.finish_saml_login_work lib DEBUG self request session now
  = Ok {| SamlSP.acs_response :=
            SamlSP.ConflictError
              ("SAML: Issuer mismatch: rcvd " ++ SamlSP.dquote ++ SamlSP.issuer saml_resp
                 ++ SamlSP.dquote ++ " expected " ++ SamlSP.dquote
                 ++ SamlSP.saml_issuer self ++ SamlSP.dquote);
          SamlSP.acs_session := session;
          SamlSP.acs_steps := [SamlSP.ValidateResponse; SamlSP.ValidateRequestID;
                               SamlSP.CheckIssuer] |} /\
  forall msg, Response.status (SamlSP.ConflictError msg) = 400.
Proof.
  intros Hauth Hraw Hresp Hid Hiss. unfold SamlSP.finish_saml_login_work.
  rewrite Hauth. cbn [bind]. rewrite Hraw, Hresp, Hid. cbn [bind negb].
  apply String.eqb_neq in Hiss. rewrite Hiss. cbn [negb].
  split; reflexivity.
Qed.

Lemma acs_issuer_mismatch_witness :
  SamlSP.finish_saml_login_work
    (More.lib_with
       (Ok {| SamlSP.name_id := "eve@example.com";
              SamlSP.in_response_to := None;
              SamlSP.issuer := "https://evil.example.com";
              SamlSP.audience := "urn:sp";
              SamlSP.attributes := [] |}))
    PNone Sample.sp (Sample.acs_request (PDict [])) [] 1000
  = Ok {| SamlSP.acs_response :=
            SamlSP.ConflictError
              ("SAML: Issuer mismatch: rcvd " ++ SamlSP.dquote
                 ++ SamlSP.issuer
                      {| SamlSP.name_id := "eve@example.com";
                         SamlSP.in_response_to := None;
                         SamlSP.issuer := "https://evil.example.com";
                         SamlSP.audience := "urn:sp";
                         SamlSP.attributes := [] |}
                 ++ SamlSP.dquote ++ " expected " ++ SamlSP.dquote
                 ++ SamlSP.saml_issuer Sample.sp ++ SamlSP.dquote);
          SamlSP.acs_session := [];
          SamlSP.acs_steps := [SamlSP.ValidateResponse; SamlSP.ValidateRequestID;
                               SamlSP.CheckIssuer] |} /\
  forall msg, Response.status (SamlSP.ConflictError msg) = 400.
Proof.
  apply (acs_issuer_mismatch
           (More.lib_with
              (Ok {| SamlSP.name_id := "eve@example.com";
                     SamlSP.in_response_to := None;
                     SamlSP.issuer := "https://evil.example.com";
                     SamlSP.audience := "urn:sp";
                     SamlSP.attributes := [] |}))
           PNone Sample.sp (Sample.acs_request (PDict [])) [] 1000
           "PHNhbWxwOlJlc3BvbnNlPg");
    try reflexivity.
  discriminate.
Defined.

Lemma getitem_written (session : dict) (username attrs : pyval) :
  getitem (PDict (dict_set (dict_set session "attributes" attrs) "username" username))
    "username" = Ok username /\
  getitem (PDict (dict_set (dict_set session "attributes" attrs) "username" username))
    "attributes" = Ok attrs.
Proof.
  cbn [getitem]. rewrite dict_get_set_same.
  rewrite dict_get_set_other by discriminate. rewrite dict_get_set_same. auto.
Qed.

(** How a login ends once the hooks have returned: with the redirect
    to the target and the session written when Bottle takes the
    target as a header value, with the [ValueError] of [add_header]
    when it does not. *)
Lemma acs_login_result
      (lib : SamlSP.Lib) (DEBUG : pyval) (self : SamlSP.t)
      (request : SamlSP.Request) (session : dict) (now : Z)
      (raw : string) (saml_resp : SamlSP.SamlResponse) (username attrs : pyval) :
  SamlSP.is_authenticated (SamlSP.session request) now = Ok false ->
  SamlSP.forms_item (SamlSP.forms request) "SAMLResponse" = Ok raw ->
  SamlSP.validate_response lib raw
    (SamlSP.saml_certificate self) (SamlSP.saml_audience self) = Ok saml_resp ->
  ReqID.validate_requestID DEBUG (SamlSP.reqid self) now
    (SamlSP.opt_str (SamlSP.in_response_to saml_resp)) = Ok true ->
  SamlSP.issuer saml_resp = SamlSP.saml_issuer self ->
  SamlSP.run_hooks (SamlSP.login_hooks self)
    (fst (SamlSP.build_attrs_list self now (PStr (SamlSP.name_id saml_resp)) saml_resp))
    (PDict (snd (SamlSP.build_attrs_list self now
                   (PStr (SamlSP.name_id saml_resp)) saml_resp)))
  = Ok (username, attrs) ->
  SamlSP.relay_get
    (SamlSP.parse_qs lib
       (SamlSP.get (SamlSP.forms_get (SamlSP.forms request) "RelayState") ""))
    "next" <> Some [] ->
  (Response.hval_ok
     (More.target
        (SamlSP.parse_qs lib
           (SamlSP.get (SamlSP.forms_get (SamlSP.forms request) "RelayState") "")))
   = true ->
   exists r,
     SamlSP.finish_saml_login_work lib DEBUG self request session now = Ok r /\
     Response.status (SamlSP.acs_response r) = 302 /\
     Response.get_all (SamlSP.acs_response r) "Location"
     = [More.target
          (SamlSP.parse_qs lib
             (SamlSP.get (SamlSP.forms_get (SamlSP.forms request) "RelayState") ""))] /\
     SamlSP.acs_session r
     = dict_set (dict_set session "attributes" attrs) "username" username) /\
  (Response.hval_ok
     (More.target
        (SamlSP.parse_qs lib
           (SamlSP.get (SamlSP.forms_get (SamlSP.forms request) "RelayState") "")))
   = false ->
   SamlSP.finish_saml_login_work lib DEBUG self request session now = Raise ValueError).
Proof.
  intros Hauth Hraw Hresp Hid Hiss Hrun Hrelay.
  unfold SamlSP.finish_saml_login_work.
  rewrite Hauth. cbn [bind]. rewrite Hraw, Hresp, Hid. cbn [bind negb].
  rewrite Hiss, String.eqb_refl. cbn [negb]. rewrite Hrun.
  unfold More.target, Response.hval.
  destruct (SamlSP.relay_get _ "next") as [[|u l]|]; cbn [bind]; [congruence | |].
  - split; intros Hok; rewrite Hok; cbn [bind]; [|reflexivity].
    eexists. split; [reflexivity |]. repeat split.
  - split; intros Hok; rewrite Hok; cbn [bind]; [|reflexivity].
    eexists. split; [reflexivity |]. repeat split.
Qed.

(** A login without further hooks.  When the target, the first 'next'
    of the relay state or '/' when it has none, is a text that Bottle
    takes as a header value, the answer is a 302 to it; the session
    gets the extracted username and attributes and keeps its other
    keys; and the session written is authenticated at a later second
    exactly when the username is truthy and that second is not after
    the clock of the login plus the configured duration.  When the
    target holds a line feed, a carriage return or a NUL, the callback
    raises the [ValueError] of [add_header]. *)
Theorem acs_login_writes_session
        (lib : SamlSP.Lib) (DEBUG : pyval) (self : SamlSP.t)
        (request : SamlSP.Request) (session : dict) (now : Z)
        (raw : string) (saml_resp : SamlSP.SamlResponse) :
  SamlSP.is_authenticated (SamlSP.session request) now = Ok false ->
  SamlSP.forms_item (SamlSP.forms request) "SAMLResponse" = Ok raw ->
  SamlSP.validate_response lib raw
    (SamlSP.saml_certificate self) (SamlSP.saml_audience self) = Ok saml_resp ->
  ReqID.validate_requestID DEBUG (SamlSP.reqid self) now
    (SamlSP.opt_str (SamlSP.in_response_to saml_resp)) = Ok true ->
  SamlSP.issuer saml_resp = SamlSP.saml_issuer self ->
  SamlSP.login_hooks self = [] ->
  SamlSP.relay_get
    (SamlSP.parse_qs lib
       (SamlSP.get (SamlSP.forms_get (SamlSP.forms request) "RelayState") ""))
    "next" <> Some [] ->
  (Response.hval_ok
     (More.target
        (SamlSP.parse_qs lib
           (SamlSP.get (SamlSP.forms_get (SamlSP.forms request) "RelayState") "")))
   = true ->
   exists r,
     SamlSP.finish_saml_login_work lib DEBUG self request session now = Ok r /\
     Response.status (SamlSP.acs_response r) = 302 /\
     Response.get_all (SamlSP.acs_response r) "Location"
     = [More.target
          (SamlSP.parse_qs lib
             (SamlSP.get (SamlSP.forms_get (SamlSP.forms request) "RelayState") ""))] /\
     dict_get (SamlSP.acs_session r) "username"
     = Some (fst (SamlSP.build_attrs_list self now
                    (PStr (SamlSP.name_id saml_resp)) saml_resp)) /\
     dict_get (SamlSP.acs_session r) "attributes"
     = Some (PDict (snd (SamlSP.build_attrs_list self now
                           (PStr (SamlSP.name_id saml_resp)) saml_resp))) /\
     (forall k, k <> "username" -> k <> "attributes" ->
                dict_get (SamlSP.acs_session r) k = dict_get session k) /\
     (forall later,
         SamlSP.is_authenticated (PDict (SamlSP.acs_session r)) later = Ok true <->
         truthy (fst (SamlSP.build_attrs_list self now
                        (PStr (SamlSP.name_id saml_resp)) saml_resp)) = true /\
         later <= now + SamlSP.auth_duration self)) /\
  (Response.hval_ok
     (More.target
        (SamlSP.parse_qs lib
           (SamlSP.get (SamlSP.forms_get (SamlSP.forms request) "RelayState") "")))
   = false ->
   SamlSP.finish_saml_login_work lib DEBUG self request session now = Raise ValueError).
Proof.
  intros Hauth Hraw Hresp Hid Hiss Hhooks Hrelay.
  set (first := SamlSP.build_attrs_list self now (PStr (SamlSP.name_id saml_resp))
                  saml_resp).
  assert (Hrun : SamlSP.run_hooks (SamlSP.login_hooks self) (fst first)
                   (PDict (snd first)) = Ok (fst first, PDict (snd first)))
    by (now rewrite Hhooks).
  destruct (acs_login_result lib DEBUG self request session now raw saml_resp
              (fst first) (PDict (snd first)) Hauth Hraw Hresp Hid Hiss Hrun Hrelay)
    as [Hgood Hbad].
  split; [|exact Hbad].
  intros Hok. destruct (Hgood Hok) as (r & Hr & Hst & Hloc & Hsess).
  exists r. split; [exact Hr |]. split; [exact Hst |]. split; [exact Hloc |].
  rewrite Hsess.
  split; [apply dict_get_set_same |].
  split; [rewrite dict_get_set_other by discriminate; apply dict_get_set_same |].
  split; [intros k Hu Ha; rewrite !dict_get_set_other by congruence; reflexivity |].
  intros later. rewrite is_authenticated_true.
  unfold Spec.username_set, Spec.expiry_not_passed, Spec.expiry.
  destruct (getitem_written session (fst first) (PDict (snd first))) as [Gu Ga].
  rewrite Gu, Ga.
  assert (Gs : getitem (PDict (snd first)) "_saml"
               = Ok (PDict [("name_id", PStr (SamlSP.name_id saml_resp));
                            ("request_id", SamlSP.opt_str (SamlSP.in_response_to saml_resp));
                            ("issuer", PStr (SamlSP.issuer saml_resp));
                            ("audience", PStr (SamlSP.audience saml_resp));
                            ("expires", PInt (now + SamlSP.auth_duration self))]))
    by (unfold first, SamlSP.build_attrs_list; cbn [snd getitem];
        now rewrite dict_get_set_same).
  rewrite Gs. cbn [getitem dict_get String.eqb Ascii.eqb Bool.eqb Spec.int_of].
  split.
  - intros [(u0 & Hu0 & Ht) (e & He & Hle)]. inversion Hu0; subst u0.
    inversion He; subst e. auto.
  - intros [Ht Hle]. split; [exists (fst first); auto |].
    eexists. split; [reflexivity | exact Hle].
Qed.

Lemma acs_login_writes_session_witness :
  (Response.hval_ok
     (More.target
        (SamlSP.parse_qs Sample.lib
           (SamlSP.get
              (SamlSP.forms_get (SamlSP.forms (Sample.acs_request (PDict [])))
                 "RelayState") "")))
   = true ->
   exists r,
     SamlSP.finish_saml_login_work Sample.lib PNone Sample.sp
       (Sample.acs_request (PDict [])) [("cart", PList [PInt 3])] 1000 = Ok r /\
     Response.status (SamlSP.acs_response r) = 302 /\
     Response.get_all (SamlSP.acs_response r) "Location"
     = [More.target
          (SamlSP.parse_qs Sample.lib
             (SamlSP.get
                (SamlSP.forms_get (SamlSP.forms (Sample.acs_request (PDict [])))
                   "RelayState") ""))] /\
     dict_get (SamlSP.acs_session r) "username"
     = Some (fst (SamlSP.build_attrs_list Sample.sp 1000
                    (PStr (SamlSP.name_id Sample.assertion)) Sample.assertion)) /\
     dict_get (SamlSP.acs_session r) "attributes"
     = Some (PDict (snd (SamlSP.build_attrs_list Sample.sp 1000
                           (PStr (SamlSP.name_id Sample.assertion)) Sample.assertion))) /\
     (forall k, k <> "username" -> k <> "attributes" ->
                dict_get (SamlSP.acs_session r) k
                = dict_get [("cart", PList [PInt 3])] k) /\
     (forall later,
         SamlSP.is_authenticated (PDict (SamlSP.acs_session r)) later = Ok true <->
         truthy (fst (SamlSP.build_attrs_list Sample.sp 1000
                        (PStr (SamlSP.name_id Sample.assertion)) Sample.assertion)) = true /\
         later <= 1000 + SamlSP.auth_duration Sample.sp)) /\
  (Response.hval_ok
     (More.target
        (SamlSP.parse_qs Sample.lib
           (SamlSP.get
              (SamlSP.forms_get (SamlSP.forms (Sample.acs_request (PDict [])))
                 "RelayState") "")))
   = false ->
   SamlSP.finish_saml_login_work Sample.lib PNone Sample.sp
     (Sample.acs_request (PDict [])) [("cart", PList [PInt 3])] 1000
   = Raise ValueError).
Proof.
  apply (acs_login_writes_session Sample.lib PNone Sample.sp
           (Sample.acs_request (PDict [])) [("cart", PList [PInt 3])] 1000
           "PHNhbWxwOlJlc3BvbnNlPg" Sample.assertion);
    try reflexivity.
  discriminate.
Defined.

(** The relay state of a browser that was sent to the callback with a
    line feed in the target (RelayState [next=%2Fa%0Ab]): the login
    goes through the hooks and ends in the [ValueError]. *)
Example acs_login_bad_target :
  SamlSP.finish_saml_login_work More.lib_line_feed PNone Sample.sp
    (Sample.acs_request (PDict [])) [] 1000
  = Raise ValueError.
Proof. reflexivity. Qed.

(** An identity claim that comes without a value: the login is
    answered 302 like any other (the target being a text that Bottle
    takes as a header value), the username written to the session is
    [None], and the session is not authenticated at any second, so
    that the next protected request starts a login again. *)
Theorem acs_login_without_identity_value
        (lib : SamlSP.Lib) (DEBUG : pyval) (self : SamlSP.t)
        (request : SamlSP.Request) (session : dict) (now : Z)
        (raw : string) (saml_resp : SamlSP.SamlResponse) (a : SamlSP.Attribute) :
  SamlSP.is_authenticated (SamlSP.session request) now = Ok false ->
  SamlSP.forms_item (SamlSP.forms request) "SAMLResponse" = Ok raw ->
  SamlSP.validate_response lib raw
    (SamlSP.saml_certificate self) (SamlSP.saml_audience self) = Ok saml_resp ->
  ReqID.validate_requestID DEBUG (SamlSP.reqid self) now
    (SamlSP.opt_str (SamlSP.in_response_to saml_resp)) = Ok true ->
  SamlSP.issuer saml_resp = SamlSP.saml_issuer self ->
  SamlSP.login_hooks self = [] ->
  SamlSP.relay_get
    (SamlSP.parse_qs lib
       (SamlSP.get (SamlSP.forms_get (SamlSP.forms request) "RelayState") ""))
    "next" <> Some [] ->
  Response.hval_ok
    (More.target
       (SamlSP.parse_qs lib
          (SamlSP.get (SamlSP.forms_get (SamlSP.forms request) "RelayState") "")))
  = true ->
  SamlSP.allowed self (SamlSP.attr_uid self) = true ->
  Spec.last_claim (SamlSP.attr_uid self) (SamlSP.attributes saml_resp) = Some a ->
  SamlSP.values a = [] ->
  exists r,
    SamlSP.finish_saml_login_work lib DEBUG self request session now = Ok r /\
    Response.status (SamlSP.acs_response r) = 302 /\
    dict_get (SamlSP.acs_session r) "username" = Some PNone /\
    forall later,
      SamlSP.is_authenticated (PDict (SamlSP.acs_session r)) later = Ok false.
Proof.
  intros Hauth Hraw Hresp Hid Hiss Hhooks Hrelay Hok Hall Hlast Hvals.
  assert (Hname : fst (SamlSP.build_attrs_list self now
                         (PStr (SamlSP.name_id saml_resp)) saml_resp) = PNone).
  { unfold SamlSP.build_attrs_list. cbn [fst].
    rewrite collect_get, Hall, Hlast. cbn [option_map]. now rewrite Hvals. }
  destruct (acs_login_result lib DEBUG self request session now raw saml_resp
              PNone
              (PDict (snd (SamlSP.build_attrs_list self now
                             (PStr (SamlSP.name_id saml_resp)) saml_resp)))
              Hauth Hraw Hresp Hid Hiss) as [Hgood _]; auto.
  { rewrite Hhooks, Hname. reflexivity. }
  destruct (Hgood Hok) as (r & Hr & Hst & _ & Hsess).
  exists r. split; [exact Hr |]. split; [exact Hst |]. rewrite Hsess.
  split; [apply dict_get_set_same |].
  intros later.
  destruct (is_authenticated_total
              (PDict (dict_set (dict_set session "attributes"
                                  (PDict (snd (SamlSP.build_attrs_list self now
                                                 (PStr (SamlSP.name_id saml_resp))
                                                 saml_resp))))
                        "username" PNone)) later) as [[|] Hb]; [|exact Hb].
  apply is_authenticated_true in Hb. destruct Hb as [(u & Hu & Ht) _].
  cbn [getitem] in Hu. rewrite dict_get_set_same in Hu. inversion Hu; subst u.
  discriminate.
Qed.

Lemma acs_login_without_identity_value_witness :
  exists r,
    SamlSP.finish_saml_login_work (More.lib_with (Ok More.no_mail)) PNone More.mail_sp
      (Sample.acs_request (PDict [])) [] 1000 = Ok r /\
    Response.status (SamlSP.acs_response r) = 302 /\
    dict_get (SamlSP.acs_session r) "username" = Some PNone /\
    forall later,
      SamlSP.is_authenticated (PDict (SamlSP.acs_session r)) later = Ok false.
Proof.
  apply (acs_login_without_identity_value (More.lib_with (Ok More.no_mail)) PNone
           More.mail_sp (Sample.acs_request (PDict [])) [] 1000
           "PHNhbWxwOlJlc3BvbnNlPg" More.no_mail
           {| SamlSP.name := "mail"; SamlSP.values := [] |});
    try reflexivity.
  discriminate.
Defined.

(** Login hooks run in the order in which they were added, each on
    what the one before returned, after the hooks that were there;
    when one of the earlier hooks raises, the added one is not run. *)
Theorem add_login_hook_runs_last (self : SamlSP.t) (h : SamlSP.hook)
        (username attrs : pyval) :
  SamlSP.run_hooks (SamlSP.login_hooks (SamlSP.add_login_hook self h)) username attrs
  = match SamlSP.run_hooks (SamlSP.login_hooks self) username attrs with
    | Ok (u, a) => h u a
    | Raise e => Raise e
    end.
Proof.
  cbn [SamlSP.add_login_hook SamlSP.login_hooks]. rewrite run_hooks_app.
  destruct (SamlSP.run_hooks (SamlSP.login_hooks self) username attrs) as [[u a]|e];
    cbn [bind fst snd SamlSP.run_hooks]; [|reflexivity].
  destruct (h u a) as [[u' a']|e]; reflexivity.
Qed.

(** ** What extraction stores *)

(** The entry of an allowed claim: when the assertion carries the
    claim several times the last one is kept (values are not merged);
    one value is stored as a string, several as the list of them in
    their order, none as [None]. *)
Theorem build_attrs_list_value
        (self : SamlSP.t) (now : Z) (username : pyval)
        (saml_resp : SamlSP.SamlResponse) (k : string) (a : SamlSP.Attribute) :
  SamlSP.allowed self k = true ->
  k <> "username" -> k <> "_saml" ->
  Spec.last_claim k (SamlSP.attributes saml_resp) = Some a ->
  dict_get (snd (SamlSP.build_attrs_list self now username saml_resp)) k
  = Some (SamlSP.claim_value (SamlSP.values a)) /\
  (forall v, SamlSP.values a = [v] ->
             SamlSP.claim_value (SamlSP.values a) = PStr v) /\
  (SamlSP.values a = [] -> SamlSP.claim_value (SamlSP.values a) = PNone) /\
  ((2 <= List.length (SamlSP.values a))%nat ->
   SamlSP.claim_value (SamlSP.values a) = PList (map PStr (SamlSP.values a))).
Proof.
  intros Hall Hu Hs Hlast.
  rewrite build_attrs_list_get by assumption.
  rewrite collect_get, Hall, Hlast. cbn [option_map].
  split; [reflexivity |]. split; [intros v ->; reflexivity |].
  split; [intros ->; reflexivity |].
  destruct (SamlSP.values a) as [|v1 [|v2 vs]]; cbn [List.length]; intros Hlen;
    [lia | lia | reflexivity].
Qed.

Lemma build_attrs_list_value_witness :
  dict_get (snd (SamlSP.build_attrs_list Sample.sp 1000 (PStr "alice@example.org")
                   Sample.assertion)) "role"
  = Some (SamlSP.claim_value
            (SamlSP.values {| SamlSP.name := "role"; SamlSP.values := ["user"; "staff"] |})) /\
  (forall v,
      SamlSP.values {| SamlSP.name := "role"; SamlSP.values := ["user"; "staff"] |} = [v] ->
      SamlSP.claim_value
        (SamlSP.values {| SamlSP.name := "role"; SamlSP.values := ["user"; "staff"] |})
      = PStr v) /\
  (SamlSP.values {| SamlSP.name := "role"; SamlSP.values := ["user"; "staff"] |} = [] ->
   SamlSP.claim_value
     (SamlSP.values {| SamlSP.name := "role"; SamlSP.values := ["user"; "staff"] |})
   = PNone) /\
  ((2 <= List.length
           (SamlSP.values {| SamlSP.name := "role"; SamlSP.values := ["user"; "staff"] |}))%nat ->
   SamlSP.claim_value
     (SamlSP.values {| SamlSP.name := "role"; SamlSP.values := ["user"; "staff"] |})
   = PList (map PStr
              (SamlSP.values {| SamlSP.name := "role";
                                SamlSP.values := ["user"; "staff"] |}))).
Proof.
  apply (build_attrs_list_value Sample.sp 1000 (PStr "alice@example.org")
           Sample.assertion "role"
           {| SamlSP.name := "role"; SamlSP.values := ["user"; "staff"] |});
    try reflexivity; discriminate.
Defined.

(** The two reserved entries.  'username' is the returned username
    unless the allow-list names 'username' and the assertion carries
    such a claim, whose value is then kept and may differ from the
    returned username.  '_saml' is always the metadata of this login:
    a claim of that name, allowed or not, is overwritten. *)
Theorem build_attrs_list_reserved
        (self : SamlSP.t) (now : Z) (username : pyval)
        (saml_resp : SamlSP.SamlResponse) :
  (dict_get (SamlSP.collect self (SamlSP.attributes saml_resp)) "username" = None ->
   dict_get (snd (SamlSP.build_attrs_list self now username saml_resp)) "username"
   = Some (fst (SamlSP.build_attrs_list self now username saml_resp))) /\
  (forall a,
      SamlSP.allowed self "username" = true ->
      Spec.last_claim "username" (SamlSP.attributes saml_resp) = Some a ->
      dict_get (snd (SamlSP.build_attrs_list self now username saml_resp)) "username"
      = Some (SamlSP.claim_value (SamlSP.values a))) /\
  dict_get (snd (SamlSP.build_attrs_list self now username saml_resp)) "_saml"
  = Some (PDict [("name_id", PStr (SamlSP.name_id saml_resp));
                 ("request_id", SamlSP.opt_str (SamlSP.in_response_to saml_resp));
                 ("issuer", PStr (SamlSP.issuer saml_resp));
                 ("audience", PStr (SamlSP.audience saml_resp));
                 ("expires", PInt (now + SamlSP.auth_duration self))]).
Proof.
  unfold SamlSP.build_attrs_list. cbn [fst snd]. split; [|split].
  - intros Hn. rewrite dict_get_set_other by discriminate.
    unfold dict_mem. rewrite Hn. cbn [negb]. apply dict_get_set_same.
  - intros a Hall Hlast. rewrite dict_get_set_other by discriminate.
    assert (Hc : dict_get (SamlSP.collect self (SamlSP.attributes saml_resp)) "username"
                 = Some (SamlSP.claim_value (SamlSP.values a)))
      by now rewrite collect_get, Hall, Hlast.
    unfold dict_mem. rewrite Hc. cbn [negb]. exact Hc.
  - apply dict_get_set_same.
Qed.

(** On the assertion with an identity claim without value, a claim
    'username' and a forged claim '_saml', all allowed: the returned
    username is [None], the entry 'username' is the claim, and '_saml'
    is the metadata. *)
Example reserved_entries_sample :
  SamlSP.build_attrs_list More.mail_sp 1000 (PStr "bob@example.org") More.no_mail
  = (PNone,
     [("mail", PNone);
      ("username", PStr "bobby");
      ("_saml", PDict [("name_id", PStr "bob@example.org");
                       ("request_id", PNone);
                       ("issuer", PStr "https://idp.example.org");
                       ("audience", PStr "urn:sp");
                       ("expires", PInt 1600)])]).
Proof. reflexivity. Qed.

(** ** Installing the plugin *)

Lemma setup_loop_error (oid : nat) (plugins : list Plugin.plugin) :
  Plugin.setup_loop oid plugins = Some (Plugin.PluginError Plugin.emsg) <->
  exists pre other post,
    plugins = (pre ++ Plugin.SamlAuthPlugin other :: post)%list /\
    other <> oid /\
    forall p, In p pre -> Plugin.is_SamlAuth p = false /\ Plugin.oid_of p <> oid.
Proof.
  induction plugins as [|p rest IH].
  - split; [discriminate |].
    intros (pre & other & post & H & _). destruct pre; discriminate.
  - destruct p as [o|o]; cbn [Plugin.setup_loop];
      destruct (Nat.eqb o oid) eqn:E;
      [apply Nat.eqb_eq in E | apply Nat.eqb_neq in E
       | apply Nat.eqb_eq in E | apply Nat.eqb_neq in E].
    + split; [discriminate |].
      intros (pre & other & post & H & Hne & Hpre). destruct pre as [|q pre].
      * inversion H; subst. contradiction.
      * inversion H; subst. destruct (Hpre _ (or_introl eq_refl)). discriminate.
    + split; [intros _ | reflexivity].
      exists [], o, rest.
      split; [reflexivity | split; [exact E | intros q []]].
    + split; [discriminate |].
      intros (pre & other & post & H & Hne & Hpre). destruct pre as [|q pre].
      * inversion H.
      * inversion H; subst. destruct (Hpre _ (or_introl eq_refl)) as [_ Hq].
        exfalso. now apply Hq.
    + rewrite IH. split.
      * intros (pre & other & post & H & Hne & Hpre).
        exists (Plugin.OtherPlugin o :: pre), other, post.
        split; [now rewrite H |]. split; [exact Hne |].
        intros p [<- | Hin]; [split; [reflexivity | exact E] | now apply Hpre].
      * intros (pre & other & post & H & Hne & Hpre). destruct pre as [|q pre].
        -- inversion H.
        -- inversion H; subst. exists pre, other, post.
           split; [reflexivity |]. split; [exact Hne |].
           intros p Hin. apply Hpre. now right.
Qed.

(** [setup] raises [PluginError] exactly when the list of installed
    plugins has another instance of [SamlAuth] that comes before the
    plugin itself (or without it); on a list without the plugin and
    without another instance it ends normally, with the mode in the
    line for the log. *)
Theorem setup_second_instance
        (self : SamlAuth.t) (oid : nat) (plugins : list Plugin.plugin) :
  (Plugin.setup self oid plugins = Plugin.PluginError Plugin.emsg <->
   exists pre other post,
     plugins = (pre ++ Plugin.SamlAuthPlugin other :: post)%list /\
     other <> oid /\
     forall p, In p pre -> Plugin.is_SamlAuth p = false /\ Plugin.oid_of p <> oid) /\
  ((forall p, In p plugins -> Plugin.is_SamlAuth p = false /\ Plugin.oid_of p <> oid) ->
   Plugin.setup self oid plugins
   = Plugin.Installed
       ("SAMLAuth: Authenticating in OPT-"
          ++ (if SamlAuth.authn_all_routes self then "OUT" else "IN") ++ " mode")).
Proof.
  split.
  - rewrite <- setup_loop_error. unfold Plugin.setup.
    destruct (Plugin.setup_loop oid plugins) as [o|].
    + split; congruence.
    + split; discriminate.
  - intros Hall. unfold Plugin.setup.
    assert (Hloop : Plugin.setup_loop oid plugins = None).
    { induction plugins as [|p rest IH]; [reflexivity |].
      destruct (Hall p (or_introl eq_refl)) as [Hs Ho].
      destruct p as [o|o]; [discriminate |]. cbn [Plugin.setup_loop].
      cbn in Ho. apply Nat.eqb_neq in Ho. rewrite Ho.
      apply IH. intros q Hq. apply Hall. now right. }
    now rewrite Hloop.
Qed.

(** Installing the plugin again: the list that already has it first
    among the instances of [SamlAuth] is accepted without a word, even
    with a second instance behind it. *)
Example setup_twice :
  Plugin.setup Sample.auth 7
    [Plugin.OtherPlugin 1; Plugin.SamlAuthPlugin 7; Plugin.SamlAuthPlugin 9]
  = Plugin.Ignored /\
  Plugin.setup Sample.auth 7
    [Plugin.OtherPlugin 1; Plugin.SamlAuthPlugin 9; Plugin.SamlAuthPlugin 7]
  = Plugin.PluginError Plugin.emsg /\
  Plugin.setup Sample.auth 7 [Plugin.OtherPlugin 1]
  = Plugin.Installed "SAMLAuth: Authenticating in OPT-OUT mode".
Proof. repeat split. Qed.

(** ** Requirements by prefix *)

Lemma dict_get_app (d e : dict) (k : string) :
  dict_get (d ++ e)%list k
  = match dict_get d k with
    | Some v => Some v
    | None => dict_get e k
    end.
Proof.
  induction d as [|[k' v'] d IH]; simpl; [reflexivity |].
  now destruct (k' =? k)%string.
Qed.

(** [d.update(e)]: a key gets the last value [e] gives it, and keeps
    its own when [e] does not name it. *)
Lemma dict_update_get (d e : dict) (k : string) :
  dict_get (dict_update d e) k
  = match More.last_value e k with
    | Some v => Some v
    | None => dict_get d k
    end.
Proof.
  unfold dict_update, More.last_value. revert d.
  induction e as [|[k0 v0] e IH]; intros d; [reflexivity |].
  cbn [fold_left fst snd rev]. rewrite IH, dict_get_app.
  destruct (dict_get (rev e) k); [reflexivity |].
  cbn [dict_get]. destruct (k0 =? k)%string eqn:E.
  - apply String.eqb_eq in E. subst. apply dict_get_set_same.
  - apply String.eqb_neq in E. now apply dict_get_set_other.
Qed.

Lemma prefix_fold_get (rule : string) (entries : list (string * dict))
      (acc : dict) (k : string) :
  dict_get
    (fold_left
       (fun req_attrs entry =>
          if Str.startswith rule (fst entry)
          then dict_update req_attrs (snd entry)
          else req_attrs)
       entries acc) k
  = match More.last_value
            (flat_map snd
               (filter (fun entry => Str.startswith rule (fst entry)) entries)) k with
    | Some v => Some v
    | None => dict_get acc k
    end.
Proof.
  revert acc. induction entries as [|[p req] entries IH]; intros acc; [reflexivity |].
  cbn [fold_left filter fst snd]. rewrite IH.
  destruct (Str.startswith rule p); [|reflexivity].
  cbn [flat_map snd]. unfold More.last_value. rewrite rev_app_distr, dict_get_app.
  destruct (dict_get (rev (flat_map snd _)) k); [reflexivity |].
  apply dict_update_get.
Qed.

Lemma prefix_fold_empty (rule : string) (entries : list (string * dict)) (acc : dict) :
  flat_map snd (filter (fun entry => Str.startswith rule (fst entry)) entries) = [] ->
  fold_left
    (fun req_attrs entry =>
       if Str.startswith rule (fst entry)
       then dict_update req_attrs (snd entry)
       else req_attrs)
    entries acc = acc.
Proof.
  revert acc. induction entries as [|[p req] entries IH]; intros acc; [reflexivity |].
  cbn [fold_left filter fst snd].
  destruct (Str.startswith rule p); [|apply IH].
  cbn [flat_map snd]. intros Hnil. apply app_eq_nil in Hnil.
  destruct Hnil as [-> Hrest]. now apply IH.
Qed.

(** The requirements a route gets from the prefix table.  In opt-out
    mode a claim is required with the value of the last matching
    prefix, in the order of the table, that names it (the maps of the
    matching prefixes are merged, the later one winning); in opt-in
    mode, and for a rule that no prefix matches, there is no
    requirement and the route is left undecorated. *)
Theorem prefix_requirements_merge (self : SamlAuth.t) (route : SamlAuth.Route) :
  (SamlAuth.authn_all_routes self = true ->
   forall k, dict_get (SamlAuth.prefix_requirements self route) k
             = More.last_value (More.matching_items self route) k) /\
  (SamlAuth.authn_all_routes self = false \/ More.matching_items self route = [] ->
   SamlAuth.prefix_requirements self route = [] /\
   forall f, SamlAuth.apply_prefix_attrs self f route = f).
Proof.
  unfold SamlAuth.prefix_requirements, More.matching_items. split.
  - intros Hmode k. rewrite Hmode, prefix_fold_get.
    now destruct (More.last_value _ k).
  - intros Hcase.
    assert (Hempty : (if SamlAuth.authn_all_routes self
                      then fold_left
                             (fun req_attrs entry =>
                                if Str.startswith (SamlAuth.rule route) (fst entry)
                                then dict_update req_attrs (snd entry)
                                else req_attrs)
                             (SamlAuth.authz_by_prefix self) []
                      else []) = []).
    { destruct (SamlAuth.authn_all_routes self); [|reflexivity].
      destruct Hcase as [Hc | Hc]; [discriminate |].
      now apply prefix_fold_empty. }
    split; [exact Hempty |].
    intros f. unfold SamlAuth.apply_prefix_attrs, SamlAuth.prefix_requirements.
    now rewrite Hempty.
Qed.

(** The dashboard under the three prefixes of the sample table: the
    root prefix and [/admin] match, and [/admin] wins for the role. *)
Example prefix_requirements_sample :
  SamlAuth.prefix_requirements More.two_prefixes Sample.dashboard
  = [("role", PStr "admin"); ("dept", PStr "it")] /\
  SamlAuth.prefix_requirements More.two_prefixes More.home
  = [("role", PStr "user"); ("dept", PStr "it")] /\
  SamlAuth.prefix_requirements More.opt_in Sample.dashboard = [].
Proof. repeat split. Qed.

(** ** The decorators together *)

(** A route is left as it is, its callback called for everybody, when
    it has no [authz] entry (or an empty one) and either the plugin is
    in opt-in mode and the route's [authn] is not truthy, whatever the
    prefix table says, or [authn] is [False] and no prefix requirement
    applies to the rule. *)
Theorem apply_undecorated (lib : SamlSP.Lib) (self : SamlAuth.t)
        (f : SamlAuth.handler) (route : SamlAuth.Route) :
  SamlAuth.config_authz route = None \/ SamlAuth.config_authz route = Some [] ->
  (SamlAuth.authn_all_routes self = false /\
   truthy (SamlSP.get (SamlAuth.config_authn route) (PBool false)) = false) \/
  (SamlAuth.config_authn route = Some (PBool false) /\
   SamlAuth.prefix_requirements self route = []) ->
  SamlAuth.apply lib self f route = f.
Proof.
  intros Hz Hn. unfold SamlAuth.apply, SamlAuth.apply_checks. cbn [fold_left].
  assert (Hattrs : SamlAuth.apply_require_attrs self f route = f).
  { unfold SamlAuth.apply_require_attrs. destruct Hz as [-> | ->]; reflexivity. }
  assert (Hprefix : SamlAuth.prefix_requirements self route = []).
  { destruct Hn as [[Hmode _] | [_ Hp]]; [|exact Hp].
    unfold SamlAuth.prefix_requirements. now rewrite Hmode. }
  rewrite Hattrs. unfold SamlAuth.apply_prefix_attrs. rewrite Hprefix. cbn [truthy negb].
  unfold SamlAuth.apply_require_authn, SamlAuth.authn_is_False.
  destruct Hn as [[Hmode Hauthn] | [Hauthn _]].
  - rewrite Hmode, Hauthn. cbn [orb].
    destruct Hz as [-> | ->]; cbn [truthy];
      now destruct (SamlAuth.config_authn route) as [[|[|]| | | |]|].
  - now rewrite Hauthn.
Qed.

Lemma apply_undecorated_witness :
  SamlAuth.apply Sample.lib More.opt_in Sample.hello Sample.dashboard = Sample.hello.
Proof.
  apply (apply_undecorated Sample.lib More.opt_in Sample.hello Sample.dashboard).
  - left. reflexivity.
  - left. split; reflexivity.
Defined.

Lemma authz_required_met (req_attrs attrs : dict) (f : SamlAuth.handler)
      (ctx : SamlAuth.Ctx) :
  SamlSP.is_authenticated (SamlSP.session (SamlAuth.request ctx))
    (SamlAuth.now ctx) = Ok true ->
  getitem (SamlSP.session (SamlAuth.request ctx)) "attributes" = Ok (PDict attrs) ->
  (if truthy (PDict req_attrs) then SamlAuth.authz_required req_attrs f else f) ctx
  = if More.met req_attrs attrs then f ctx
    else Ok (SamlAuth.UnauthorizedError "Permission not granted").
Proof.
  intros Ha Hs. destruct req_attrs as [|kv rest]; [reflexivity |].
  cbn [truthy]. now apply authz_required_authenticated.
Qed.

(** For an authenticated session the checks of a route are a
    conjunction: whatever the mode and the route's [authn], the
    callback runs when the session's attributes satisfy both the
    route's own requirement and the one merged from the prefixes, and
    the answer is the 401 otherwise. *)
Theorem apply_authenticated (lib : SamlSP.Lib) (self : SamlAuth.t)
        (f : SamlAuth.handler) (route : SamlAuth.Route) (ctx : SamlAuth.Ctx)
        (attrs : dict) :
  SamlSP.is_authenticated (SamlSP.session (SamlAuth.request ctx))
    (SamlAuth.now ctx) = Ok true ->
  getitem (SamlSP.session (SamlAuth.request ctx)) "attributes" = Ok (PDict attrs) ->
  (Spec.satisfied (SamlSP.get (SamlAuth.config_authz route) []) attrs /\
   Spec.satisfied (SamlAuth.prefix_requirements self route) attrs ->
   SamlAuth.apply lib self f route ctx = f ctx) /\
  (~ (Spec.satisfied (SamlSP.get (SamlAuth.config_authz route) []) attrs /\
      Spec.satisfied (SamlAuth.prefix_requirements self route) attrs) ->
   SamlAuth.apply lib self f route ctx
   = Ok (SamlAuth.UnauthorizedError "Permission not granted")).
Proof.
  intros Ha Hs.
  assert (Hrun : SamlAuth.apply lib self f route ctx
                 = if More.met (SamlAuth.prefix_requirements self route) attrs
                   then if More.met (SamlSP.get (SamlAuth.config_authz route) []) attrs
                        then f ctx
                        else Ok (SamlAuth.UnauthorizedError "Permission not granted")
                   else Ok (SamlAuth.UnauthorizedError "Permission not granted")).
  { unfold SamlAuth.apply, SamlAuth.apply_checks. cbn [fold_left].
    set (g := SamlAuth.apply_require_attrs self f route).
    set (h := SamlAuth.apply_prefix_attrs self g route).
    assert (Hg : g ctx
                 = if More.met (SamlSP.get (SamlAuth.config_authz route) []) attrs
                   then f ctx
                   else Ok (SamlAuth.UnauthorizedError "Permission not granted")).
    { unfold g, SamlAuth.apply_require_attrs.
      destruct (SamlAuth.config_authz route) as [req|]; [|reflexivity].
      now apply authz_required_met. }
    assert (Hh : h ctx
                 = if More.met (SamlAuth.prefix_requirements self route) attrs
                   then g ctx
                   else Ok (SamlAuth.UnauthorizedError "Permission not granted")).
    { unfold h, SamlAuth.apply_prefix_attrs.
      rewrite <- (authz_required_met _ attrs g ctx Ha Hs).
      now destruct (truthy (PDict (SamlAuth.prefix_requirements self route))). }
    assert (Hauth : SamlAuth.apply_require_authn lib self h route ctx = h ctx).
    { unfold SamlAuth.apply_require_authn.
      destruct (SamlAuth.authn_is_False route); [reflexivity |].
      destruct (_ || _ || _)%bool; [|reflexivity].
      unfold SamlAuth.auth_required. now rewrite Ha. }
    now rewrite Hauth, Hh, Hg. }
  pose proof (claims_met_satisfied (SamlSP.get (SamlAuth.config_authz route) []) attrs)
    as Hr.
  pose proof (claims_met_satisfied (SamlAuth.prefix_requirements self route) attrs)
    as Hp.
  rewrite Hrun. unfold More.met.
  destruct (forallb _ (dict_keys (SamlAuth.prefix_requirements self route)));
    destruct (forallb _ (dict_keys (SamlSP.get (SamlAuth.config_authz route) []))).
  - split; [reflexivity |]. intros Hn. exfalso. apply Hn. split; [apply Hr | apply Hp];
      reflexivity.
  - split; [|reflexivity]. intros [H _]. apply Hr in H. discriminate.
  - split; [|reflexivity]. intros [_ H]. apply Hp in H. discriminate.
  - split; [|reflexivity]. intros [H _]. apply Hr in H. discriminate.
Qed.

Lemma apply_authenticated_witness :
  (Spec.satisfied (SamlSP.get (SamlAuth.config_authz Sample.admin_route) [])
     [("role", PStr "admin"); ("dept", PStr "it");
      ("_saml", PDict [("expires", PInt 2000)])] /\
   Spec.satisfied (SamlAuth.prefix_requirements More.two_prefixes Sample.admin_route)
     [("role", PStr "admin"); ("dept", PStr "it");
      ("_saml", PDict [("expires", PInt 2000)])] ->
   SamlAuth.apply Sample.lib More.two_prefixes Sample.hello Sample.admin_route
     (Sample.ctx (Sample.session_until 2000
                    [("role", PStr "admin"); ("dept", PStr "it")]) 1000)
   = Sample.hello
       (Sample.ctx (Sample.session_until 2000
                      [("role", PStr "admin"); ("dept", PStr "it")]) 1000)) /\
  (~ (Spec.satisfied (SamlSP.get (SamlAuth.config_authz Sample.admin_route) [])
        [("role", PStr "admin"); ("dept", PStr "it");
         ("_saml", PDict [("expires", PInt 2000)])] /\
      Spec.satisfied (SamlAuth.prefix_requirements More.two_prefixes Sample.admin_route)
        [("role", PStr "admin"); ("dept", PStr "it");
         ("_saml", PDict [("expires", PInt 2000)])]) ->
   SamlAuth.apply Sample.lib More.two_prefixes Sample.hello Sample.admin_route
     (Sample.ctx (Sample.session_until 2000
                    [("role", PStr "admin"); ("dept", PStr "it")]) 1000)
   = Ok (SamlAuth.UnauthorizedError "Permission not granted")).
Proof.
  apply (apply_authenticated Sample.lib More.two_prefixes Sample.hello
           Sample.admin_route
           (Sample.ctx (Sample.session_until 2000
                          [("role", PStr "admin"); ("dept", PStr "it")]) 1000));
    reflexivity.
Defined.

(** Setting [authn=False] on a route takes the login redirect away
    but not the requirements of the prefix table: in opt-out mode a
    visitor who is not authenticated is answered 401 on such a route
    under a prefix with requirements (none of them on the claim
    'status'), and is not sent to the identity provider. *)
Theorem apply_authn_false_under_prefix
        (lib : SamlSP.Lib) (self : SamlAuth.t) (f : SamlAuth.handler)
        (route : SamlAuth.Route) (ctx : SamlAuth.Ctx) :
  SamlAuth.config_authn route = Some (PBool false) ->
  SamlAuth.prefix_requirements self route <> [] ->
  ~ In "status" (dict_keys (SamlAuth.prefix_requirements self route)) ->
  SamlSP.is_authenticated (SamlSP.session (SamlAuth.request ctx))
    (SamlAuth.now ctx) = Ok false ->
  SamlAuth.apply lib self f route ctx
  = Ok (SamlAuth.UnauthorizedError "Permission not granted") /\
  Response.status (SamlAuth.UnauthorizedError "Permission not granted") = 401.
Proof.
  intros Hauthn Hne Hst Hsess. split; [|reflexivity].
  unfold SamlAuth.apply, SamlAuth.apply_checks. cbn [fold_left].
  unfold SamlAuth.apply_require_authn, SamlAuth.authn_is_False. rewrite Hauthn.
  unfold SamlAuth.apply_prefix_attrs.
  destruct (SamlAuth.prefix_requirements self route) as [|kv rest] eqn:E;
    [congruence |].
  cbn [truthy negb]. now apply authz_required_unauthenticated.
Qed.

Lemma apply_authn_false_under_prefix_witness :
  SamlAuth.apply Sample.lib Sample.auth_by_prefix Sample.hello More.open_dashboard
    (Sample.ctx (PDict []) 1000)
  = Ok (SamlAuth.UnauthorizedError "Permission not granted") /\
  Response.status (SamlAuth.UnauthorizedError "Permission not granted") = 401.
Proof.
  apply (apply_authn_false_under_prefix Sample.lib Sample.auth_by_prefix Sample.hello
           More.open_dashboard (Sample.ctx (PDict []) 1000)).
  - reflexivity.
  - discriminate.
  - cbn. intros [H | []]. discriminate.
  - reflexivity.
Defined.

(** In opt-in mode a route asks for a login when its [authn] is
    truthy or when it has an [authz] entry that is not empty: a
    request that is not authenticated gets the redirect of
    [initiate_login] with the requested url as the target, before any
    attribute is looked at. *)
Theorem apply_opt_in_protected
        (lib : SamlSP.Lib) (self : SamlAuth.t) (f : SamlAuth.handler)
        (route : SamlAuth.Route) (ctx : SamlAuth.Ctx) :
  SamlAuth.authn_all_routes self = false ->
  truthy (SamlSP.get (SamlAuth.config_authn route) (PBool false)) = true \/
  (SamlAuth.config_authn route <> Some (PBool false) /\
   exists kv rest, SamlAuth.config_authz route = Some (kv :: rest)) ->
  SamlSP.is_authenticated (SamlSP.session (SamlAuth.request ctx))
    (SamlAuth.now ctx) = Ok false ->
  SamlAuth.apply lib self f route ctx
  = Ok (SamlSP.initiate_login lib (SamlAuth.saml self)
          (SamlAuth.now ctx) (SamlAuth.rnd ctx) false None
          [("next", SamlSP.url (SamlAuth.request ctx))]) /\
  Response.status
    (SamlSP.initiate_login lib (SamlAuth.saml self)
       (SamlAuth.now ctx) (SamlAuth.rnd ctx) false None
       [("next", SamlSP.url (SamlAuth.request ctx))]) = 302.
Proof.
  intros Hmode Hcase Hsess. split; [|reflexivity].
  unfold SamlAuth.apply, SamlAuth.apply_checks. cbn [fold_left].
  unfold SamlAuth.apply_require_authn.
  assert (Hskip : SamlAuth.authn_is_False route = false).
  { unfold SamlAuth.authn_is_False. destruct Hcase as [Ht | [Hne _]].
    - destruct (SamlAuth.config_authn route) as [[|[|]| | | |]|];
        try reflexivity; discriminate.
    - destruct (SamlAuth.config_authn route) as [[|[|]| | | |]|];
        try reflexivity; congruence. }
  rewrite Hskip, Hmode. cbn [orb].
  assert (Hon : (truthy (SamlSP.get (SamlAuth.config_authn route) (PBool false))
                 || truthy match SamlAuth.config_authz route with
                           | Some d => PDict d
                           | None => PBool false
                           end)%bool = true).
  { destruct Hcase as [Ht | [_ (kv & rest & Hz)]].
    - now rewrite Ht.
    - rewrite Hz. apply Bool.orb_true_r. }
  rewrite Hon. unfold SamlAuth.auth_required. now rewrite Hsess.
Qed.

Lemma apply_opt_in_protected_witness :
  SamlAuth.apply Sample.lib More.opt_in Sample.hello Sample.admin_route
    (Sample.ctx (PDict []) 1000)
  = Ok (SamlSP.initiate_login Sample.lib (SamlAuth.saml More.opt_in)
          (SamlAuth.now (Sample.ctx (PDict []) 1000))
          (SamlAuth.rnd (Sample.ctx (PDict []) 1000)) false None
          [("next", SamlSP.url (SamlAuth.request (Sample.ctx (PDict []) 1000)))]) /\
  Response.status
    (SamlSP.initiate_login Sample.lib (SamlAuth.saml More.opt_in)
       (SamlAuth.now (Sample.ctx (PDict []) 1000))
       (SamlAuth.rnd (Sample.ctx (PDict []) 1000)) false None
       [("next", SamlSP.url (SamlAuth.request (Sample.ctx (PDict []) 1000)))]) = 302.
Proof.
  apply (apply_opt_in_protected Sample.lib More.opt_in Sample.hello Sample.admin_route
           (Sample.ctx (PDict []) 1000)).
  - reflexivity.
  - right. split; [discriminate |]. do 2 eexists. reflexivity.
  - reflexivity.
Defined.

(** ** Edge cases of [test_attrs] *)

(** A requirement whose list of acceptable values is empty can not be
    met, and a claim stored as an empty list meets no requirement:
    for two lists [test_attrs] is true exactly when they share an
    element; a value that is not a list stands for the list of itself,
    [None] included. *)
Theorem test_attrs_edges (challenge standard : pyval) :
  SamlAuth.test_attrs challenge (PList []) = false /\
  SamlAuth.test_attrs (PList []) standard = false /\
  (SamlAuth.test_attrs challenge standard = true <->
   exists c s, In c (SamlAuth.as_list challenge) /\
               In s (SamlAuth.as_list standard) /\ Py.eqb c s = true) /\
  SamlAuth.test_attrs PNone PNone = true /\
  SamlAuth.test_attrs PNone (PList [PStr "admin"; PNone]) = true.
Proof.
  split; [|split; [reflexivity | split; [|split; reflexivity]]].
  - unfold SamlAuth.test_attrs. cbn [SamlAuth.as_list].
    induction (SamlAuth.as_list challenge) as [|c l IH]; [reflexivity | exact IH].
  - unfold SamlAuth.test_attrs. rewrite test_attrs_loop_spec. split.
    + intros (c & Hc & Hin). unfold list_contains in Hin.
      apply existsb_exists in Hin. destruct Hin as (s & Hs & Heq). eauto.
    + intros (c & s & Hc & Hs & Heq). exists c. split; [exact Hc |].
      unfold list_contains. apply existsb_exists. eauto.
Qed.

(** On a route whose requirement gives a claim an empty list of
    acceptable values, an authenticated session is refused whatever
    its attributes are. *)
Theorem empty_acceptable_list_denies
        (req_attrs : dict) (k : string) (f : SamlAuth.handler) (ctx : SamlAuth.Ctx) :
  dict_get req_attrs k = Some (PList []) ->
  SamlSP.is_authenticated (SamlSP.session (SamlAuth.request ctx))
    (SamlAuth.now ctx) = Ok true ->
  SamlAuth.authz_required req_attrs f ctx
  = Ok (SamlAuth.UnauthorizedError "Permission not granted").
Proof.
  intros Hk Ha. destruct (authenticated_attributes _ _ Ha) as [attrs Hs].
  rewrite (authz_required_authenticated req_attrs attrs f ctx Ha Hs).
  assert (Hf : forallb (Spec.claim_met req_attrs attrs) (dict_keys req_attrs) = false).
  { apply Bool.not_true_is_false. intros Ht. rewrite forallb_forall in Ht.
    assert (Hin : In k (dict_keys req_attrs)) by (apply dict_get_keys; eauto).
    specialize (Ht k Hin). unfold Spec.claim_met in Ht. rewrite Hk in Ht.
    destruct (dict_get attrs k) as [mine|]; [|discriminate].
    unfold SamlAuth.test_attrs in Ht. cbn [SamlAuth.as_list] in Ht.
    induction (SamlAuth.as_list mine) as [|c l IH]; [discriminate | now apply IH]. }
  now rewrite Hf.
Qed.

Lemma empty_acceptable_list_denies_witness :
  SamlAuth.authz_required [("role", PList [])] Sample.hello
    (Sample.ctx (Sample.session_until 2000 [("role", PStr "admin")]) 1000)
  = Ok (SamlAuth.UnauthorizedError "Permission not granted").
Proof.
  apply (empty_acceptable_list_denies [("role", PList [])] "role" Sample.hello
           (Sample.ctx (Sample.session_until 2000 [("role", PStr "admin")]) 1000));
    reflexivity.
Defined.
